(** * Retrieval and verification core of the 10-K question-answering pipeline

    A shallow embedding of the query router ([retrieval/query_router.py]),
    the two fusion strategies ([retrieval/hierarchical_retriever.py],
    [retrieval/hybrid_search.py]), the stage-B retrieval branches, the math
    verifier ([qa/math_verifier.py]) and the answer and ranking metrics
    ([evaluation/metrics.py]), followed by the properties the specification
    states about them and by further properties of the same code.

    Modelling conventions.
    - Python [str] is [string], holding the text in UTF-8: a character of
      ASCII text is one byte, and a slice [s[:n]] counts characters, not
      bytes. The keyword tables and the number pattern are ASCII;
      [str.lower], [str.split] and the classes [\d], [\w] and [\s] are
      modelled on ASCII characters and leave every other byte alone, so a
      property that depends on what they do beyond ASCII is stated for
      ASCII text.
    - Python [float] is IEEE binary64 in the math verifier ([Py.float64],
      the primitive floats): [float(s)] rounds to the nearest number, and
      sums, quotients and comparisons round, overflow and treat [inf] and
      [nan] as the interpreter does. Retrieval scores and the metrics are
      computed on the canonical rationals [Qc], that is in exact arithmetic;
      their literals ([0.7], [1.0], ...) are the rationals they denote.
    - Python [int] is [Z]; negative list indices and negative slice bounds
      count from the end, as in Python.
    - A call that can raise returns [Py.result]; the exception is the value.
    - A [dict] whose iteration order is observable is an association list in
      insertion order.
    - FAISS, BM25 and numpy are outside the repository. An index is the
      function from a query and a count to the neighbours it finds;
      [search] adds what every FAISS index does around it: the assertion
      that the count is positive and the padding to exactly that many rows. *)

From Stdlib Require Import ZArith QArith Qcanon String Ascii List Bool Lia.
From Stdlib Require Floats.
From stdpp Require Import base decidable list strings gmap gmultiset sorting.
Import PrimFloat.

(** ** The Python runtime the sources rely on *)

Module Py.

Inductive exn : Type :=
| IndexError
| KeyError
| AttributeError
| ZeroDivisionError
| ValueError
| AssertionError.

Inductive result (A : Type) : Type :=
| Ok (a : A)
| Raise (e : exn).

Arguments Ok {A} a.
Arguments Raise {A} e.

#[global] Instance exn_eq_dec : EqDecision exn.
Proof. solve_decision. Defined.

#[global] Instance result_eq_dec {A : Type} `{EqDecision A} : EqDecision (result A).
Proof. solve_decision. Defined.

#[global] Instance result_ret : MRet result := fun A a => Ok a.

#[global] Instance result_bind : MBind result := fun A B k m =>
  match m with
  | Ok a => k a
  | Raise e => Raise e
  end.

#[global] Instance result_fmap : FMap result := fun A B f m =>
  match m with
  | Ok a => Ok (f a)
  | Raise e => Raise e
  end.

(** [for x in xs: body], where [body] may raise: the accumulator is threaded
    left to right and the first exception ends the loop. *)
Fixpoint for_each {A S : Type} (body : S -> A -> result S) (xs : list A) (acc : S)
  : result S :=
  match xs with
  | [] => Ok acc
  | x :: rest => body acc x ≫= for_each body rest
  end.

(** [enumerate(xs)], counting from [start]. *)
Fixpoint enumerate_from {A : Type} (start : nat) (xs : list A) : list (nat * A) :=
  match xs with
  | [] => []
  | x :: rest => (start, x) :: enumerate_from (S start) rest
  end.

Definition enumerate {A : Type} (xs : list A) : list (nat * A) := enumerate_from 0 xs.

(** [c.lower()] on one character: [A-Z] move to [a-z]. *)
Definition lower_char (c : ascii) : ascii :=
  let n := nat_of_ascii c in
  if (65 <=? n)%nat && (n <=? 90)%nat then ascii_of_nat (n + 32) else c.

(** [s.lower()] *)
Fixpoint lower (s : string) : string :=
  match s with
  | EmptyString => EmptyString
  | String c rest => String (lower_char c) (lower rest)
  end.

(** [sub in s] for strings: [sub] occurs at some offset of [s]. *)
Fixpoint contains (sub s : string) : bool :=
  String.prefix sub s
  || match s with
     | EmptyString => false
     | String _ rest => contains sub rest
     end.

(** [c in s] for a single character. *)
Fixpoint contains_char (c : ascii) (s : string) : bool :=
  match s with
  | EmptyString => false
  | String d rest => Ascii.eqb c d || contains_char c rest
  end.

(** A byte that continues a character of several bytes: [10xxxxxx]. *)
Definition is_continuation (c : ascii) : bool :=
  let n := nat_of_ascii c in (128 <=? n)%nat && (n <? 192)%nat.

(** [s[:n]] for a literal [n >= 0]: the first [n] characters. A character
    is a byte that is not a continuation byte, with the continuation bytes
    that follow it. *)
Fixpoint str_prefix (n : nat) (s : string) : string :=
  match s with
  | EmptyString => EmptyString
  | String c rest =>
      if is_continuation c then String c (str_prefix n rest)
      else
        match n with
        | S m => String c (str_prefix m rest)
        | O => EmptyString
        end
  end.

(** [s.isascii()] *)
Fixpoint isascii (s : string) : bool :=
  match s with
  | EmptyString => true
  | String c rest => (nat_of_ascii c <? 128)%nat && isascii rest
  end.

(** [xs[:k]]: a negative bound counts from the end. *)
Definition slice_to {A : Type} (xs : list A) (k : Z) : list A :=
  if (0 <=? k)%Z then take (Z.to_nat k) xs
  else take (length xs - Z.to_nat (- k)) xs.

(** [xs[i]]: a negative index counts from the end; a position outside
    [-len(xs) .. len(xs)-1] raises [IndexError]. *)
Definition index {A : Type} (xs : list A) (i : Z) : result A :=
  let j := if (0 <=? i)%Z then i else (Z.of_nat (length xs) + i)%Z in
  if (j <? 0)%Z then Raise IndexError
  else match xs !! Z.to_nat j with
       | Some x => Ok x
       | None => Raise IndexError
       end.

(** A decimal literal [n / d] of the source, as an exact rational. *)
Definition lit (n : Z) (d : positive) : Qc := Q2Qc (n # d).

(** A Python [float]: an IEEE binary64 number. *)
Definition float64 : Set := PrimFloat.float.

(** The binary64 number nearest to [digits / 10 ^ scale], ties to even, and
    the infinity beyond the largest finite number: what Python's [float]
    makes of a decimal written with [scale] digits after the point. The
    quotient of the two integers is rounded once. *)
Definition nearest_float (negative : bool) (digits : Z) (scale : nat) : float64 :=
  FloatOps.SF2Prim
    match digits with
    | Zpos m =>
        SpecFloat.SFdiv FloatOps.prec FloatOps.emax
          (SpecFloat.S754_finite negative m 0)
          (SpecFloat.S754_finite false (Z.to_pos (10 ^ Z.of_nat scale)) 0)
    | _ => SpecFloat.S754_zero negative
    end.

Definition ltb (x y : Qc) : bool := bool_decide (x < y)%Qc.
Definition eqb (x y : Qc) : bool := bool_decide (x = y).

(** [sorted(xs, key=key, reverse=True)]: a stable sort, so of two items with
    equal keys the one that came first in [xs] stays first. *)
Fixpoint insert_desc {A : Type} (key : A -> Qc) (x : A) (sorted : list A) : list A :=
  match sorted with
  | [] => [x]
  | y :: rest =>
      if ltb (key x) (key y) then y :: insert_desc key x rest
      else x :: y :: rest
  end.

Fixpoint sorted_desc {A : Type} (key : A -> Qc) (xs : list A) : list A :=
  match xs with
  | [] => []
  | x :: rest => insert_desc key x (sorted_desc key rest)
  end.

(** [range(a, b)] *)
Definition range (a b : nat) : list nat := seq a (b - a).

(** A [dict] with string keys, in insertion order. [d[k] = v] keeps the
    position of a key that is already present and appends a new one. *)
Fixpoint dict_set {V : Type} (k : string) (v : V) (d : list (string * V))
  : list (string * V) :=
  match d with
  | [] => [(k, v)]
  | (k', v') :: rest =>
      if String.eqb k k' then (k, v) :: rest else (k', v') :: dict_set k v rest
  end.

(** [d.get(k)] *)
Fixpoint dict_get {V : Type} (k : string) (d : list (string * V)) : option V :=
  match d with
  | [] => None
  | (k', v') :: rest => if String.eqb k k' then Some v' else dict_get k rest
  end.

(** [d.values()] *)
Definition dict_values {V : Type} (d : list (string * V)) : list V := map snd d.

(** The characters [str.split()] separates on. *)
Definition is_space (c : ascii) : bool :=
  let n := nat_of_ascii c in
  ((9 <=? n)%nat && (n <=? 13)%nat) || ((28 <=? n)%nat && (n <=? 32)%nat).

(** [s.split()]: the maximal runs of non-blank characters. [word] is the run
    being read, last character first. *)
Fixpoint split_from (word : list ascii) (s : string) : list string :=
  let flush (tail : list string) :=
    match word with
    | [] => tail
    | _ :: _ => string_of_list_ascii (rev word) :: tail
    end in
  match s with
  | EmptyString => flush []
  | String c rest =>
      if is_space c then flush (split_from [] rest)
      else split_from (c :: word) rest
  end.

Definition split (s : string) : list string := split_from [] s.

(** [sep.join(words)] *)
Fixpoint join (sep : string) (words : list string) : string :=
  match words with
  | [] => EmptyString
  | [w] => w
  | w :: rest => w +:+ sep +:+ join sep rest
  end.

End Py.

(** ** Data model shared by retrieval and verification *)

(** The metadata dictionary of a content unit. A key that a producer may
    leave out is an [option]; reading such a key when it is absent raises
    [KeyError]. *)
Record Metadata : Type := {
  ticker : string;
  fiscal_year : Z;
  content_type : string;
  section_title : option string;
  table_id : option string;
  row_idx : option Z
}.

(** An evidence piece: [{'content': ..., 'metadata': ..., 'score': ...}]. *)
Record Evidence : Type := {
  content : string;
  metadata : Metadata;
  score : Qc
}.

(** [{**result, 'score': s}] *)
Definition with_score (result : Evidence) (s : Qc) : Evidence :=
  {| content := content result; metadata := metadata result; score := s |}.

(** ** retrieval/query_router.py *)

Module QueryRouter.

Inductive QueryType : Type :=
| numeric_table
| table_lookup
| numeric_text
| narrative.

Record RouteDecision : Type := {
  query_type : QueryType;
  is_table_centric : bool;
  requires_math : bool;
  confidence : Qc
}.

(** [self.table_keywords] *)
Definition table_keywords : list string :=
  [ "yoy"; "year-over-year"; "change"; "growth"; "ratio";
    "compared to"; "versus"; "vs"; "percentage"; "%";
    "segment"; "total"; "revenue"; "expense"; "debt"; "equity";
    "fiscal year"; "fy"; "2022"; "2023"; "2024" ].

(** [self.math_keywords] *)
Definition math_keywords : list string :=
  [ "calculate"; "compute"; "difference"; "sum"; "total";
    "ratio"; "percentage"; "change"; "growth"; "increase"; "decrease" ].

(** [sum(1 for kw in self.table_keywords if kw in query)] *)
Definition keyword_count (query : string) : nat :=
  sum_list (map (fun _ => 1%nat)
                (List.filter (fun kw => Py.contains kw query) table_keywords)).

Definition _is_table_centric (query : string) : bool :=
  (2 <=? keyword_count query)%nat.

Definition _requires_math (query : string) : bool :=
  existsb (fun kw => Py.contains kw query) math_keywords.

Definition route (query : string) : RouteDecision :=
  let query_lower := Py.lower query in
  let table_centric := _is_table_centric query_lower in
  let math := _requires_math query_lower in
  let qtype :=
    if table_centric && math then numeric_table
    else if table_centric then table_lookup
    else if math then numeric_text
    else narrative in
  {| query_type := qtype;
     is_table_centric := table_centric;
     requires_math := math;
     confidence := if table_centric then Py.lit 8 10 else Py.lit 6 10 |}.

End QueryRouter.

(** ** qa/math_verifier.py *)

Module MathVerifier.

(** *** The number pattern
    [-?\d+\.?\d*(?:[MBmb]|million|billion|thousand)?], matched the way
    [re] matches: leftmost, every quantifier greedy, the alternatives of a
    group tried from left to right. *)

(** [\d] *)
Definition is_digit (c : ascii) : bool :=
  let n := nat_of_ascii c in (48 <=? n)%nat && (n <=? 57)%nat.

(** [\d*], greedy: the longest run of digits heading [s], and the rest. *)
Fixpoint digits (s : string) : string * string :=
  match s with
  | EmptyString => (EmptyString, EmptyString)
  | String c rest =>
      if is_digit c then let '(run, after) := digits rest in (String c run, after)
      else (EmptyString, s)
  end.

(** A literal word of the pattern heading [s]: what follows it. *)
Fixpoint literal (word s : string) : option string :=
  match word, s with
  | EmptyString, _ => Some s
  | String a word', String b s' => if Ascii.eqb a b then literal word' s' else None
  | String _ _, EmptyString => None
  end.

(** The character class [[MBmb]] heading [s]. *)
Definition unit_letter (s : string) : option (string * string) :=
  match s with
  | String c rest =>
      if Py.contains_char c "MBmb" then Some (String c EmptyString, rest) else None
  | EmptyString => None
  end.

Definition unit_word (word s : string) : option (string * string) :=
  match literal word s with
  | Some rest => Some (word, rest)
  | None => None
  end.

(** [[MBmb]|million|billion|thousand] heading [s]: the first alternative
    that matches, as (matched text, rest). *)
Definition unit_alt (s : string) : option (string * string) :=
  match unit_letter s with
  | Some m => Some m
  | None =>
      match unit_word "million" s with
      | Some m => Some m
      | None =>
          match unit_word "billion" s with
          | Some m => Some m
          | None => unit_word "thousand" s
          end
      end
  end.

(** [\d+\.?\d*(?:...)?] heading [s]: the matched text. Everything after
    [\d+] is optional, so the greedy choice is never revised. *)
Definition number_body (s : string) : option string :=
  let '(int_part, r1) := digits s in
  match int_part with
  | EmptyString => None
  | String _ _ =>
      let '(dot, r2) :=
        match literal "." r1 with
        | Some r => (".", r)
        | None => (EmptyString, r1)
        end in
      let '(frac, r3) := digits r2 in
      let unit := match unit_alt r3 with Some (u, _) => u | None => EmptyString end in
      Some (int_part +:+ dot +:+ frac +:+ unit)
  end.

(** The whole pattern heading [s]: [-?] first takes the sign and gives it
    back when no digit follows. *)
Definition match_here (s : string) : option string :=
  match literal "-" s with
  | Some rest =>
      match number_body rest with
      | Some m => Some ("-" +:+ m)
      | None => number_body s
      end
  | None => number_body s
  end.

(** [re.findall(pattern, s)]: scan from the left; a match found at the
    current position is reported and the scan resumes after it ([skip]
    counts the characters of the last match still to be passed). *)
Fixpoint findall_from (skip : nat) (s : string) : list string :=
  match s with
  | EmptyString => []
  | String _ rest =>
      match skip with
      | S n => findall_from n rest
      | O =>
          match match_here s with
          | Some m => m :: findall_from (String.length m - 1) rest
          | None => findall_from 0 rest
          end
      end
  end.

Definition findall (s : string) : list string := findall_from 0 s.

(** [re.sub(r'[MBmb]|million|billion|thousand', '', s)] *)
Fixpoint sub_units_from (skip : nat) (s : string) : string :=
  match s with
  | EmptyString => EmptyString
  | String c rest =>
      match skip with
      | S n => sub_units_from n rest
      | O =>
          match unit_alt s with
          | Some (u, _) => sub_units_from (String.length u - 1) rest
          | None => String c (sub_units_from 0 rest)
          end
      end
  end.

Definition sub_units (s : string) : string := sub_units_from 0 s.

(** Value of a run of decimal digits, most significant first. *)
Fixpoint digits_value (acc : Z) (s : string) : Z :=
  match s with
  | EmptyString => acc
  | String c rest => digits_value (10 * acc + (Z.of_nat (nat_of_ascii c) - 48)) rest
  end.

(** [float(s)] on a plain decimal [-?digits[.digits]] with at least one
    digit: the binary64 number nearest to it. Any other string is
    [ValueError] here. (Python also reads exponents, [inf], [nan] and padded
    input; none of them can come out of the number pattern: see
    [float_of_match] below.) *)
Definition float (s : string) : Py.result Py.float64 :=
  let '(negative, body) :=
    match literal "-" s with
    | Some rest => (true, rest)
    | None => (false, s)
    end in
  let '(int_part, r1) := digits body in
  let '(frac, r3) :=
    match literal "." r1 with
    | Some r2 => digits r2
    | None => (EmptyString, r1)
    end in
  match r3, (String.length int_part + String.length frac)%nat with
  | EmptyString, S _ =>
      Py.Ok (Py.nearest_float negative (digits_value 0 (int_part +:+ frac))
               (String.length frac))
  | _, _ => Py.Raise Py.ValueError
  end.

(** The string branch of [extract_numbers] (source lines 100-127). *)
Definition extract_text (text_str : string) : list Py.float64 :=
  fold_left
    (fun numbers m =>
       let num_str := sub_units m in
       match float num_str with
       | Py.Ok num =>
           let num :=
             if Py.contains "B" m || Py.contains "billion" (Py.lower m)
             then (num * 1e9)%float
             else if Py.contains "M" m || Py.contains "million" (Py.lower m)
             then (num * 1e6)%float
             else if Py.contains "thousand" (Py.lower m)
             then (num * 1e3)%float
             else num in
           numbers ++ [num]
       | Py.Raise _ => numbers
       end)
    (findall text_str) [].

(** *** Values [extract_numbers] is called on *)

#[warnings="-register-all"]
Inductive pyval : Type :=
| PStr (s : string)
| PList (items : list pyval)
| PDict (entries : list (string * pyval))
| POther (rendering : string).

Inductive Status : Type :=
| verified
| failed
| no_numbers.

Record Verdict : Type := {
  status : Status;
  message : string
}.

Inductive CalcType : Type :=
| difference
| ratio
| percentage
| lookup.

(** The verifier object: [self.tolerance]. *)
Record T : Type := { tolerance : Py.float64 }.

(** [def __init__(self, tolerance: float = 0.01)]: the literal is the
    binary64 number nearest to 1/100. *)
#[warnings="-inexact-float"]
Definition default_tolerance : Py.float64 := 0.01%float.

Definition __init__ (tolerance : Py.float64) : T := {| tolerance := tolerance |}.

(** [xs[i]] at a position the surrounding [range] keeps inside [xs]. *)
Definition item (xs : list Py.float64) (i : nat) : Py.float64 := default 0%float (xs !! i).

Definition _numbers_match (self : T) (num1 num2 : Py.float64) : bool :=
  if (num2 =? 0)%float then (PrimFloat.abs num1 <? tolerance self)%float
  else (PrimFloat.abs ((num1 - num2) / num2) <? tolerance self)%float.

Definition _detect_calculation_type (query answer : string) : CalcType :=
  let query_lower := Py.lower query in
  let any_in (kws : list string) := existsb (fun kw => Py.contains kw query_lower) kws in
  if any_in ["change"; "difference"; "increase"; "decrease"] then difference
  else if any_in ["ratio"; "compared to"; "per"] then ratio
  else if any_in ["percentage"; "%"; "percent"; "yoy"] then percentage
  else lookup.

Definition _verify_difference (self : T) (answer_nums evidence_nums : list Py.float64)
  : bool :=
  if (length answer_nums <? 1)%nat || (length evidence_nums <? 2)%nat then false
  else
    existsb (fun i =>
      existsb (fun j =>
        let diff := PrimFloat.abs (item evidence_nums i - item evidence_nums j)%float in
        _numbers_match self (item answer_nums 0) diff)
        (Py.range (i + 1) (length evidence_nums)))
      (Py.range 0 (length evidence_nums)).

Definition _verify_ratio (self : T) (answer_nums evidence_nums : list Py.float64) : bool :=
  if (length answer_nums <? 1)%nat || (length evidence_nums <? 2)%nat then false
  else
    existsb (fun i =>
      existsb (fun j =>
        negb (i =? j)%nat && negb (item evidence_nums j =? 0)%float
        && let ratio := (item evidence_nums i / item evidence_nums j)%float in
           _numbers_match self (item answer_nums 0) ratio)
        (Py.range 0 (length evidence_nums)))
      (Py.range 0 (length evidence_nums)).

Definition _verify_percentage (self : T) (answer_nums evidence_nums : list Py.float64)
  : bool :=
  if (length answer_nums <? 1)%nat || (length evidence_nums <? 2)%nat then false
  else
    existsb (fun i =>
      existsb (fun j =>
        negb (i =? j)%nat && negb (item evidence_nums j =? 0)%float
        && let pct_change :=
             ((item evidence_nums i - item evidence_nums j) / item evidence_nums j
              * 100)%float in
           _numbers_match self (item answer_nums 0) pct_change)
        (Py.range 0 (length evidence_nums)))
      (Py.range 0 (length evidence_nums)).

(** [for ans_num in answer_nums: if not any(...): return False] *)
Definition _verify_presence (self : T) (answer_nums evidence_nums : list Py.float64)
  : bool :=
  forallb (fun ans_num => existsb (fun ev_num => _numbers_match self ans_num ev_num) evidence_nums)
          answer_nums.

Section ExtractNumbers.

(** [str(x)] of a list or a dict is Python's own rendering of containers. *)
Variable render : pyval -> string.

(** [str(text)] *)
Definition str (v : pyval) : string :=
  match v with
  | PStr s => s
  | POther rendering => rendering
  | PList _ | PDict _ => render v
  end.

Fixpoint extract_numbers (text : pyval) : list Py.float64 :=
  match text with
  | PList items =>
      fold_left
        (fun all_numbers item =>
           match item with
           | PDict entries =>
               all_numbers ++
               (fix get (es : list (string * pyval)) : list Py.float64 :=
                  match es with
                  | [] => extract_text EmptyString
                  | (k, v) :: es' =>
                      if String.eqb "content" k then extract_numbers v else get es'
                  end) entries
           | _ => all_numbers ++ extract_text (str item)
           end)
        items []
  | _ => extract_text (str text)
  end.

Definition verify (self : T) (answer : string) (evidence : list Evidence) (query : string)
  : Verdict :=
  let answer_numbers := extract_numbers (PStr answer) in
  let evidence_numbers :=
    fold_left
      (fun evidence_numbers ev =>
         if String.eqb (content_type (metadata ev)) "table"
         then evidence_numbers ++ extract_numbers (PStr (content ev))
         else evidence_numbers)
      evidence [] in
  match answer_numbers with
  | [] => {| status := no_numbers; message := "No numbers found in answer" |}
  | _ :: _ =>
      let calc_type := _detect_calculation_type query answer in
      let is_verified :=
        match calc_type with
        | difference => _verify_difference self answer_numbers evidence_numbers
        | ratio => _verify_ratio self answer_numbers evidence_numbers
        | percentage => _verify_percentage self answer_numbers evidence_numbers
        | lookup => _verify_presence self answer_numbers evidence_numbers
        end in
      if is_verified
      then {| status := verified; message := "Calculations verified against evidence" |}
      else {| status := failed; message := "Calculations do not match evidence" |}
  end.

End ExtractNumbers.

End MathVerifier.

(** ** evaluation/metrics.py *)

Module Metrics.

Section RecallAtK.

(** Retrieved items are hashable values compared by equality. *)
Context {A : Type} `{Countable A}.

Definition compute_recall_at_k (retrieved : list A) (relevant : gset A) (k : Z) : Qc :=
  if decide (size relevant = 0%nat) then 0%Qc
  else
    let retrieved_at_k : gset A := list_to_set (Py.slice_to retrieved k) in
    let num_relevant_retrieved := size (retrieved_at_k ∩ relevant) in
    (Qc_of_Z (Z.of_nat num_relevant_retrieved) / Qc_of_Z (Z.of_nat (size relevant)))%Qc.

End RecallAtK.

(** [\w] on one-byte characters: a digit, a letter or the underscore. *)
Definition is_word_char (c : ascii) : bool :=
  let n := nat_of_ascii c in
  ((48 <=? n)%nat && (n <=? 57)%nat) || ((65 <=? n)%nat && (n <=? 90)%nat)
  || ((97 <=? n)%nat && (n <=? 122)%nat) || (n =? 95)%nat.

(** [re.sub(r'[^\w\s]', ' ', text)] *)
Fixpoint sub_punctuation (text : string) : string :=
  match text with
  | EmptyString => EmptyString
  | String c rest =>
      String (if is_word_char c || Py.is_space c then c else " "%char)
             (sub_punctuation rest)
  end.

Definition normalize_answer (text : string) : string :=
  let text := Py.lower text in
  let text := sub_punctuation text in
  Py.join " " (Py.split text).

Definition compute_exact_match (prediction ground_truth : string) : Qc :=
  let pred_norm := normalize_answer prediction in
  let gt_norm := normalize_answer ground_truth in
  if String.eqb pred_norm gt_norm then 1%Qc else 0%Qc.

(** [Counter(tokens)] is the multiset of the tokens; [&] keeps each token
    with the smaller of its two counts, and [sum(common.values())] is the
    size of that multiset. *)
Definition compute_f1 (prediction ground_truth : string) : Qc :=
  let pred_tokens := Py.split (normalize_answer prediction) in
  let gt_tokens := Py.split (normalize_answer ground_truth) in
  if (length pred_tokens =? 0)%nat || (length gt_tokens =? 0)%nat then 0%Qc
  else
    let common : gmultiset string :=
      list_to_set_disj pred_tokens ∩ list_to_set_disj gt_tokens in
    let num_common := size common in
    if (num_common =? 0)%nat then 0%Qc
    else
      let precision := (Qc_of_Z (Z.of_nat num_common)
                        / Qc_of_Z (Z.of_nat (length pred_tokens)))%Qc in
      let recall := (Qc_of_Z (Z.of_nat num_common)
                     / Qc_of_Z (Z.of_nat (length gt_tokens)))%Qc in
      (Qc_of_Z 2 * (precision * recall) / (precision + recall))%Qc.

Section ReciprocalRank.

Context {A : Type} `{Countable A}.

(** [for i, item in enumerate(retrieved): if item in relevant: return 1.0 / (i + 1)] *)
Fixpoint first_relevant (ranked : list (nat * A)) (relevant : gset A) : option nat :=
  match ranked with
  | [] => None
  | (i, item) :: rest =>
      if decide (item ∈ relevant) then Some i else first_relevant rest relevant
  end.

Definition compute_mrr (retrieved : list A) (relevant : gset A) : Qc :=
  match first_relevant (Py.enumerate retrieved) relevant with
  | Some i => (1 / Qc_of_Z (Z.of_nat i + 1))%Qc
  | None => 0%Qc
  end.

End ReciprocalRank.

Definition compute_faithfulness (answer : string) (evidence : list string) : Qc :=
  let answer_tokens : gset string := list_to_set (Py.split (normalize_answer answer)) in
  if (size answer_tokens =? 0)%nat then 0%Qc
  else
    let evidence_text := Py.join " " evidence in
    let evidence_tokens : gset string :=
      list_to_set (Py.split (normalize_answer evidence_text)) in
    let supported_tokens := answer_tokens ∩ evidence_tokens in
    (Qc_of_Z (Z.of_nat (size supported_tokens))
     / Qc_of_Z (Z.of_nat (size answer_tokens)))%Qc.

End Metrics.

(** ** retrieval/hierarchical_retriever.py *)

Module HierarchicalRetriever.

(** A FAISS index together with the embedding model that feeds it: for a
    query and a count, the neighbours it finds for [encode([query])[0]],
    nearest first, each a distance and a position. Distances are squared L2
    distances, hence never negative. *)
Definition Index : Type := string -> Z -> list (Qc * Z).

(** The row FAISS fills in where it has found fewer neighbours than it was
    asked for: position [-1] at the largest float32 distance. *)
Definition padding : Qc * Z :=
  (Qc_of_Z 340282346638528859811704183484516925440, (-1)%Z).

(** The rows [distances[0]] and [indices[0]] of an answer, paired up: exactly
    [k] of them. *)
Definition rows (index : Index) (query : string) (k : Z) : list (Qc * Z) :=
  take (Z.to_nat k) (index query k ++ replicate (Z.to_nat k) padding).

(** [index.search(query_embedding, k)]: FAISS asserts [k > 0]. *)
Definition search (index : Index) (query : string) (k : Z) : Py.result (list (Qc * Z)) :=
  if (0 <? k)%Z then Py.Ok (rows index query k) else Py.Raise Py.AssertionError.

(** A BM25 index: [get_scores], from the query tokens to one score per
    document of the corpus it was built on. *)
Definition BM25 : Type := list string -> list Qc.

(** [section_data]: ['abstracts'] and ['metadata']. *)
Record SectionData : Type := {
  abstracts : list string;
  section_metadata : list Metadata
}.

(** [text_data]: ['chunks'], ['metadata'] and, when the key is there,
    ['bm25'] (whose value may be [None]). *)
Record TextData : Type := {
  chunks : list string;
  text_metadata : list Metadata;
  text_bm25 : option (option BM25)
}.

(** [table_data]: ['sentences'] (the key may be missing), ['metadata'] and,
    when the key is there, ['bm25'] (whose value may be [None]). *)
Record TableData : Type := {
  sentences : option (list string);
  table_metadata : list Metadata;
  table_bm25 : option (option BM25)
}.

Record T : Type := {
  section_index : Index;
  text_index : Index;
  table_index : Index;
  section_data : SectionData;
  text_data : TextData;
  table_data : TableData
}.

(** One stage-A result. *)
Record SectionResult : Type := {
  section_abstract : string;
  section_meta : Metadata;
  section_score : Qc
}.

(** What [retrieve] returns: [{'sections': ..., 'content': ...}]. *)
Record Retrieved : Type := {
  retrieved_sections : list SectionResult;
  retrieved_content : list Evidence
}.

(** [1.0 / (1.0 + distance)] *)
Definition similarity (distance : Qc) : Qc := (1 / (1 + distance))%Qc.

(** [result['content'][:50]], the key two results are merged under: the
    first 50 characters of the content. *)
Definition merge_key (result : Evidence) : string := Py.str_prefix 50 (content result).

(** The default of [alpha] in [_merge_results]. *)
Definition default_alpha : Qc := Py.lit 7 10.

(** The first loop of [_merge_results] (source lines 238-243). *)
Definition merge_dense (alpha : Qc) (dense_results : list Evidence)
  : list (string * Evidence) :=
  fold_left
    (fun merged result =>
       Py.dict_set (merge_key result) (with_score result (alpha * score result)%Qc) merged)
    dense_results [].

(** The second loop of [_merge_results] (source lines 245-253). *)
Definition merge_bm25 (alpha : Qc) (bm25_results : list Evidence)
  (merged : list (string * Evidence)) : list (string * Evidence) :=
  fold_left
    (fun merged result =>
       let key := merge_key result in
       match Py.dict_get key merged with
       | Some entry =>
           Py.dict_set key
             (with_score entry (score entry + (1 - alpha) * score result)%Qc) merged
       | None =>
           Py.dict_set key (with_score result ((1 - alpha) * score result)%Qc) merged
       end)
    bm25_results merged.

Definition _merge_results (dense_results bm25_results : list Evidence) (alpha : Qc)
  : list Evidence :=
  let merged := merge_bm25 alpha bm25_results (merge_dense alpha dense_results) in
  Py.sorted_desc score (Py.dict_values merged).

Section Retrieval.

(** [numpy.argsort]: the positions of the scores in ascending order of score.
    The order it gives to equal scores is numpy's own. *)
Variable argsort : list Qc -> list Z.

Definition retrieve_sections (self : T) (query : string) (k : Z)
  : Py.result (list SectionResult) :=
  hits ← search (section_index self) query k;
  Py.for_each
    (fun results '(distance, idx) =>
       abstract ← Py.index (abstracts (section_data self)) idx;
       meta ← Py.index (section_metadata (section_data self)) idx;
       mret (results ++ [ {| section_abstract := abstract;
                             section_meta := meta;
                             section_score := similarity distance |} ]))
    hits [].

Definition _bm25_search (query : string) (bm25_index : option BM25)
  (documents : list string) (metadata : list Metadata) (k : Z)
  : Py.result (list Evidence) :=
  let query_tokens := Py.split (Py.lower query) in
  match bm25_index with
  | None => Py.Raise Py.AttributeError
  | Some get_scores =>
      let scores := get_scores query_tokens in
      let top_indices := Py.slice_to (rev (argsort scores)) k in
      Py.for_each
        (fun results idx =>
           document ← Py.index documents idx;
           meta ← Py.index metadata idx;
           s ← Py.index scores idx;
           mret (results ++ [ {| content := document; metadata := meta; score := s |} ]))
        top_indices []
  end.

Definition _retrieve_text (self : T) (query : string)
  (section_filter : list (string * Z * string)) (k : Z) (use_hybrid : bool)
  : Py.result (list Evidence) :=
  hits ← search (text_index self) query (k * 2)%Z;
  results ←
    Py.for_each
      (fun results '(distance, idx) =>
         chunk ← Py.index (chunks (text_data self)) idx;
         meta ← Py.index (text_metadata (text_data self)) idx;
         mret (results ++ [ {| content := chunk; metadata := meta;
                               score := similarity distance |} ]))
      hits [];
  results ←
    match use_hybrid, text_bm25 (text_data self) with
    | true, Some bm25_index =>
        bm25_results ←
          _bm25_search query bm25_index (chunks (text_data self))
            (text_metadata (text_data self)) k;
        mret (_merge_results results bm25_results default_alpha)
    | _, _ => mret results
    end;
  mret (Py.slice_to results k).

Definition _retrieve_tables (self : T) (query : string)
  (section_filter : list (string * Z * string)) (k : Z) (use_hybrid : bool)
  : Py.result (list Evidence) :=
  match sentences (table_data self) with
  | None | Some [] => _retrieve_text self query section_filter k use_hybrid
  | Some table_sentences =>
      hits ← search (table_index self) query (k * 2)%Z;
      results ←
        Py.for_each
          (fun results '(distance, idx) =>
             if (Z.of_nat (length table_sentences) <=? idx)%Z then mret results
             else
               meta ← Py.index (table_metadata (table_data self)) idx;
               sentence ← Py.index table_sentences idx;
               mret (results ++ [ {| content := sentence; metadata := meta;
                                     score := similarity distance |} ]))
          hits [];
      results ←
        match use_hybrid, table_bm25 (table_data self) with
        | true, Some (Some bm25_index) =>
            bm25_results ←
              _bm25_search query (Some bm25_index) table_sentences
                (table_metadata (table_data self)) k;
            mret (_merge_results results bm25_results default_alpha)
        | _, _ => mret results
        end;
      mret (Py.slice_to results k)
  end.

Definition retrieve (self : T) (query : string) (route_info : QueryRouter.RouteDecision)
  (top_k_sections top_k_content : Z) (use_hybrid : bool) : Py.result Retrieved :=
  sections ← retrieve_sections self query top_k_sections;
  section_identifiers ←
    mapM (fun s =>
            match section_title (section_meta s) with
            | Some title => Py.Ok (ticker (section_meta s), fiscal_year (section_meta s), title)
            | None => Py.Raise Py.KeyError
            end)
         sections;
  content ←
    (if QueryRouter.is_table_centric route_info
     then _retrieve_tables self query section_identifiers top_k_content use_hybrid
     else _retrieve_text self query section_identifiers top_k_content use_hybrid);
  mret {| retrieved_sections := sections; retrieved_content := content |}.

End Retrieval.

End HierarchicalRetriever.

(** ** retrieval/hybrid_search.py *)

Module HybridSearcher.

Record T : Type := {
  dense_weight : Qc;
  bm25_weight : Qc
}.

(** [__init__]: the weights are divided by their sum. *)
Definition __init__ (dense_weight bm25_weight : Qc) : Py.result T :=
  let total := (dense_weight + bm25_weight)%Qc in
  if Py.eqb total 0 then Py.Raise Py.ZeroDivisionError
  else Py.Ok {| dense_weight := (dense_weight / total)%Qc;
                bm25_weight := (bm25_weight / total)%Qc |}.

(** A result handed to [fuse_results]: its ['id'] entry when it has one,
    and its rendering [str(result)]. *)
Record Doc : Type := {
  id : option string;
  rendering : string
}.

(** [result.get('id', str(result))] *)
Definition doc_id (result : Doc) : string :=
  match id result with
  | Some i => i
  | None => rendering result
  end.

(** [weight / (rank + 1)] *)
Definition rank_score (weight : Qc) (rank : nat) : Qc :=
  (weight / Qc_of_Z (Z.of_nat rank + 1))%Qc.

(** The first loop of [fuse_results] (source lines 52-54). *)
Definition fuse_dense (self : T) (dense_results : list Doc) : list (string * Qc) :=
  fold_left
    (fun scores '(rank, result) =>
       Py.dict_set (doc_id result) (rank_score (dense_weight self) rank) scores)
    (Py.enumerate dense_results) [].

(** The second loop of [fuse_results] (source lines 57-62). *)
Definition fuse_bm25 (self : T) (bm25_results : list Doc) (scores : list (string * Qc))
  : list (string * Qc) :=
  fold_left
    (fun scores '(rank, result) =>
       let key := doc_id result in
       match Py.dict_get key scores with
       | Some s => Py.dict_set key (s + rank_score (bm25_weight self) rank)%Qc scores
       | None => Py.dict_set key (rank_score (bm25_weight self) rank) scores
       end)
    (Py.enumerate bm25_results) scores.

Definition fuse_results (self : T) (dense_results bm25_results : list Doc) (top_k : Z)
  : list (string * Qc) :=
  let scores := fuse_bm25 self bm25_results (fuse_dense self dense_results) in
  let sorted_ids := Py.sorted_desc snd scores in
  Py.slice_to sorted_ids top_k.

End HybridSearcher.

(** ** Notions the specification uses to describe the code *)

Module Spec.

(** [kw] appears in [q] as a substring, letter case aside. *)
Definition substring_ci (kw q : string) : Prop :=
  ∃ pre post : string, Py.lower q = pre +:+ Py.lower kw +:+ post.

(** The math-operation keywords as the specification lists them. *)
Definition math_operation_set : list string :=
  [ "calculate"; "compute"; "difference"; "ratio"; "percentage";
    "change"; "growth"; "increase"; "decrease" ].

(** [n] is the number of distinct keywords of [keywords] that appear in [q]:
    the matching keywords, listed without repetition, are [n]. *)
Definition distinct_matches (keywords : list string) (q : string) (n : nat) : Prop :=
  ∃ matched : list string,
    NoDup matched
    ∧ (∀ kw, kw ∈ matched ↔ kw ∈ keywords ∧ substring_ci kw q)
    ∧ length matched = n.

(** [a] matches [b] within the relative tolerance [tol]:
    [|a - b| / |b| < tol] when [b] is not zero, [|a| < tol] when it is, each
    operation and comparison that of binary64. *)
Definition within_tolerance (a b tol : Py.float64) : Prop :=
  ((b =? 0)%float = false
   ∧ (PrimFloat.abs (a - b) / PrimFloat.abs b <? tol)%float = true)
  ∨ ((b =? 0)%float = true ∧ (PrimFloat.abs a <? tol)%float = true).

(** The numbers of the evidence: those extracted from the content of the
    pieces whose metadata says [content_type = 'table'], in evidence order. *)
Definition table_numbers (evidence : list Evidence) : list Py.float64 :=
  concat
    (map (fun ev => MathVerifier.extract_text (content ev))
         (List.filter (fun ev => String.eqb (content_type (metadata ev)) "table") evidence)).

(** Every number of the answer matches some number of the table evidence. *)
Definition all_answer_numbers_match (answer : string) (evidence : list Evidence)
  (tol : Py.float64) : Prop :=
  ∀ a, a ∈ MathVerifier.extract_text answer →
       ∃ e, e ∈ table_numbers evidence ∧ within_tolerance a e tol.

(** [result] is filed under [key] by the retriever's merge step. *)
Definition has_key (key : string) (result : Evidence) : bool :=
  String.eqb key (HierarchicalRetriever.merge_key result).

(** The candidates of a result list that are filed under [key]. *)
Definition candidates (key : string) (results : list Evidence) : list Evidence :=
  List.filter (has_key key) results.

(** [a + b + ...] *)
Definition total (xs : list Qc) : Qc := foldr Qcplus 0%Qc xs.

(** Weighted fusion, every occurrence summed: what the specification asks
    of a key that occurs several times. *)
Definition weighted_sum_of_all (alpha : Qc) (key : string)
  (dense_results bm25_results : list Evidence) : Qc :=
  (total (map (fun r => alpha * score r) (candidates key dense_results))
   + total (map (fun r => (1 - alpha) * score r) (candidates key bm25_results)))%Qc.

(** Weighted fusion as the code accumulates it: the dense list contributes
    its last occurrence of the key only, the lexical list every occurrence. *)
Definition weighted_total (alpha : Qc) (key : string)
  (dense_results bm25_results : list Evidence) : Qc :=
  (from_option (fun r => alpha * score r) 0 (last (candidates key dense_results))
   + total (map (fun r => (1 - alpha) * score r) (candidates key bm25_results)))%Qc.

(** The occurrences of a document identity in a result list, each with its
    rank (counted from 0). *)
Definition ranked (key : string) (results : list HybridSearcher.Doc)
  : list (nat * HybridSearcher.Doc) :=
  List.filter (fun x => String.eqb key (HybridSearcher.doc_id x.2)) (Py.enumerate results).

(** Reciprocal rank fusion, every occurrence summed: what the specification
    asks of an identity that occurs several times. *)
Definition rrf_sum_of_all (self : HybridSearcher.T) (key : string)
  (dense_results bm25_results : list HybridSearcher.Doc) : Qc :=
  (total (map (fun x => HybridSearcher.rank_score (HybridSearcher.dense_weight self) x.1)
              (ranked key dense_results))
   + total (map (fun x => HybridSearcher.rank_score (HybridSearcher.bm25_weight self) x.1)
                (ranked key bm25_results)))%Qc.

(** Reciprocal rank fusion as the code accumulates it: the dense list
    contributes its last occurrence of the identity only, the lexical list
    every occurrence. *)
Definition rrf_total (self : HybridSearcher.T) (key : string)
  (dense_results bm25_results : list HybridSearcher.Doc) : Qc :=
  (from_option
     (fun x => HybridSearcher.rank_score (HybridSearcher.dense_weight self) x.1)
     0 (last (ranked key dense_results))
   + total (map (fun x => HybridSearcher.rank_score (HybridSearcher.bm25_weight self) x.1)
                (ranked key bm25_results)))%Qc.

(** Position [i] addresses an element of [xs], counting from the end when
    negative. *)
Definition valid_position {A : Type} (xs : list A) (i : Z) : Prop :=
  (- Z.of_nat (length xs) ≤ i < Z.of_nat (length xs))%Z.

(** The table-sentence corpus is empty: the key is missing or the list is
    empty. *)
Definition no_table_sentences (self : HierarchicalRetriever.T) : Prop :=
  HierarchicalRetriever.sentences (HierarchicalRetriever.table_data self) = None
  ∨ HierarchicalRetriever.sentences (HierarchicalRetriever.table_data self) = Some [].


(** A list of scored items is in descending order of score. *)
Definition descending {A : Type} (key : A → Qc) (xs : list A) : Prop :=
  StronglySorted (fun a b => (key b <= key a)%Qc) xs.

(** What one item of a list contributes to [extract_numbers]: a dictionary
    contributes the numbers of its ['content'] entry (of the empty string when
    it has none), anything else the numbers of its rendering. *)
Definition item_contribution (render : MathVerifier.pyval → string)
  (item : MathVerifier.pyval) : list Py.float64 :=
  match item with
  | MathVerifier.PDict entries =>
      MathVerifier.extract_numbers render
        (default (MathVerifier.PStr EmptyString) (Py.dict_get "content" entries))
  | _ =>
      MathVerifier.extract_numbers render
        (MathVerifier.PStr (MathVerifier.str render item))
  end.

End Spec.

(** ** Sample data

    Concrete inputs on which the properties below are evaluated. *)

(** A table-typed evidence piece with the given content. *)
Definition table_piece (text : string) : Evidence :=
  {| content := text;
     metadata := {| ticker := "ACME"; fiscal_year := 2023; content_type := "table";
                    section_title := None; table_id := Some "t1"; row_idx := Some 0%Z |};
     score := 1%Qc |}.

(** A text-typed evidence piece with the given content. *)
Definition text_piece (text : string) : Evidence :=
  {| content := text;
     metadata := {| ticker := "ACME"; fiscal_year := 2023; content_type := "text";
                    section_title := Some "Item 7"; table_id := None; row_idx := None |};
     score := 1%Qc |}.

(** A result with the given content and score. *)
Definition scored (text : string) (s : Qc) : Evidence :=
  {| content := text; metadata := metadata (text_piece text); score := s |}.

(** The standalone searcher with its default weights 0.7 and 0.3. *)
Definition default_searcher : HybridSearcher.T :=
  {| HybridSearcher.dense_weight := Py.lit 7 10; HybridSearcher.bm25_weight := Py.lit 3 10 |}.

(** A document handed to the standalone searcher, identified by [id]. *)
Definition doc (name : string) : HybridSearcher.Doc :=
  {| HybridSearcher.id := Some name; HybridSearcher.rendering := "{'id': '" +:+ name +:+ "'}" |}.

(** A flat FAISS index over a corpus whose positions, nearest first, are
    [hits] for the query at hand. *)
Definition faiss_like (hits : list (Qc * Z)) : HierarchicalRetriever.Index :=
  fun _ _ => hits.

(** Two sections, both with a title. *)
Definition sample_sections : HierarchicalRetriever.SectionData :=
  {| HierarchicalRetriever.abstracts :=
       ["Item 7. Management discussion"; "Item 8. Financial statements"];
     HierarchicalRetriever.section_metadata :=
       [metadata (text_piece ""); metadata (text_piece "")] |}.

(** The section index of the samples: both sections, the first one nearer. *)
Definition sample_section_index : HierarchicalRetriever.Index :=
  faiss_like [(Py.lit 1 4, 0%Z); (Py.lit 1 2, 1%Z)].

(** A retriever over [chunks], with no table sentences and no lexical index;
    its text index knows the positions of [text_hits]. *)
Definition text_only_retriever (chunks : list string) (text_hits : list (Qc * Z))
  : HierarchicalRetriever.T :=
  {| HierarchicalRetriever.section_index := sample_section_index;
     HierarchicalRetriever.text_index := faiss_like text_hits;
     HierarchicalRetriever.table_index := faiss_like [];
     HierarchicalRetriever.section_data := sample_sections;
     HierarchicalRetriever.text_data :=
       {| HierarchicalRetriever.chunks := chunks;
          HierarchicalRetriever.text_metadata := map (fun c => metadata (text_piece c)) chunks;
          HierarchicalRetriever.text_bm25 := None |};
     HierarchicalRetriever.table_data :=
       {| HierarchicalRetriever.sentences := Some [];
          HierarchicalRetriever.table_metadata := [];
          HierarchicalRetriever.table_bm25 := Some None |} |}.

(** A retriever over table [sentences] only. *)
Definition table_only_retriever (sentences : list string) (table_hits : list (Qc * Z))
  : HierarchicalRetriever.T :=
  {| HierarchicalRetriever.section_index := sample_section_index;
     HierarchicalRetriever.text_index := faiss_like [];
     HierarchicalRetriever.table_index := faiss_like table_hits;
     HierarchicalRetriever.section_data := sample_sections;
     HierarchicalRetriever.text_data :=
       {| HierarchicalRetriever.chunks := [];
          HierarchicalRetriever.text_metadata := [];
          HierarchicalRetriever.text_bm25 := None |};
     HierarchicalRetriever.table_data :=
       {| HierarchicalRetriever.sentences := Some sentences;
          HierarchicalRetriever.table_metadata := map (fun c => metadata (table_piece c)) sentences;
          HierarchicalRetriever.table_bm25 := Some None |} |}.

(** A route decision for a table-centric query. *)
Definition table_route : QueryRouter.RouteDecision :=
  QueryRouter.route "What was the revenue change year-over-year?".

(** A retriever whose only section carries no ['section_title']. *)
Definition untitled_section_retriever : HierarchicalRetriever.T :=
  {| HierarchicalRetriever.section_index := faiss_like [(Py.lit 1 4, 0%Z)];
     HierarchicalRetriever.text_index := faiss_like [(Py.lit 1 2, 0%Z)];
     HierarchicalRetriever.table_index := faiss_like [];
     HierarchicalRetriever.section_data :=
       {| HierarchicalRetriever.abstracts := ["Balance sheet"];
          HierarchicalRetriever.section_metadata := [metadata (table_piece "")] |};
     HierarchicalRetriever.text_data :=
       {| HierarchicalRetriever.chunks := ["Revenue grew."];
          HierarchicalRetriever.text_metadata := [metadata (text_piece "Revenue grew.")];
          HierarchicalRetriever.text_bm25 := None |};
     HierarchicalRetriever.table_data :=
       {| HierarchicalRetriever.sentences := Some [];
          HierarchicalRetriever.table_metadata := [];
          HierarchicalRetriever.table_bm25 := None |} |}.

(** A retriever whose text and table data both carry a ['bm25'] entry that
    is [None]. *)
Definition unindexed_retriever (chunks sentences : list string)
  (text_hits table_hits : list (Qc * Z)) : HierarchicalRetriever.T :=
  {| HierarchicalRetriever.section_index := sample_section_index;
     HierarchicalRetriever.text_index := faiss_like text_hits;
     HierarchicalRetriever.table_index := faiss_like table_hits;
     HierarchicalRetriever.section_data := sample_sections;
     HierarchicalRetriever.text_data :=
       {| HierarchicalRetriever.chunks := chunks;
          HierarchicalRetriever.text_metadata := map (fun c => metadata (text_piece c)) chunks;
          HierarchicalRetriever.text_bm25 := Some None |};
     HierarchicalRetriever.table_data :=
       {| HierarchicalRetriever.sentences := Some sentences;
          HierarchicalRetriever.table_metadata :=
            map (fun c => metadata (table_piece c)) sentences;
          HierarchicalRetriever.table_bm25 := Some None |} |}.

(** A retriever over text [chunks] that carries a lexical index answering
    with [scores]; no table sentences. *)
Definition hybrid_text_retriever (chunks : list string) (text_hits : list (Qc * Z))
  (scores : list Qc) : HierarchicalRetriever.T :=
  {| HierarchicalRetriever.section_index := sample_section_index;
     HierarchicalRetriever.text_index := faiss_like text_hits;
     HierarchicalRetriever.table_index := faiss_like [];
     HierarchicalRetriever.section_data := sample_sections;
     HierarchicalRetriever.text_data :=
       {| HierarchicalRetriever.chunks := chunks;
          HierarchicalRetriever.text_metadata := map (fun c => metadata (text_piece c)) chunks;
          HierarchicalRetriever.text_bm25 := Some (Some (fun _ => scores)) |};
     HierarchicalRetriever.table_data :=
       {| HierarchicalRetriever.sentences := None;
          HierarchicalRetriever.table_metadata := [];
          HierarchicalRetriever.table_bm25 := None |} |}.

(** ** Notions the further properties are stated with *)

(** [s] contains one of the digits 0 to 9. *)
Fixpoint has_digit (s : string) : bool :=
  match s with
  | EmptyString => false
  | String c rest => MathVerifier.is_digit c || has_digit rest
  end.

(** What the unit tests of [extract_numbers] end up doing with the value
    [num] of a match [m]. *)
Definition scale_by_unit (m : string) (num : Py.float64) : Py.float64 :=
  if Py.contains "B" m then (num * 1e9)%float
  else if Py.contains "M" m then (num * 1e6)%float
  else if Py.contains "thousand" m then (num * 1e3)%float
  else num.

(** [normalize_answer(text).split()] *)
Definition tokens (text : string) : list string := Py.split (Metrics.normalize_answer text).

(** The ranking that one result list alone produces: its identities in list
    order, the result at rank [r] scored [weight / (r + 1)]. *)
Definition rank_only (weight : Qc) (results : list HybridSearcher.Doc)
  : list (string * Qc) :=
  map (fun x : nat * HybridSearcher.Doc =>
         (HybridSearcher.doc_id x.2, HybridSearcher.rank_score weight x.1))
      (Py.enumerate results).

(** * Properties *)

(** ** Strings *)

Lemma append_cons (c : ascii) (s t : string) : String c s +:+ t = String c (s +:+ t).
Proof. reflexivity. Qed.

Lemma prefix_spec (p s : string) :
  String.prefix p s = true ↔ ∃ post, s = p +:+ post.
Proof.
  revert s. induction p as [|a p IH]; intros [|b s]; simpl.
  - split; [intros _; by exists EmptyString | done].
  - split; [intros _; by exists (String b s) | done].
  - split; [done | intros [post Hpost]; discriminate].
  - setoid_rewrite append_cons.
    destruct (ascii_dec a b) as [->|Hne].
    + rewrite IH. split; intros [post Hpost]; exists post; congruence.
    + split; [done | intros [post Hpost]; congruence].
Qed.

Lemma contains_spec (sub s : string) :
  Py.contains sub s = true ↔ ∃ pre post, s = pre +:+ sub +:+ post.
Proof.
  induction s as [|c s IH].
  - cbn [Py.contains]. rewrite orb_false_r, prefix_spec. split.
    + intros [post Hpost]. by exists EmptyString, post.
    + intros [[|a pre] [post Hpost]]; [by exists post | discriminate].
  - cbn [Py.contains]. rewrite orb_true_iff, prefix_spec, IH. split.
    + intros [[post Hpost]|[pre [post Hpost]]].
      * by exists EmptyString, post.
      * exists (String c pre), post. rewrite append_cons. by f_equal.
    + intros [[|a pre] [post Hpost]].
      * left. by exists post.
      * right. exists pre, post. rewrite append_cons in Hpost. congruence.
Qed.

(** [kw in query.lower()] decides case-insensitive occurrence of a keyword
    that is itself in lower case. *)
Lemma contains_lower_spec (kw q : string) :
  Py.lower kw = kw →
  Py.contains kw (Py.lower q) = true ↔ Spec.substring_ci kw q.
Proof.
  intros Hkw. unfold Spec.substring_ci. rewrite Hkw. apply contains_spec.
Qed.

(** ** Query router *)

Lemma table_keywords_NoDup : NoDup QueryRouter.table_keywords.
Proof. apply (bool_decide_unpack _). by vm_compute. Qed.

Lemma table_keywords_lower :
  Forall (fun kw => Py.lower kw = kw) QueryRouter.table_keywords.
Proof. repeat constructor. Qed.

Lemma math_keywords_lower :
  Forall (fun kw => Py.lower kw = kw) QueryRouter.math_keywords.
Proof. repeat constructor. Qed.

(** The counting expression of [_is_table_centric] is the length of the
    list of matching keywords. *)
Lemma keyword_count_length (query : string) :
  QueryRouter.keyword_count query
  = length (List.filter (fun kw => Py.contains kw query) QueryRouter.table_keywords).
Proof.
  unfold QueryRouter.keyword_count.
  induction (List.filter _ _) as [|kw kws IH]; simpl; [done | by rewrite IH].
Qed.

(** Membership in the list of matching keywords, in the specification's words. *)
Lemma matching_keywords_spec (keywords : list string) (q kw : string) :
  Forall (fun kw => Py.lower kw = kw) keywords →
  kw ∈ List.filter (fun kw => Py.contains kw (Py.lower q)) keywords
  ↔ kw ∈ keywords ∧ Spec.substring_ci kw q.
Proof.
  intros Hlow. rewrite list_elem_of_In, filter_In, <- list_elem_of_In.
  split; intros [Hin Hc]; split; try done.
  - apply contains_lower_spec; [|done].
    rewrite Forall_forall in Hlow. by apply Hlow.
  - apply contains_lower_spec; [|done].
    rewrite Forall_forall in Hlow. by apply Hlow.
Qed.

Lemma distinct_matches_unique (keywords : list string) (q : string) (n m : nat) :
  Spec.distinct_matches keywords q n → Spec.distinct_matches keywords q m → n = m.
Proof.
  intros (l1 & Hnd1 & Hin1 & <-) (l2 & Hnd2 & Hin2 & <-).
  apply Permutation_length, NoDup_Permutation; [done..|].
  intros kw. by rewrite Hin1, Hin2.
Qed.

Lemma keyword_count_distinct (q : string) :
  Spec.distinct_matches QueryRouter.table_keywords q
    (QueryRouter.keyword_count (Py.lower q)).
Proof.
  exists (List.filter (fun kw => Py.contains kw (Py.lower q)) QueryRouter.table_keywords).
  split; [|split].
  - apply NoDup_ListNoDup, List.NoDup_filter, NoDup_ListNoDup, table_keywords_NoDup.
  - intros kw. apply matching_keywords_spec, table_keywords_lower.
  - by rewrite keyword_count_length.
Qed.

Lemma requires_math_spec (q : string) :
  QueryRouter.requires_math (QueryRouter.route q) = true
  ↔ ∃ kw, kw ∈ QueryRouter.math_keywords ∧ Spec.substring_ci kw q.
Proof.
  cbn [QueryRouter.route QueryRouter.requires_math].
  unfold QueryRouter._requires_math. rewrite existsb_exists.
  pose proof math_keywords_lower as Hlow. rewrite Forall_forall in Hlow.
  split; intros (kw & Hin & Hc); exists kw.
  - apply list_elem_of_In in Hin. split; [done|].
    apply contains_lower_spec; [by apply Hlow | done].
  - split; [by apply list_elem_of_In|].
    apply contains_lower_spec; [by apply Hlow | done].
Qed.

(** C5, as stated, fails: a query can require math without containing any of
    the nine keywords the specification lists, because the router's own list
    also has "total" (and "sum"). *)
Lemma requires_math_outside_listed_set :
  QueryRouter.requires_math (QueryRouter.route "What were Total assets?") = true
  ∧ ¬ ∃ kw, kw ∈ Spec.math_operation_set
            ∧ Spec.substring_ci kw "What were Total assets?".
Proof.
  split; [reflexivity|].
  intros (kw & Hin & Hsub).
  assert (Hlow : Py.lower kw = kw).
  { unfold Spec.math_operation_set in Hin.
    repeat (apply elem_of_cons in Hin as [->|Hin]; [reflexivity|]).
    by apply elem_of_nil in Hin. }
  apply (contains_lower_spec _ _ Hlow) in Hsub.
  unfold Spec.math_operation_set in Hin.
  repeat (apply elem_of_cons in Hin as [->|Hin]; [discriminate Hsub|]).
  by apply elem_of_nil in Hin.
Qed.

(** C5 (amended): [route] reports [requires_math] exactly when one of the
    eleven keywords calculate, compute, difference, sum, total, ratio,
    percentage, change, growth, increase, decrease appears in the query as a
    substring, letter case aside. *)
Theorem route_requires_math_iff (q : string) :
  QueryRouter.requires_math (QueryRouter.route q) = true
  ↔ ∃ kw,
      kw ∈ [ "calculate"; "compute"; "difference"; "sum"; "total"; "ratio";
             "percentage"; "change"; "growth"; "increase"; "decrease" ]
      ∧ Spec.substring_ci kw q.
Proof. apply requires_math_spec. Qed.

(** C6: [route] reports [is_table_centric] exactly when the number of
    distinct table keywords appearing in the query (as substrings, letter
    case aside) is at least 2; that number is well defined for every query,
    and when it is exactly 1 the query is not table-centric. *)
Theorem route_is_table_centric_iff (q : string) :
  ∃ n,
    Spec.distinct_matches QueryRouter.table_keywords q n
    ∧ (∀ m, Spec.distinct_matches QueryRouter.table_keywords q m → m = n)
    ∧ (QueryRouter.is_table_centric (QueryRouter.route q) = true ↔ 2 ≤ n)
    ∧ (n = 1 → QueryRouter.is_table_centric (QueryRouter.route q) = false).
Proof.
  exists (QueryRouter.keyword_count (Py.lower q)).
  pose proof (keyword_count_distinct q) as Hn.
  split; [done|]. split.
  { intros m Hm. by apply (distinct_matches_unique QueryRouter.table_keywords q). }
  cbn [QueryRouter.route QueryRouter.is_table_centric].
  unfold QueryRouter._is_table_centric. split.
  - apply Nat.leb_le.
  - intros ->. reflexivity.
Qed.

(** The specification's sample query is table-centric (it matches "change",
    "revenue" and "year-over-year"); a query matching only "total" is not. *)
Example route_sample_queries :
  QueryRouter.is_table_centric
    (QueryRouter.route "What was the revenue change year-over-year?") = true
  ∧ QueryRouter.is_table_centric (QueryRouter.route "What is the Total?") = false
  ∧ QueryRouter.route "" =
      {| QueryRouter.query_type := QueryRouter.narrative;
         QueryRouter.is_table_centric := false;
         QueryRouter.requires_math := false;
         QueryRouter.confidence := Py.lit 6 10 |}.
Proof. repeat split. Qed.

(** ** Math verifier: number extraction *)

(** Decides a closed statement about concrete rationals by evaluation. *)
Ltac qc_decide :=
  repeat match goal with |- _ ∧ _ => split end;
  apply (bool_decide_unpack _); vm_compute; exact I.

(** Settles closed equations between binary64 numbers by evaluation. *)
Ltac float_decide :=
  repeat match goal with |- _ ∧ _ => split end;
  vm_compute; reflexivity.

Lemma literal_head (a c : ascii) (word s rest : string) :
  MathVerifier.literal (String a word) (String c s) = Some rest → c = a.
Proof.
  cbn [MathVerifier.literal]. by destruct (Ascii.eqb_spec a c).
Qed.

(** The alternation of the pattern only ever yields one unit letter or the
    word "thousand": a text starting with "million" or "billion" is taken by
    the character class [[MBmb]] first. *)
Lemma unit_alt_cases (s : string) (u rest : string) :
  MathVerifier.unit_alt s = Some (u, rest) →
  (∃ c, u = String c EmptyString ∧ Py.contains_char c "MBmb" = true)
  ∨ u = "thousand".
Proof.
  unfold MathVerifier.unit_alt, MathVerifier.unit_letter, MathVerifier.unit_word.
  destruct s as [|c s]; [done|].
  destruct (Py.contains_char c "MBmb") eqn:Hc.
  { intros [= <- <-]. left. by exists c. }
  destruct (MathVerifier.literal "million" (String c s)) eqn:Hm.
  { apply literal_head in Hm as ->. discriminate Hc. }
  destruct (MathVerifier.literal "billion" (String c s)) eqn:Hb.
  { apply literal_head in Hb as ->. discriminate Hc. }
  destruct (MathVerifier.literal "thousand" (String c s)); [|done].
  intros [= <- <-]. by right.
Qed.

(** *** Every match of the pattern is a decimal that [float] reads *)

Fixpoint all_digits (s : string) : bool :=
  match s with
  | EmptyString => true
  | String c rest => MathVerifier.is_digit c && all_digits rest
  end.

Definition starts_with_digit (s : string) : bool :=
  match s with
  | String c _ => MathVerifier.is_digit c
  | EmptyString => false
  end.

(** The characters of a number without its unit. *)
Definition plain_char (c : ascii) : bool :=
  MathVerifier.is_digit c || Ascii.eqb "." c || Ascii.eqb "-" c.

Fixpoint all_plain (s : string) : bool :=
  match s with
  | EmptyString => true
  | String c rest => plain_char c && all_plain rest
  end.

Lemma append_nil_l (s : string) : EmptyString +:+ s = s.
Proof. reflexivity. Qed.

Lemma append_nil_r (s : string) : s +:+ EmptyString = s.
Proof. induction s as [|c s IH]; [done|]. by rewrite append_cons, IH. Qed.

Lemma append_assoc (s t u : string) : (s +:+ t) +:+ u = s +:+ (t +:+ u).
Proof. induction s as [|c s IH]; [done|]. by rewrite !append_cons, IH. Qed.

Lemma digits_spec (s d r : string) :
  MathVerifier.digits s = (d, r) →
  s = d +:+ r ∧ all_digits d = true ∧ starts_with_digit r = false.
Proof.
  revert d r. induction s as [|c s IH]; intros d r; cbn [MathVerifier.digits].
  - by intros [= <- <-].
  - destruct (MathVerifier.is_digit c) eqn:Hc.
    + destruct (MathVerifier.digits s) as [run after].
      intros [= <- <-]. destruct (IH run after eq_refl) as (-> & Hrun & Hafter).
      rewrite append_cons. cbn [all_digits]. by rewrite Hc, Hrun.
    + intros [= <- <-]. by cbn [starts_with_digit].
Qed.

Lemma digits_app (d r : string) :
  all_digits d = true → starts_with_digit r = false →
  MathVerifier.digits (d +:+ r) = (d, r).
Proof.
  intros Hd Hr. induction d as [|c d IH].
  - rewrite append_nil_l. destruct r as [|c r]; [done|]. cbn [MathVerifier.digits].
    cbn [starts_with_digit] in Hr. by rewrite Hr.
  - cbn [all_digits] in Hd. apply andb_true_iff in Hd as [Hc Hd].
    rewrite append_cons. cbn [MathVerifier.digits]. by rewrite Hc, IH.
Qed.

Lemma plain_char_not_unit (c : ascii) (rest : string) :
  plain_char c = true → MathVerifier.unit_alt (String c rest) = None.
Proof.
  intros Hplain.
  assert (Hne : ∀ a, plain_char a = false → Ascii.eqb a c = false).
  { intros a Ha. destruct (Ascii.eqb_spec a c) as [->|]; [congruence | done]. }
  unfold MathVerifier.unit_alt, MathVerifier.unit_letter, MathVerifier.unit_word.
  replace (Py.contains_char c "MBmb") with false.
  2:{ cbn [Py.contains_char]. rewrite !(Ascii.eqb_sym c), !Hne; done. }
  cbn [MathVerifier.literal]. by rewrite !Hne.
Qed.

Lemma all_digits_plain (d : string) : all_digits d = true → all_plain d = true.
Proof.
  induction d as [|c d IH]; [done|]. cbn [all_digits all_plain].
  intros [Hc Hd]%andb_true_iff. unfold plain_char. by rewrite Hc, IH.
Qed.

Lemma all_plain_app (s t : string) :
  all_plain s = true → all_plain t = true → all_plain (s +:+ t) = true.
Proof.
  intros Hs Ht. induction s as [|c s IH]; [done|].
  cbn [all_plain] in Hs. apply andb_true_iff in Hs as [Hc Hs].
  rewrite append_cons. cbn [all_plain]. by rewrite Hc, IH.
Qed.

(** [re.sub] leaves the digits, the point and the sign alone. *)
Lemma sub_units_plain (p u : string) :
  all_plain p = true →
  MathVerifier.sub_units_from 0 (p +:+ u) = p +:+ MathVerifier.sub_units_from 0 u.
Proof.
  intros Hp. induction p as [|c p IH]; [done|].
  cbn [all_plain] in Hp. apply andb_true_iff in Hp as [Hc Hp].
  rewrite !append_cons. cbn [MathVerifier.sub_units_from].
  by rewrite plain_char_not_unit, IH.
Qed.

(** [re.sub] removes the unit the pattern has matched. *)
Lemma sub_units_unit (s u rest : string) :
  MathVerifier.unit_alt s = Some (u, rest) → MathVerifier.sub_units_from 0 u = EmptyString.
Proof.
  intros [(c & -> & Hc)| ->]%unit_alt_cases; [|reflexivity].
  cbn [MathVerifier.sub_units_from].
  unfold MathVerifier.unit_alt, MathVerifier.unit_letter. by rewrite Hc.
Qed.

(** The shape of what [\d+\.?\d*(?:...)?] matches. *)
Lemma number_body_shape (s m : string) :
  MathVerifier.number_body s = Some m →
  ∃ int_part dot frac unit,
    m = int_part +:+ dot +:+ frac +:+ unit
    ∧ all_digits int_part = true ∧ int_part ≠ EmptyString
    ∧ (dot = "." ∨ (dot = EmptyString ∧ frac = EmptyString))
    ∧ all_digits frac = true
    ∧ MathVerifier.sub_units_from 0 unit = EmptyString.
Proof.
  unfold MathVerifier.number_body.
  destruct (MathVerifier.digits s) as [int_part r1] eqn:Hint.
  apply digits_spec in Hint as (_ & Hdigits & Hr1).
  destruct int_part as [|c int_part]; [done|].
  destruct (MathVerifier.literal "." r1) as [r|] eqn:Hdot.
  - destruct (MathVerifier.digits r) as [frac r3] eqn:Hfrac.
    apply digits_spec in Hfrac as (_ & Hfd & _).
    intros [= <-]. exists (String c int_part), ".", frac.
    destruct (MathVerifier.unit_alt r3) as [[u rest]|] eqn:Hu.
    + exists u. repeat split; try done; [by left | by eapply sub_units_unit].
    + exists EmptyString. repeat split; try done. by left.
  - destruct (MathVerifier.digits r1) as [frac r3] eqn:Hfrac.
    assert (frac = EmptyString) as ->.
    { destruct r1 as [|c1 r1]; cbn [MathVerifier.digits] in Hfrac; [by injection Hfrac|].
      cbn [starts_with_digit] in Hr1. rewrite Hr1 in Hfrac. by injection Hfrac. }
    intros [= <-]. exists (String c int_part), EmptyString, EmptyString.
    destruct (MathVerifier.unit_alt r3) as [[u rest]|] eqn:Hu.
    + exists u. repeat split; try done; [by right | by eapply sub_units_unit].
    + exists EmptyString. repeat split; try done. by right.
Qed.

(** [float] reads every signed decimal of that shape. *)
Lemma float_decimal (negative : bool) (int_part dot frac : string) :
  all_digits int_part = true → int_part ≠ EmptyString →
  (dot = "." ∨ (dot = EmptyString ∧ frac = EmptyString)) →
  all_digits frac = true →
  ∃ q, MathVerifier.float
         ((if negative then "-" else EmptyString) +:+ int_part +:+ dot +:+ frac)
       = Py.Ok q.
Proof.
  intros Hint Hne Hdot Hfrac. unfold MathVerifier.float.
  assert (Hsign :
    MathVerifier.literal "-"
      ((if negative then "-" else EmptyString) +:+ int_part +:+ dot +:+ frac)
    = if negative then Some (int_part +:+ dot +:+ frac) else None).
  { destruct negative; [reflexivity|].
    destruct int_part as [|c int_part]; [done|].
    cbn [all_digits] in Hint. apply andb_true_iff in Hint as [Hc _].
    rewrite append_nil_l, append_cons. cbn [MathVerifier.literal].
    destruct (Ascii.eqb_spec "-" c) as [<-|]; [discriminate Hc | done]. }
  rewrite Hsign.
  assert (Hbody : MathVerifier.digits (int_part +:+ dot +:+ frac)
                  = (int_part, dot +:+ frac)).
  { apply digits_app; [done|]. by destruct Hdot as [->|[-> ->]]. }
  assert (Hrest :
    match MathVerifier.literal "." (dot +:+ frac) with
    | Some r2 => MathVerifier.digits r2
    | None => (EmptyString, dot +:+ frac)
    end = (frac, EmptyString)).
  { destruct Hdot as [->|[-> ->]]; [|reflexivity].
    rewrite append_cons, append_nil_l. cbn [MathVerifier.literal].
    rewrite Ascii.eqb_refl. rewrite <- (append_nil_r frac) at 1. by apply digits_app. }
  assert (Hlen : ∃ n, (String.length int_part + String.length frac)%nat = S n).
  { destruct int_part as [|c int_part]; [done|]. by eexists. }
  destruct Hlen as [n Hlen].
  destruct negative; cbv beta iota; rewrite ?append_nil_l, Hbody; cbv beta iota;
    rewrite Hrest, Hlen; by eexists.
Qed.

(** What the pattern matches at a position is, once [re.sub] has removed
    the unit, a decimal that [float] reads: the [except ValueError] branch of
    [extract_numbers] is never taken. *)
Lemma float_of_match (s m : string) :
  MathVerifier.match_here s = Some m →
  ∃ q, MathVerifier.float (MathVerifier.sub_units m) = Py.Ok q.
Proof.
  assert (Hbody : ∀ (negative : bool) (s' m' : string),
    MathVerifier.number_body s' = Some m' →
    ∃ q, MathVerifier.float
           (MathVerifier.sub_units ((if negative then "-" else EmptyString) +:+ m'))
         = Py.Ok q).
  { intros negative s' m' (int_part & dot & frac & unit & -> & Hint & Hne & Hdot & Hfrac & Hunit)
      %number_body_shape.
    unfold MathVerifier.sub_units.
    replace ((if negative then "-" else EmptyString) +:+ int_part +:+ dot +:+ frac +:+ unit)
      with (((if negative then "-" else EmptyString) +:+ int_part +:+ dot +:+ frac) +:+ unit)
      by by rewrite !append_assoc.
    rewrite sub_units_plain, Hunit, append_nil_r; [by apply float_decimal|].
    repeat apply all_plain_app; try by apply all_digits_plain.
    - by destruct negative.
    - by destruct Hdot as [->|[-> _]]. }
  unfold MathVerifier.match_here.
  destruct (MathVerifier.literal "-" s) as [rest|].
  - destruct (MathVerifier.number_body rest) as [m'|] eqn:Hrest.
    + intros [= <-]. by apply (Hbody true rest).
    + intros Hs. by apply (Hbody false s).
  - intros Hs. by apply (Hbody false s).
Qed.

Lemma findall_from_match (skip : nat) (s m : string) :
  m ∈ MathVerifier.findall_from skip s → ∃ s', MathVerifier.match_here s' = Some m.
Proof.
  revert skip. induction s as [|c s IH]; intros skip; cbn [MathVerifier.findall_from].
  - by intros ?%elem_of_nil.
  - destruct skip as [|n]; [|by apply IH].
    destruct (MathVerifier.match_here (String c s)) as [m'|] eqn:Hm; [|by apply IH].
    intros [->|Hin]%elem_of_cons; [by eexists | by eapply IH].
Qed.

(** [extract_numbers] on a string returns one number per match of the
    pattern. *)
Lemma extract_text_length (s : string) :
  length (MathVerifier.extract_text s) = length (MathVerifier.findall s).
Proof.
  unfold MathVerifier.extract_text, MathVerifier.findall.
  assert (Hall : Forall (fun m => ∃ s', MathVerifier.match_here s' = Some m)
                        (MathVerifier.findall_from 0 s)).
  { apply Forall_forall. intros m. apply findall_from_match. }
  set (step := fun (numbers : list _) (m : string) => _).
  assert (Hlen : ∀ ms acc,
    Forall (fun m => ∃ s', MathVerifier.match_here s' = Some m) ms →
    length (fold_left step ms acc) = (length acc + length ms)%nat).
  { induction ms as [|m ms IH]; intros acc Hms; cbn [fold_left length]; [lia|].
    apply Forall_cons in Hms as [[s' Hm] Hms]. rewrite IH by done.
    unfold step. destruct (float_of_match s' m Hm) as [q ->].
    rewrite length_app. simpl. lia. }
  by rewrite Hlen.
Qed.

(** C4, evaluated: an upper-case unit letter applies its multiplier, the
    same letter in lower case, and the words "million" and "billion", do not. *)
Theorem extract_numbers_unit_suffixes :
  MathVerifier.extract_text "5B" = [5e9%float]
  ∧ MathVerifier.extract_text "5b" = [5%float]
  ∧ MathVerifier.extract_text "5M" = [5e6%float]
  ∧ MathVerifier.extract_text "5m" = [5%float]
  ∧ MathVerifier.extract_text "5billion" = [5%float]
  ∧ MathVerifier.extract_text "5million" = [5%float]
  ∧ MathVerifier.extract_text "5 million" = [5%float]
  ∧ MathVerifier.extract_text "5thousand" = [5e3%float]
  ∧ MathVerifier.extract_text "5THOUSAND" = [5%float].
Proof. float_decide. Qed.

(** A loop that extends an accumulator list concatenates the extensions. *)
Lemma fold_left_extend {A B : Type} (f : A → list B) (xs : list A) (acc : list B) :
  fold_left (fun acc x => acc ++ f x) xs acc = acc ++ concat (map f xs).
Proof.
  revert acc. induction xs as [|x xs IH]; intros acc; simpl.
  - by rewrite app_nil_r.
  - by rewrite IH, app_assoc.
Qed.

Lemma fold_left_ext {A S : Type} (f g : S → A → S) (xs : list A) (acc : S) :
  (∀ s x, f s x = g s x) → fold_left f xs acc = fold_left g xs acc.
Proof.
  intros Hfg. revert acc. induction xs as [|x xs IH]; intros acc; simpl; [done|].
  by rewrite Hfg, IH.
Qed.

Lemma extract_numbers_str (render : MathVerifier.pyval → string) (s : string) :
  MathVerifier.extract_numbers render (MathVerifier.PStr s) = MathVerifier.extract_text s.
Proof. reflexivity. Qed.

(** C10: on a list, [extract_numbers] returns the concatenation, in list
    order, of what each item contributes: a dictionary contributes the numbers
    of its ['content'] entry, a dictionary without that entry contributes the
    numbers of the empty string (none), and any other item contributes the
    numbers of its string rendering. *)
Theorem extract_numbers_list (render : MathVerifier.pyval → string)
  (items : list MathVerifier.pyval) :
  MathVerifier.extract_numbers render (MathVerifier.PList items)
  = concat (map (Spec.item_contribution render) items)
  ∧ (∀ entries,
       Py.dict_get "content" entries = None →
       Spec.item_contribution render (MathVerifier.PDict entries)
       = MathVerifier.extract_text EmptyString
       ∧ MathVerifier.extract_text EmptyString = [])
  ∧ (∀ item,
       (∀ entries, item ≠ MathVerifier.PDict entries) →
       Spec.item_contribution render item
       = MathVerifier.extract_text (MathVerifier.str render item)).
Proof.
  split; [|split].
  - cbn [MathVerifier.extract_numbers].
    rewrite <- (app_nil_l (concat _)), <- fold_left_extend.
    apply fold_left_ext. intros acc item.
    destruct item as [s|sub|entries|r]; try reflexivity.
    f_equal. cbn [Spec.item_contribution].
    induction entries as [|[k v] entries IH]; [reflexivity|].
    cbn [Py.dict_get]. destruct (String.eqb "content" k); [reflexivity | exact IH].
  - intros entries Hnone. cbn [Spec.item_contribution]. by rewrite Hnone.
  - intros item Hnd. destruct item as [s|sub|entries|r]; try reflexivity.
    by destruct (Hnd entries).
Qed.

(** ** Math verifier: lookup verification *)

(** *** Binary64 arithmetic

    The primitive operations are specified by the library through
    [FloatOps.Prim2SF]; the facts below are read off that specification. *)

Section Binary64.

Import SpecFloat FloatOps FloatAxioms.

(** Rounding to nearest treats both signs alike. *)
Lemma round_aux_abs (s : bool) (m e : Z) (l : location) :
  SFabs (binary_round_aux prec emax s m e l) = binary_round_aux prec emax false m e l.
Proof.
  unfold binary_round_aux.
  destruct (shr_fexp prec emax m e l) as [mrs e'].
  destruct (shr_fexp prec emax _ e' loc_Exact) as [mrs' e''].
  destruct (shr_m mrs'); [done| |done].
  by destruct (e'' <=? emax - prec)%Z.
Qed.

Lemma SFabs_div (x y : spec_float) :
  SFabs (SFdiv prec emax x y) = SFdiv prec emax (SFabs x) (SFabs y).
Proof.
  destruct x as [sx|sx| |sx mx ex], y as [sy|sy| |sy my ey]; try done.
  cbn [SFdiv SFabs].
  destruct (SFdiv_core_binary prec emax (Z.pos mx) ex (Z.pos my) ey) as [[mz ez] lz].
  apply round_aux_abs.
Qed.

Lemma normalize_abs_opp (m e : Z) (s s' : bool) :
  SFabs (binary_normalize prec emax (- m) e s) = SFabs (binary_normalize prec emax m e s').
Proof.
  destruct m as [|p|p]; [done| |]; unfold binary_normalize, Z.opp, binary_round;
    destruct (shl_align _ _ _) as [mz ez]; rewrite !round_aux_abs; reflexivity.
Qed.

Lemma SFabs_sub_comm (x y : spec_float) :
  SFabs (SFsub prec emax x y) = SFabs (SFsub prec emax y x).
Proof.
  destruct x as [sx|sx| |sx mx ex], y as [sy|sy| |sy my ey];
    try done; try (by destruct sx, sy).
  cbn [SFsub]. rewrite (Z.min_comm ey ex).
  rewrite <- normalize_abs_opp with (s := false). f_equal. f_equal. lia.
Qed.

(** [abs(x - y) == abs(y - x)], also when the difference is rounded. *)
Lemma abs_sub_comm (x y : Py.float64) : abs (x - y) = abs (y - x).
Proof. apply Prim2SF_inj. rewrite !abs_spec, !sub_spec. apply SFabs_sub_comm. Qed.

(** [abs(x / y) == abs(x) / abs(y)], also when the quotient is rounded. *)
Lemma abs_div (x y : Py.float64) : abs (x / y) = (abs x / abs y)%float.
Proof. apply Prim2SF_inj. rewrite abs_spec, !div_spec, !abs_spec. apply SFabs_div. Qed.

Lemma Prim2SF_zero : Prim2SF 0%float = S754_zero false.
Proof. reflexivity. Qed.

Lemma Prim2SF_infinity : Prim2SF infinity = S754_infinity false.
Proof. reflexivity. Qed.

(** A finite number is a zero or has a mantissa and an exponent. *)
Lemma finite_cases (x : Py.float64) :
  is_finite x = true →
  (∃ s, Prim2SF x = S754_zero s) ∨ (∃ s m e, Prim2SF x = S754_finite s m e).
Proof.
  unfold is_finite, is_nan, is_infinity. rewrite !eqb_spec, abs_spec, Prim2SF_infinity.
  destruct (Prim2SF x) as [s|s| |s m e]; intros H.
  - left. by exists s.
  - by destruct s.
  - done.
  - right. by exists s, m, e.
Qed.

(** What is not finite is [nan] or an infinity. *)
Lemma infinite_cases (x : Py.float64) :
  is_finite x = false → Prim2SF x = S754_nan ∨ ∃ s, Prim2SF x = S754_infinity s.
Proof.
  unfold is_finite, is_nan, is_infinity. rewrite !eqb_spec, abs_spec, Prim2SF_infinity.
  destruct (Prim2SF x) as [s|s| |s m e] eqn:Hx; intros H.
  - by destruct s.
  - right. by exists s.
  - by left.
  - unfold SFeqb in H. cbn [SFabs SFcompare] in H.
    rewrite Z.compare_refl, Pos.compare_cont_refl in H. by destruct s.
Qed.

(** An absolute value lies below positive bounds only. *)
Lemma SFltb_abs_pos (v t : spec_float) :
  SFltb (SFabs v) t = true → SFltb (S754_zero false) t = true.
Proof.
  unfold SFltb. destruct v as [s|s| |s m e], t as [s'|s'| |s' m' e']; cbn; try done;
    destruct s'; try done.
Qed.

Lemma numbers_match_tolerance (self : MathVerifier.T) (a b : Py.float64) :
  MathVerifier._numbers_match self a b = true →
  (0 <? MathVerifier.tolerance self)%float = true.
Proof.
  unfold MathVerifier._numbers_match. rewrite !ltb_spec, !abs_spec, Prim2SF_zero.
  destruct (b =? 0)%float; apply SFltb_abs_pos.
Qed.

Lemma numbers_match_refl (self : MathVerifier.T) (a : Py.float64) :
  (0 <? MathVerifier.tolerance self)%float = true → is_finite a = true →
  MathVerifier._numbers_match self a a = true.
Proof.
  unfold MathVerifier._numbers_match. intros Htol Ha.
  rewrite eqb_spec, !ltb_spec, !abs_spec, div_spec, sub_spec, Prim2SF_zero in *.
  unfold SF64div, SF64sub.
  destruct (finite_cases a Ha) as [[s ->]|(s & m & e & ->)].
  - by destruct s.
  - assert (Hsub : SFsub prec emax (S754_finite s m e) (S754_finite s m e)
                   = S754_zero false).
    { cbn [SFsub]. by rewrite Z.sub_diag. }
    rewrite Hsub. by destruct s.
Qed.

Lemma numbers_match_infinite (self : MathVerifier.T) (a : Py.float64) :
  is_finite a = false → MathVerifier._numbers_match self a a = false.
Proof.
  unfold MathVerifier._numbers_match. intros Ha.
  rewrite eqb_spec, !ltb_spec, !abs_spec, div_spec, sub_spec, Prim2SF_zero.
  unfold SF64div, SF64sub.
  destruct (infinite_cases a Ha) as [->|[s ->]]; [done|]. by destruct s.
Qed.

End Binary64.

(** [_numbers_match] decides the specification's match predicate. *)
Lemma numbers_match_spec (self : MathVerifier.T) (a b : Py.float64) :
  MathVerifier._numbers_match self a b = true
  ↔ Spec.within_tolerance a b (MathVerifier.tolerance self).
Proof.
  unfold MathVerifier._numbers_match, Spec.within_tolerance. rewrite <- abs_div.
  destruct (b =? 0)%float; split.
  - intros Hm. by right.
  - by intros [[? _]|[_ Hm]].
  - intros Hm. by left.
  - by intros [[_ Hm]|[? _]].
Qed.

(** The evidence loop of [verify] collects the numbers of the table-typed
    pieces, in order. *)
Lemma evidence_numbers_spec (render : MathVerifier.pyval → string)
  (evidence : list Evidence) (acc : list Py.float64) :
  fold_left
    (fun evidence_numbers ev =>
       if String.eqb (content_type (metadata ev)) "table"
       then evidence_numbers
            ++ MathVerifier.extract_numbers render (MathVerifier.PStr (content ev))
       else evidence_numbers)
    evidence acc
  = acc ++ Spec.table_numbers evidence.
Proof.
  unfold Spec.table_numbers. revert acc.
  induction evidence as [|ev evidence IH]; intros acc; simpl.
  - by rewrite app_nil_r.
  - rewrite IH. destruct (String.eqb _ _); simpl; [|done].
    by rewrite app_assoc.
Qed.

Lemma verify_presence_spec (self : MathVerifier.T)
  (answer_nums evidence_nums : list Py.float64) :
  MathVerifier._verify_presence self answer_nums evidence_nums = true
  ↔ ∀ a, a ∈ answer_nums →
         ∃ e, e ∈ evidence_nums ∧ Spec.within_tolerance a e (MathVerifier.tolerance self).
Proof.
  unfold MathVerifier._verify_presence. rewrite forallb_forall.
  split; intros Hall a Ha.
  - apply list_elem_of_In, Hall, existsb_exists in Ha as (e & He & Hm).
    exists e. split; [by apply list_elem_of_In | by apply numbers_match_spec].
  - apply list_elem_of_In, Hall in Ha as (e & He & Hm).
    apply existsb_exists. exists e.
    split; [by apply list_elem_of_In | by apply numbers_match_spec].
Qed.

(** [verify] on a lookup query, for any tolerance: without numbers in the
    answer the verdict is [no_numbers]; with numbers it is [verified] when
    they all match and [failed] otherwise. *)
Lemma verify_lookup_spec (render : MathVerifier.pyval → string) (self : MathVerifier.T)
  (answer : string) (evidence : list Evidence) (query : string) :
  MathVerifier._detect_calculation_type query answer = MathVerifier.lookup →
  (MathVerifier.extract_text answer = [] →
   MathVerifier.status (MathVerifier.verify render self answer evidence query)
   = MathVerifier.no_numbers)
  ∧ (MathVerifier.extract_text answer ≠ [] →
     (MathVerifier.status (MathVerifier.verify render self answer evidence query)
      = MathVerifier.verified
      ↔ Spec.all_answer_numbers_match answer evidence (MathVerifier.tolerance self))
     ∧ (MathVerifier.status (MathVerifier.verify render self answer evidence query)
        = MathVerifier.failed
        ↔ ¬ Spec.all_answer_numbers_match answer evidence (MathVerifier.tolerance self))).
Proof.
  intros Hlookup. unfold MathVerifier.verify.
  rewrite extract_numbers_str, evidence_numbers_spec, app_nil_l, Hlookup.
  unfold Spec.all_answer_numbers_match.
  destruct (MathVerifier.extract_text answer) as [|a0 rest] eqn:Hnums.
  - split; [done | by intros []].
  - split; [done | intros _].
    rewrite <- verify_presence_spec.
    destruct (MathVerifier._verify_presence _ _ _); cbn; split; split; done.
Qed.

(** C3, as stated, fails: on a lookup query whose answer has no number every
    answer number matches (there is none), yet the verdict is [no_numbers],
    not [verified]. *)
Lemma verify_lookup_answer_without_numbers :
  MathVerifier._detect_calculation_type "What was revenue?" "Not disclosed"
  = MathVerifier.lookup
  ∧ Spec.all_answer_numbers_match "Not disclosed" [table_piece "100.5"]
      MathVerifier.default_tolerance
  ∧ MathVerifier.status
      (MathVerifier.verify (fun _ => EmptyString)
         (MathVerifier.__init__ MathVerifier.default_tolerance)
         "Not disclosed" [table_piece "100.5"] "What was revenue?")
    = MathVerifier.no_numbers.
Proof.
  split; [reflexivity|]. split; [|reflexivity].
  intros a Ha. by apply elem_of_nil in Ha.
Qed.

(** C3 (amended): for a lookup query and an answer that contains at least one
    number, [verify] with the default tolerance returns [verified] exactly
    when every number extracted from the answer matches some number extracted
    from the table-typed evidence within relative tolerance 0.01, and
    [failed] exactly when not. The match is the one the interpreter computes
    in binary64: "Revenue was 100" is verified against the table number 100.5
    and failed against 90, a number that only text-typed evidence carries
    does not count, and 10.1 is verified against 10, because the double
    nearest to 10.1 lies below it. *)
Theorem verify_lookup_default :
  (∀ (render : MathVerifier.pyval → string) (answer : string)
     (evidence : list Evidence) (query : string),
     MathVerifier._detect_calculation_type query answer = MathVerifier.lookup →
     MathVerifier.extract_text answer ≠ [] →
     (MathVerifier.status
        (MathVerifier.verify render (MathVerifier.__init__ MathVerifier.default_tolerance)
           answer evidence query) = MathVerifier.verified
      ↔ Spec.all_answer_numbers_match answer evidence MathVerifier.default_tolerance)
     ∧ (MathVerifier.status
          (MathVerifier.verify render (MathVerifier.__init__ MathVerifier.default_tolerance)
             answer evidence query) = MathVerifier.failed
        ↔ ¬ Spec.all_answer_numbers_match answer evidence MathVerifier.default_tolerance))
  ∧ MathVerifier.status
      (MathVerifier.verify (fun _ => EmptyString)
         (MathVerifier.__init__ MathVerifier.default_tolerance)
         "Revenue was 100" [table_piece "100.5"] "What was revenue?")
    = MathVerifier.verified
  ∧ MathVerifier.status
      (MathVerifier.verify (fun _ => EmptyString)
         (MathVerifier.__init__ MathVerifier.default_tolerance)
         "Revenue was 100" [table_piece "90"] "What was revenue?")
    = MathVerifier.failed
  ∧ MathVerifier.status
      (MathVerifier.verify (fun _ => EmptyString)
         (MathVerifier.__init__ MathVerifier.default_tolerance)
         "Revenue was 100" [text_piece "100"] "What was revenue?")
    = MathVerifier.failed
  ∧ MathVerifier.status
      (MathVerifier.verify (fun _ => EmptyString)
         (MathVerifier.__init__ MathVerifier.default_tolerance)
         "Revenue was 10.1" [table_piece "10"] "What was revenue?")
    = MathVerifier.verified.
Proof.
  split; [|by vm_compute].
  intros render answer evidence query Hlookup Hnums.
  by apply (verify_lookup_spec render (MathVerifier.__init__ MathVerifier.default_tolerance)).
Qed.

(** The theorem at the specification's sample: the answer "Revenue was 100"
    is verified against the table number 100.5 because all its numbers match. *)
Lemma verify_lookup_default_witness :
  MathVerifier.status
    (MathVerifier.verify (fun _ => EmptyString)
       (MathVerifier.__init__ MathVerifier.default_tolerance)
       "Revenue was 100" [table_piece "100.5"] "What was revenue?")
  = MathVerifier.verified
  ↔ Spec.all_answer_numbers_match "Revenue was 100" [table_piece "100.5"]
      MathVerifier.default_tolerance.
Proof.
  apply (proj1 verify_lookup_default (fun _ => EmptyString) "Revenue was 100"
           [table_piece "100.5"] "What was revenue?").
  - reflexivity.
  - by vm_compute.
Defined.

(** ** Recall at k *)

Section RecallFacts.

Context {A : Type} `{Countable A}.

(** The number of relevant items among [retrieved[:k]]. *)
Definition relevant_in_top (retrieved : list A) (relevant : gset A) (k : Z) : nat :=
  size ((list_to_set (Py.slice_to retrieved k) : gset A) ∩ relevant).

Lemma take_subseteq (xs : list A) (n m : nat) :
  n ≤ m → ∀ x, x ∈ take n xs → x ∈ take m xs.
Proof.
  intros Hnm x. rewrite !elem_of_take. intros (i & Hi & Hlt).
  exists i. split; [done | lia].
Qed.

(** The smaller of two cutoffs keeps a prefix of what the larger one keeps
    (also for two negative cutoffs, which count from the end). *)
Lemma slice_to_mono (xs : list A) (k1 k2 : Z) :
  (k1 ≤ k2)%Z → (0 ≤ k1 ∨ k2 < 0)%Z →
  ∀ x, x ∈ Py.slice_to xs k1 → x ∈ Py.slice_to xs k2.
Proof.
  intros Hle Hsign. unfold Py.slice_to.
  destruct (Z.leb_spec 0 k1), (Z.leb_spec 0 k2); try (exfalso; lia); apply take_subseteq; lia.
Qed.

Lemma relevant_in_top_mono (retrieved : list A) (relevant : gset A) (k1 k2 : Z) :
  (k1 ≤ k2)%Z → (0 ≤ k1 ∨ k2 < 0)%Z →
  relevant_in_top retrieved relevant k1 ≤ relevant_in_top retrieved relevant k2.
Proof.
  intros Hle Hsign. apply subseteq_size.
  intros x. rewrite !elem_of_intersection, !elem_of_list_to_set.
  intros [Hx Hrel]. split; [|done]. by apply (slice_to_mono retrieved k1 k2).
Qed.

Lemma recall_as_fraction (retrieved : list A) (relevant : gset A) (k : Z) :
  size relevant ≠ 0 →
  Metrics.compute_recall_at_k retrieved relevant k
  = (Qc_of_Z (Z.of_nat (relevant_in_top retrieved relevant k))
     / Qc_of_Z (Z.of_nat (size relevant)))%Qc.
Proof.
  intros Hne. unfold Metrics.compute_recall_at_k. by destruct (decide _).
Qed.

(** C9: recall@k is monotone in the cutoff: for every ranking, every set of
    relevant items and all cutoffs [0 ≤ k1 ≤ k2], [recall@k1 ≤ recall@k2]. *)
Theorem compute_recall_at_k_monotone (retrieved : list A) (relevant : gset A) (k1 k2 : Z) :
  (0 ≤ k1)%Z → (k1 ≤ k2)%Z →
  (Metrics.compute_recall_at_k retrieved relevant k1
   ≤ Metrics.compute_recall_at_k retrieved relevant k2)%Qc.
Proof.
  intros Hk1 Hle. assert (Hsign : (0 ≤ k1 ∨ k2 < 0)%Z) by by left.
  destruct (decide (size relevant = 0)) as [Hz|Hnz].
  { unfold Metrics.compute_recall_at_k. rewrite !decide_True by done. apply Qcle_refl. }
  rewrite !recall_as_fraction by done. unfold Qcdiv.
  apply Qcmult_le_mono_nonneg_r.
  - apply Qclt_le_weak, Qcinv_pos. rewrite <- Z2Qc_inj_0.
    apply (proj1 (Z2Qc_inj_lt 0 _)). lia.
  - apply (proj1 (Z2Qc_inj_le _ _)), inj_le. by apply relevant_in_top_mono.
Qed.

End RecallFacts.

(** The theorem at a ranking of three items, cutoffs 1 and 2. *)
Lemma compute_recall_at_k_monotone_witness :
  (Metrics.compute_recall_at_k ["a"; "b"; "c"] ({["b"; "c"]} : gset string) 1
   ≤ Metrics.compute_recall_at_k ["a"; "b"; "c"] ({["b"; "c"]} : gset string) 2)%Qc.
Proof.
  apply (compute_recall_at_k_monotone ["a"; "b"; "c"] ({["b"; "c"]} : gset string) 1 2).
  - lia.
  - lia.
Defined.

(** ** Dictionaries in insertion order *)

Section DictFacts.

Context {V : Type}.
Implicit Types (d : list (string * V)) (k : string) (v : V).

Lemma dict_get_set_eq d k v : Py.dict_get k (Py.dict_set k v d) = Some v.
Proof.
  induction d as [|[k' v'] d IH]; simpl.
  - by rewrite String.eqb_refl.
  - destruct (String.eqb k k') eqn:Hk; simpl; [by rewrite String.eqb_refl|].
    by rewrite Hk.
Qed.

Lemma dict_get_set_ne d k k' v :
  k ≠ k' → Py.dict_get k' (Py.dict_set k v d) = Py.dict_get k' d.
Proof.
  intros Hne. induction d as [|[k0 v0] d IH]; simpl.
  - by apply String.eqb_neq in Hne; rewrite String.eqb_sym, Hne.
  - destruct (String.eqb_spec k k0) as [->|Hk]; simpl.
    + destruct (String.eqb_spec k' k0) as [->|]; done.
    + by rewrite IH.
Qed.

Lemma dict_set_keys d k v :
  ∀ k', k' ∈ (Py.dict_set k v d).*1 ↔ k' = k ∨ k' ∈ d.*1.
Proof.
  intros k'. induction d as [|[k0 v0] d IH]; simpl.
  - rewrite list_elem_of_singleton, elem_of_nil. tauto.
  - destruct (String.eqb_spec k k0) as [->|Hk]; simpl; rewrite !elem_of_cons.
    + tauto.
    + rewrite IH. tauto.
Qed.

Lemma dict_set_NoDup d k v : NoDup d.*1 → NoDup (Py.dict_set k v d).*1.
Proof.
  induction d as [|[k0 v0] d IH]; simpl.
  - intros _. apply NoDup_singleton.
  - rewrite NoDup_cons. intros [Hnotin Hnd].
    destruct (String.eqb_spec k k0) as [->|Hk]; simpl.
    + by apply NoDup_cons.
    + apply NoDup_cons. split; [|by apply IH].
      rewrite dict_set_keys. intros [->|Hin]; done.
Qed.

(** With unique keys, the entries are what [get] finds. *)
Lemma dict_get_elem_of d k v :
  NoDup d.*1 → (k, v) ∈ d ↔ Py.dict_get k d = Some v.
Proof.
  induction d as [|[k0 v0] d IH]; simpl.
  - intros _. split; [by intros ?%elem_of_nil | done].
  - rewrite NoDup_cons. intros [Hnotin Hnd]. rewrite elem_of_cons.
    destruct (String.eqb_spec k k0) as [->|Hk].
    + split.
      * intros [[= ->]|Hin]; [done|]. destruct Hnotin.
        apply list_elem_of_fmap. by exists (k0, v).
      * intros [= ->]. by left.
    + rewrite <- IH by done. split; [intros [[= ? ?]|?]; done | by right].
Qed.

End DictFacts.

(** ** The stable descending sort *)

Section SortFacts.

Context {A : Type} (key : A → Qc).

Lemma insert_desc_Permutation (x : A) (xs : list A) :
  Py.insert_desc key x xs ≡ₚ x :: xs.
Proof.
  induction xs as [|y xs IH]; simpl; [done|].
  destruct (Py.ltb _ _); [|done].
  by rewrite IH, Permutation_swap.
Qed.

Lemma sorted_desc_Permutation (xs : list A) : Py.sorted_desc key xs ≡ₚ xs.
Proof.
  induction xs as [|x xs IH]; simpl; [done|].
  by rewrite insert_desc_Permutation, IH.
Qed.

Lemma insert_desc_descending (x : A) (xs : list A) :
  Spec.descending key xs → Spec.descending key (Py.insert_desc key x xs).
Proof.
  unfold Spec.descending. induction xs as [|y xs IH]; simpl; intros Hs.
  - repeat constructor.
  - apply StronglySorted_inv in Hs as [Hs Hy].
    unfold Py.ltb. case_bool_decide as Hxy.
    + constructor; [by apply IH|].
      rewrite insert_desc_Permutation. constructor; [|done].
      by apply Qclt_le_weak.
    + apply Qcnot_lt_le in Hxy.
      constructor; [by constructor|]. constructor; [done|].
      eapply Forall_impl; [exact Hy|]. intros z Hz. simpl in Hz.
      by eapply Qcle_trans.
Qed.

Lemma sorted_desc_descending (xs : list A) : Spec.descending key (Py.sorted_desc key xs).
Proof.
  induction xs as [|x xs IH]; simpl; [constructor|].
  by apply insert_desc_descending.
Qed.

Lemma sorted_desc_elem_of (xs : list A) (x : A) : x ∈ Py.sorted_desc key xs ↔ x ∈ xs.
Proof. by rewrite sorted_desc_Permutation. Qed.

Lemma insert_desc_stable (x : A) (xs : list A) (c : Qc) :
  List.filter (fun y => Py.eqb (key y) c) (Py.insert_desc key x xs)
  = List.filter (fun y => Py.eqb (key y) c) (x :: xs).
Proof.
  induction xs as [|y xs IH]; [done|]. cbn [Py.insert_desc].
  unfold Py.ltb. case_bool_decide as Hxy; [|done].
  cbn [List.filter] in *. rewrite IH. unfold Py.eqb.
  repeat case_bool_decide; try done.
  subst c. destruct (Qclt_not_eq _ _ Hxy). congruence.
Qed.

(** Stability: the items of equal score keep the order they had. *)
Lemma sorted_desc_stable (xs : list A) (c : Qc) :
  List.filter (fun y => Py.eqb (key y) c) (Py.sorted_desc key xs)
  = List.filter (fun y => Py.eqb (key y) c) xs.
Proof.
  induction xs as [|x xs IH]; [done|]. cbn [Py.sorted_desc].
  rewrite insert_desc_stable. cbn [List.filter]. by rewrite IH.
Qed.

End SortFacts.

(** ** The two loops both fusion strategies are built from

    A first loop files every item under its key, overwriting; a second loop
    adds to the entry of a key that is already there and files the item
    otherwise. *)

Section KeyedLoops.

Context {X V : Type}.
Variable key_of : X → string.
Variable fresh_dense : X → V.
Variable fresh_bm25 : X → V.
Variable add_bm25 : V → X → V.

Definition assign_loop (xs : list X) (d : list (string * V)) : list (string * V) :=
  fold_left (fun d x => Py.dict_set (key_of x) (fresh_dense x) d) xs d.

Definition accumulate_loop (xs : list X) (d : list (string * V)) : list (string * V) :=
  fold_left
    (fun d x =>
       match Py.dict_get (key_of x) d with
       | Some e => Py.dict_set (key_of x) (add_bm25 e x) d
       | None => Py.dict_set (key_of x) (fresh_bm25 x) d
       end)
    xs d.

(** The items filed under [k]. *)
Definition under (k : string) (xs : list X) : list X :=
  List.filter (fun x => String.eqb k (key_of x)) xs.

(** What the second loop makes of one entry, given the items filed under
    its key. *)
Definition accumulate (cur : option V) (xs : list X) : option V :=
  fold_left
    (fun cur x => Some match cur with Some e => add_bm25 e x | None => fresh_bm25 x end)
    xs cur.

Lemma assign_loop_get (xs : list X) (d : list (string * V)) (k : string) :
  Py.dict_get k (assign_loop xs d)
  = match last (under k xs) with
    | Some x => Some (fresh_dense x)
    | None => Py.dict_get k d
    end.
Proof.
  unfold assign_loop, under. revert d.
  induction xs as [|x xs IH]; intros d; simpl; [done|].
  rewrite IH. destruct (String.eqb_spec k (key_of x)) as [->|Hk].
  - rewrite dict_get_set_eq.
    destruct (List.filter _ xs) as [|y ys] eqn:Hf; simpl; [done|].
    by destruct (last (y :: ys)) eqn:Hl; [|by apply last_None in Hl].
  - destruct (last _); [done|]. by rewrite dict_get_set_ne.
Qed.

Lemma accumulate_loop_get (xs : list X) (d : list (string * V)) (k : string) :
  Py.dict_get k (accumulate_loop xs d) = accumulate (Py.dict_get k d) (under k xs).
Proof.
  unfold accumulate_loop, accumulate, under. revert d.
  induction xs as [|x xs IH]; intros d; simpl; [done|].
  rewrite IH. destruct (String.eqb_spec k (key_of x)) as [->|Hk]; simpl.
  - by destruct (Py.dict_get (key_of x) d); rewrite dict_get_set_eq.
  - by destruct (Py.dict_get (key_of x) d); rewrite dict_get_set_ne.
Qed.

Lemma assign_loop_NoDup (xs : list X) (d : list (string * V)) :
  NoDup d.*1 → NoDup (assign_loop xs d).*1.
Proof.
  unfold assign_loop. revert d.
  induction xs as [|x xs IH]; intros d Hd; simpl; [done|].
  by apply IH, dict_set_NoDup.
Qed.

Lemma accumulate_loop_NoDup (xs : list X) (d : list (string * V)) :
  NoDup d.*1 → NoDup (accumulate_loop xs d).*1.
Proof.
  unfold accumulate_loop. revert d.
  induction xs as [|x xs IH]; intros d Hd; simpl; [done|].
  apply IH. by destruct (Py.dict_get _ d); apply dict_set_NoDup.
Qed.

(** Both loops together, started from the empty dictionary. *)
Lemma fused_get (dense bm25 : list X) (k : string) :
  Py.dict_get k (accumulate_loop bm25 (assign_loop dense []))
  = accumulate (fresh_dense <$> last (under k dense)) (under k bm25).
Proof.
  rewrite accumulate_loop_get, assign_loop_get. by destruct (last _).
Qed.

Lemma fused_NoDup (dense bm25 : list X) :
  NoDup (accumulate_loop bm25 (assign_loop dense [])).*1.
Proof. apply accumulate_loop_NoDup, assign_loop_NoDup, NoDup_nil_2. Qed.

End KeyedLoops.

(** ** Weighted score fusion *)

(** In a list whose keys are pairwise distinct, the only item filed under
    the key of [x] is [x]. *)
Lemma filter_unique_key {X : Type} (key_of : X → string) (xs : list X) (x : X) :
  NoDup (key_of <$> xs) → x ∈ xs →
  List.filter (fun y => String.eqb (key_of x) (key_of y)) xs = [x].
Proof.
  induction xs as [|y xs IH]; simpl; [by intros _ ?%elem_of_nil|].
  rewrite NoDup_cons, elem_of_cons. intros [Hnotin Hnd] Hin.
  assert (Hnone : ∀ z, key_of z ∉ key_of <$> xs →
            List.filter (fun y => String.eqb (key_of z) (key_of y)) xs = []).
  { clear. intros z Hz. induction xs as [|y xs IH]; simpl; [done|].
    rewrite fmap_cons, not_elem_of_cons in Hz. destruct Hz as [Hne Hz].
    destruct (String.eqb_spec (key_of z) (key_of y)); [done | by apply IH]. }
  destruct (String.eqb_spec (key_of x) (key_of y)) as [Heq|Hne].
  - destruct Hin as [->|Hin].
    + by rewrite Hnone.
    + destruct Hnotin. rewrite <- Heq. apply list_elem_of_fmap. by exists x.
  - destruct Hin as [->|Hin]; [done | by apply IH].
Qed.

Lemma filter_absent_key {X : Type} (key_of : X → string) (xs : list X) (k : string) :
  (∀ y, y ∈ xs → key_of y ≠ k) →
  List.filter (fun y => String.eqb k (key_of y)) xs = [].
Proof.
  induction xs as [|y xs IH]; simpl; [done|]. intros Hall.
  destruct (String.eqb_spec k (key_of y)) as [->|Hne].
  - destruct (Hall y); [by left | done].
  - apply IH. intros z Hz. apply Hall. by right.
Qed.

Section WeightedFusion.

Variable alpha : Qc.

Definition dense_entry (r : Evidence) : Evidence := with_score r (alpha * score r)%Qc.
Definition bm25_entry (r : Evidence) : Evidence := with_score r ((1 - alpha) * score r)%Qc.
Definition bm25_added (e r : Evidence) : Evidence :=
  with_score e (score e + (1 - alpha) * score r)%Qc.

(** The entry the merge step holds for a key, from the candidates under it. *)
Definition merged_entry (key : string) (dense_results bm25_results : list Evidence)
  : option Evidence :=
  accumulate bm25_entry bm25_added
    (dense_entry <$> last (Spec.candidates key dense_results))
    (Spec.candidates key bm25_results).

Lemma merged_dict_get (dense bm25 : list Evidence) (k : string) :
  Py.dict_get k
    (HierarchicalRetriever.merge_bm25 alpha bm25
       (HierarchicalRetriever.merge_dense alpha dense))
  = merged_entry k dense bm25.
Proof.
  apply (fused_get HierarchicalRetriever.merge_key dense_entry bm25_entry bm25_added).
Qed.

Lemma merged_dict_NoDup (dense bm25 : list Evidence) :
  NoDup (HierarchicalRetriever.merge_bm25 alpha bm25
           (HierarchicalRetriever.merge_dense alpha dense)).*1.
Proof.
  apply (fused_NoDup HierarchicalRetriever.merge_key dense_entry bm25_entry bm25_added).
Qed.

Lemma accumulate_score (cur : option Evidence) (ls : list Evidence) :
  score <$> accumulate bm25_entry bm25_added cur ls
  = match cur, ls with
    | None, [] => None
    | _, _ =>
        Some (from_option score 0 cur
              + Spec.total (map (fun r => (1 - alpha) * score r) ls))%Qc
    end.
Proof.
  unfold accumulate. revert cur.
  induction ls as [|l ls IH]; intros cur; simpl.
  - destruct cur as [e|]; simpl; [|done]. by rewrite Qcplus_0_r.
  - rewrite IH. unfold Spec.total. destruct cur as [e|]; simpl.
    + by rewrite Qcplus_assoc.
    + by rewrite Qcplus_0_l.
Qed.

Lemma accumulate_key (k : string) (cur : option Evidence) (ls : list Evidence) (e : Evidence) :
  (∀ c, cur = Some c → HierarchicalRetriever.merge_key c = k) →
  Forall (fun l => HierarchicalRetriever.merge_key l = k) ls →
  accumulate bm25_entry bm25_added cur ls = Some e →
  HierarchicalRetriever.merge_key e = k.
Proof.
  unfold accumulate. revert cur.
  induction ls as [|l ls IH]; intros cur Hcur Hls; simpl.
  - intros ->. by apply Hcur.
  - apply Forall_cons in Hls as [Hl Hls]. apply IH; [|done].
    intros c [= <-]. destruct cur as [c0|].
    + change (HierarchicalRetriever.merge_key c0 = k). by apply Hcur.
    + exact Hl.
Qed.

Lemma candidates_key (k : string) (rs : list Evidence) :
  Forall (fun r => HierarchicalRetriever.merge_key r = k) (Spec.candidates k rs).
Proof.
  apply Forall_forall. intros r Hr%list_elem_of_In. apply filter_In in Hr as [_ Hr].
  unfold Spec.has_key in Hr. by apply String.eqb_eq in Hr.
Qed.

Lemma merged_entry_key (k : string) (dense bm25 : list Evidence) (e : Evidence) :
  merged_entry k dense bm25 = Some e → HierarchicalRetriever.merge_key e = k.
Proof.
  apply accumulate_key; [|apply candidates_key].
  intros c Hc. destruct (last _) as [r|] eqn:Hlast; [|done].
  injection Hc as <-. apply last_Some_elem_of in Hlast.
  pose proof (candidates_key k dense) as Hall. rewrite Forall_forall in Hall.
  by apply Hall in Hlast.
Qed.

Lemma merged_dict_keys (dense bm25 : list Evidence) :
  let d := HierarchicalRetriever.merge_bm25 alpha bm25
             (HierarchicalRetriever.merge_dense alpha dense) in
  HierarchicalRetriever.merge_key <$> Py.dict_values d = d.*1.
Proof.
  intros d.
  assert (Hinv : ∀ k e, (k, e) ∈ d → HierarchicalRetriever.merge_key e = k).
  { intros k e Hin. apply (merged_entry_key k dense bm25).
    rewrite <- merged_dict_get. apply dict_get_elem_of; [apply merged_dict_NoDup | done]. }
  clearbody d. unfold Py.dict_values.
  induction d as [|[k e] d IH]; simpl; [done|]. f_equal.
  - apply Hinv. by left.
  - apply IH. intros k' e' Hin. apply Hinv. by right.
Qed.

(** The merged list holds, for every key, exactly the entry computed from
    the candidates under that key (or nothing when there is none). *)
Lemma merge_results_candidates (dense bm25 : list Evidence) (k : string) :
  Spec.candidates k (HierarchicalRetriever._merge_results dense bm25 alpha)
  = option_list (merged_entry k dense bm25).
Proof.
  unfold HierarchicalRetriever._merge_results.
  set (d := HierarchicalRetriever.merge_bm25 alpha bm25
              (HierarchicalRetriever.merge_dense alpha dense)).
  pose proof (merged_dict_NoDup dense bm25) as Hnd. fold d in Hnd.
  pose proof (merged_dict_keys dense bm25) as Hkeys. cbv zeta in Hkeys. fold d in Hkeys.
  pose proof (merged_dict_get dense bm25) as Hget. fold d in Hget.
  assert (Hin : ∀ e, e ∈ Py.sorted_desc score (Py.dict_values d)
                     ↔ Py.dict_get (HierarchicalRetriever.merge_key e) d = Some e).
  { intros e. rewrite sorted_desc_elem_of, <- dict_get_elem_of by done.
    unfold Py.dict_values. rewrite list_elem_of_fmap. split.
    - intros ([k' e'] & -> & Hin). simpl.
      replace (HierarchicalRetriever.merge_key e') with k'; [done|].
      symmetry. apply (merged_entry_key k' dense bm25).
      rewrite <- Hget. by apply dict_get_elem_of.
    - intros Hin. by exists (HierarchicalRetriever.merge_key e, e). }
  rewrite <- Hget. destruct (Py.dict_get k d) as [e|] eqn:Hk; simpl.
  - assert (Hkey : HierarchicalRetriever.merge_key e = k).
    { apply (merged_entry_key k dense bm25). by rewrite <- Hget. }
    subst k. apply (filter_unique_key HierarchicalRetriever.merge_key).
    + rewrite sorted_desc_Permutation, Hkeys. exact Hnd.
    + by apply Hin.
  - apply (filter_absent_key HierarchicalRetriever.merge_key).
    intros y Hy%Hin Heq. subst k. congruence.
Qed.

(** The lexical loop adds to the entry it finds, one result after the other. *)
Lemma accumulate_total (c : Evidence) (ls : list Evidence) :
  accumulate bm25_entry bm25_added (Some c) ls
  = Some (with_score c
            (score c + Spec.total (map (fun l => (1 - alpha) * score l) ls))%Qc).
Proof.
  unfold accumulate. revert c. induction ls as [|l ls IH]; intros c; simpl.
  - destruct c as [text meta s]. unfold with_score. simpl. by rewrite Qcplus_0_r.
  - rewrite IH. unfold bm25_added, with_score. simpl. by rewrite Qcplus_assoc.
Qed.

(** The entry of a key that a single dense result carries. *)
Lemma merged_entry_dense (k : string) (dense bm25 : list Evidence) (d : Evidence) :
  Spec.candidates k dense = [d] →
  merged_entry k dense bm25
  = Some (with_score d
            (alpha * score d
             + Spec.total (map (fun l => (1 - alpha) * score l)
                             (Spec.candidates k bm25)))%Qc).
Proof.
  intros Hd. unfold merged_entry. rewrite Hd. simpl. by rewrite accumulate_total.
Qed.

(** The entry of a key that only lexical results carry. *)
Lemma merged_entry_lexical (k : string) (dense bm25 : list Evidence)
  (l : Evidence) (ls : list Evidence) :
  Spec.candidates k dense = [] → Spec.candidates k bm25 = l :: ls →
  merged_entry k dense bm25
  = Some (with_score l
            (Spec.total (map (fun r => (1 - alpha) * score r) (l :: ls)))%Qc).
Proof.
  intros Hd Hl. unfold merged_entry. rewrite Hd, Hl. simpl.
  change (fold_left _ ls (Some (bm25_entry l)))
    with (accumulate bm25_entry bm25_added (Some (bm25_entry l)) ls).
  by rewrite accumulate_total.
Qed.

End WeightedFusion.

(** C1, as stated, fails when a key repeats inside one list: the merged list
    has one entry per key, not one per candidate. Two lexical results under
    the key "rev", with scores 0.4 and 0.2 and no dense result, leave one
    entry with the sum 0.3 * 0.4 + 0.3 * 0.2 = 0.18: the first candidate does
    not get 0.3 * 0.4 = 0.12. (Two dense results under one key leave one
    entry as well: 0.7 * 0.5 = 0.35 for scores 0.9 and 0.5, and nothing at
    0.7 * 0.9 = 0.63.) *)
Lemma merge_results_repeated_key :
  map score
    (HierarchicalRetriever._merge_results []
       [scored "rev" (Py.lit 4 10); scored "rev" (Py.lit 2 10)]
       HierarchicalRetriever.default_alpha)
  = [Py.lit 18 100]
  ∧ ((1 - HierarchicalRetriever.default_alpha) * Py.lit 4 10)%Qc = Py.lit 12 100
  ∧ Py.lit 18 100 ≠ Py.lit 12 100
  ∧ map score
      (HierarchicalRetriever._merge_results
         [scored "rev" (Py.lit 9 10); scored "rev" (Py.lit 5 10)] []
         HierarchicalRetriever.default_alpha)
    = [Py.lit 35 100]
  ∧ (HierarchicalRetriever.default_alpha * Py.lit 9 10)%Qc = Py.lit 63 100
  ∧ Py.lit 35 100 ≠ Py.lit 63 100.
Proof. qc_decide. Qed.

(** C1 (amended): the merge step files every candidate under a key derived from its
    content (its first 50 characters). For a key [k] that no two results of
    one list share: a candidate found only in the dense list ends up with
    score [alpha * dense_score]; one found in both lists with
    [alpha * dense_score + (1 - alpha) * lexical_score]; one found only in
    the lexical list with [(1 - alpha) * lexical_score]; a key found in
    neither list has no entry. Lexical results that share a key add up: with
    at most one dense result under [k], the entry of [k] has the score
    [alpha * dense_score] (when there is a dense result) plus
    [(1 - alpha)] times each lexical score under [k]. The merged list is in
    descending order of score, the default [alpha] is 0.7, and dense
    {"rev": 0.9} with lexical {"rev": 0.4} gives "rev" the score 0.75. *)
Theorem merge_results_weighted_scores (alpha : Qc) (dense bm25 : list Evidence) (k : string) :
  (∀ d, Spec.candidates k dense = [d] → Spec.candidates k bm25 = [] →
        Spec.candidates k (HierarchicalRetriever._merge_results dense bm25 alpha)
        = [with_score d (alpha * score d)%Qc])
  ∧ (∀ d l, Spec.candidates k dense = [d] → Spec.candidates k bm25 = [l] →
        Spec.candidates k (HierarchicalRetriever._merge_results dense bm25 alpha)
        = [with_score d (alpha * score d + (1 - alpha) * score l)%Qc])
  ∧ (∀ l, Spec.candidates k dense = [] → Spec.candidates k bm25 = [l] →
        Spec.candidates k (HierarchicalRetriever._merge_results dense bm25 alpha)
        = [with_score l ((1 - alpha) * score l)%Qc])
  ∧ (Spec.candidates k dense = [] → Spec.candidates k bm25 = [] →
        Spec.candidates k (HierarchicalRetriever._merge_results dense bm25 alpha) = [])
  ∧ (∀ r, Spec.has_key k r = true ↔ Py.str_prefix 50 (content r) = k)
  ∧ Spec.descending score (HierarchicalRetriever._merge_results dense bm25 alpha)
  ∧ HierarchicalRetriever.default_alpha = Py.lit 7 10
  ∧ map score
      (Spec.candidates "rev"
         (HierarchicalRetriever._merge_results
            [scored "rev" (Py.lit 9 10)] [scored "rev" (Py.lit 4 10)]
            HierarchicalRetriever.default_alpha))
    = [Py.lit 75 100]
  ∧ (∀ d, Spec.candidates k dense = [d] →
        Spec.candidates k (HierarchicalRetriever._merge_results dense bm25 alpha)
        = [with_score d
             (alpha * score d
              + Spec.total (map (fun l => (1 - alpha) * score l)
                              (Spec.candidates k bm25)))%Qc])
  ∧ (∀ l ls, Spec.candidates k dense = [] → Spec.candidates k bm25 = l :: ls →
        Spec.candidates k (HierarchicalRetriever._merge_results dense bm25 alpha)
        = [with_score l
             (Spec.total (map (fun r => (1 - alpha) * score r) (l :: ls)))%Qc]).
Proof.
  assert (Hsample :
    map score
      (Spec.candidates "rev"
         (HierarchicalRetriever._merge_results
            [scored "rev" (Py.lit 9 10)] [scored "rev" (Py.lit 4 10)]
            HierarchicalRetriever.default_alpha))
    = [Py.lit 75 100]) by qc_decide.
  repeat split.
  - intros d Hd Hl. rewrite merge_results_candidates.
    unfold merged_entry. by rewrite Hd, Hl.
  - intros d l Hd Hl. rewrite merge_results_candidates.
    unfold merged_entry. by rewrite Hd, Hl.
  - intros l Hd Hl. rewrite merge_results_candidates.
    unfold merged_entry. by rewrite Hd, Hl.
  - intros Hd Hl. rewrite merge_results_candidates.
    unfold merged_entry. by rewrite Hd, Hl.
  - unfold Spec.has_key. intros Hk%String.eqb_eq. by symmetry.
  - unfold Spec.has_key. intros <-. apply String.eqb_refl.
  - apply sorted_desc_descending.
  - exact Hsample.
  - intros d Hd. by rewrite merge_results_candidates, (merged_entry_dense _ _ _ _ d).
  - intros l ls Hd Hl.
    by rewrite merge_results_candidates, (merged_entry_lexical _ _ _ _ l ls).
Qed.

(** The theorem at the specification's sample: "rev" with dense score 0.9
    and lexical score 0.4. *)
Lemma merge_results_weighted_scores_witness :
  Spec.candidates "rev"
    (HierarchicalRetriever._merge_results
       [scored "rev" (Py.lit 9 10)] [scored "rev" (Py.lit 4 10)]
       HierarchicalRetriever.default_alpha)
  = [with_score (scored "rev" (Py.lit 9 10))
       (HierarchicalRetriever.default_alpha * Py.lit 9 10
        + (1 - HierarchicalRetriever.default_alpha) * Py.lit 4 10)%Qc].
Proof.
  apply (proj1 (proj2 (merge_results_weighted_scores HierarchicalRetriever.default_alpha
                         [scored "rev" (Py.lit 9 10)] [scored "rev" (Py.lit 4 10)] "rev"))
           (scored "rev" (Py.lit 9 10)) (scored "rev" (Py.lit 4 10)));
    reflexivity.
Defined.

(** The same sample in IEEE binary64, the arithmetic Python runs: the fused
    score is the double 0.75 there as well. *)
Section Binary64.

Import PrimFloat.

#[warnings="-inexact-float"]
Example weighted_sample_in_binary64 :
  PrimFloat.eqb (0.7 * 0.9 + (1 - 0.7) * 0.4)%float 0.75%float = true.
Proof. reflexivity. Qed.

End Binary64.

(** ** Duplicate keys *)

Lemma merge_results_entry_score (alpha : Qc) (dense bm25 : list Evidence) (e : Evidence) :
  e ∈ HierarchicalRetriever._merge_results dense bm25 alpha →
  score e = Spec.weighted_total alpha (HierarchicalRetriever.merge_key e) dense bm25.
Proof.
  intros Hin.
  assert (Hc : e ∈ Spec.candidates (HierarchicalRetriever.merge_key e)
                     (HierarchicalRetriever._merge_results dense bm25 alpha)).
  { apply list_elem_of_In, filter_In. split; [by apply list_elem_of_In|].
    apply String.eqb_refl. }
  rewrite merge_results_candidates in Hc.
  destruct (merged_entry alpha _ dense bm25) as [e'|] eqn:He; simpl in Hc;
    [|by apply elem_of_nil in Hc].
  apply list_elem_of_singleton in Hc as <-.
  apply (f_equal (fmap score)) in He. unfold merged_entry in He.
  rewrite accumulate_score in He. unfold Spec.weighted_total.
  destruct (last _) as [d|]; simpl in *.
  - by injection He.
  - destruct (Spec.candidates _ bm25); [done | by injection He].
Qed.

Lemma merge_results_has_entry (alpha : Qc) (dense bm25 : list Evidence) (r : Evidence) :
  r ∈ dense ++ bm25 →
  ∃ e, e ∈ HierarchicalRetriever._merge_results dense bm25 alpha
       ∧ HierarchicalRetriever.merge_key e = HierarchicalRetriever.merge_key r.
Proof.
  intros Hr.
  pose proof (merge_results_candidates alpha dense bm25
                (HierarchicalRetriever.merge_key r)) as Hc.
  assert (Hsome : is_Some (merged_entry alpha (HierarchicalRetriever.merge_key r) dense bm25)).
  { apply fmap_is_Some with (f := score). unfold merged_entry.
    rewrite accumulate_score.
    assert (Hmem : ∀ rs, r ∈ rs → Spec.candidates (HierarchicalRetriever.merge_key r) rs ≠ []).
    { intros rs Hin Hnil.
      assert (Hrc : In r (Spec.candidates (HierarchicalRetriever.merge_key r) rs)).
      { apply filter_In. split; [by apply list_elem_of_In | apply String.eqb_refl]. }
      by rewrite Hnil in Hrc. }
    apply elem_of_app in Hr as [Hd|Hb].
    - apply Hmem in Hd. destruct (last _) as [d|] eqn:Hlast; [done|].
      by apply last_None in Hlast.
    - apply Hmem in Hb. destruct (last _); [done|].
      by destruct (Spec.candidates _ bm25). }
  destruct Hsome as [e He]. rewrite He in Hc. exists e. split.
  - assert (Hin : e ∈ Spec.candidates (HierarchicalRetriever.merge_key r)
                        (HierarchicalRetriever._merge_results dense bm25 alpha)).
    { rewrite Hc. by left. }
    apply list_elem_of_In, filter_In in Hin as [Hin _]. by apply list_elem_of_In.
  - by apply (merged_entry_key alpha _ dense bm25).
Qed.

(** Without a repeated key in the dense list, the accumulated score is the
    sum over all occurrences. *)
Lemma weighted_total_sum_of_all (alpha : Qc) (k : string) (dense bm25 : list Evidence) :
  length (Spec.candidates k dense) ≤ 1 →
  Spec.weighted_total alpha k dense bm25 = Spec.weighted_sum_of_all alpha k dense bm25.
Proof.
  unfold Spec.weighted_total, Spec.weighted_sum_of_all.
  destruct (Spec.candidates k dense) as [|d [|d' ds]]; simpl; intros Hlen.
  - done.
  - by rewrite Qcplus_0_r.
  - lia.
Qed.

(** ** Reciprocal rank fusion *)

Lemma elem_of_slice_to {A : Type} (xs : list A) (k : Z) (x : A) :
  x ∈ Py.slice_to xs k → x ∈ xs.
Proof.
  unfold Py.slice_to. destruct (0 <=? k)%Z;
    intros (i & Hi & _)%elem_of_take; by eapply list_elem_of_lookup_2.
Qed.

Lemma slice_to_all {A : Type} (xs : list A) (k : Z) :
  (Z.of_nat (length xs) ≤ k)%Z → Py.slice_to xs k = xs.
Proof.
  intros Hk. unfold Py.slice_to.
  destruct (Z.leb_spec 0 k); [|lia]. apply take_ge. lia.
Qed.

Lemma dict_set_length {V : Type} (d : list (string * V)) (k : string) (v : V) :
  length (Py.dict_set k v d) ≤ S (length d).
Proof.
  induction d as [|[k0 v0] d IH]; simpl; [lia|].
  destruct (String.eqb k k0); simpl; lia.
Qed.

Lemma enumerate_from_elem_of {A : Type} (xs : list A) (start : nat) (x : A) :
  x ∈ xs → ∃ rank, (rank, x) ∈ Py.enumerate_from start xs.
Proof.
  revert start. induction xs as [|y xs IH]; intros start; simpl.
  - by intros ?%elem_of_nil.
  - intros [->|Hin]%elem_of_cons.
    + exists start. by left.
    + destruct (IH (S start) Hin) as [rank Hrank]. exists rank. by right.
Qed.

Lemma enumerate_from_length {A : Type} (xs : list A) (start : nat) :
  length (Py.enumerate_from start xs) = length xs.
Proof. revert start. induction xs as [|y xs IH]; intros start; simpl; [done | by rewrite IH]. Qed.

Section RankFusion.

Variable self : HybridSearcher.T.

Definition rank_key (x : nat * HybridSearcher.Doc) : string := HybridSearcher.doc_id x.2.

Definition dense_rank_score (x : nat * HybridSearcher.Doc) : Qc :=
  HybridSearcher.rank_score (HybridSearcher.dense_weight self) x.1.

Definition bm25_rank_score (x : nat * HybridSearcher.Doc) : Qc :=
  HybridSearcher.rank_score (HybridSearcher.bm25_weight self) x.1.

Definition bm25_rank_added (s : Qc) (x : nat * HybridSearcher.Doc) : Qc :=
  (s + HybridSearcher.rank_score (HybridSearcher.bm25_weight self) x.1)%Qc.

Lemma fuse_dense_loop (dense : list HybridSearcher.Doc) :
  HybridSearcher.fuse_dense self dense
  = assign_loop rank_key dense_rank_score (Py.enumerate dense) [].
Proof. apply fold_left_ext. by intros d [rank r]. Qed.

Lemma fuse_bm25_loop (bm25 : list HybridSearcher.Doc) (d : list (string * Qc)) :
  HybridSearcher.fuse_bm25 self bm25 d
  = accumulate_loop rank_key bm25_rank_score bm25_rank_added (Py.enumerate bm25) d.
Proof. apply fold_left_ext. by intros d' [rank r]. Qed.

Lemma rank_accumulate (cur : option Qc) (ls : list (nat * HybridSearcher.Doc)) :
  accumulate bm25_rank_score bm25_rank_added cur ls
  = match cur, ls with
    | None, [] => None
    | _, _ => Some (default 0 cur + Spec.total (map bm25_rank_score ls))%Qc
    end.
Proof.
  unfold accumulate. revert cur.
  induction ls as [|l ls IH]; intros cur; simpl.
  - destruct cur as [s|]; simpl; [|done]. by rewrite Qcplus_0_r.
  - rewrite IH. unfold Spec.total, bm25_rank_added, bm25_rank_score.
    destruct cur as [s|]; simpl.
    + by rewrite Qcplus_assoc.
    + by rewrite Qcplus_0_l.
Qed.

Lemma fuse_scores_get (dense bm25 : list HybridSearcher.Doc) (k : string) :
  Py.dict_get k (HybridSearcher.fuse_bm25 self bm25 (HybridSearcher.fuse_dense self dense))
  = match last (Spec.ranked k dense), Spec.ranked k bm25 with
    | None, [] => None
    | _, _ => Some (Spec.rrf_total self k dense bm25)
    end.
Proof.
  rewrite fuse_bm25_loop, fuse_dense_loop, fused_get, rank_accumulate.
  unfold Spec.rrf_total. fold (Spec.ranked k dense) (Spec.ranked k bm25).
  change (under rank_key k (Py.enumerate dense)) with (Spec.ranked k dense).
  change (under rank_key k (Py.enumerate bm25)) with (Spec.ranked k bm25).
  by destruct (last (Spec.ranked k dense)).
Qed.

Lemma fuse_scores_NoDup (dense bm25 : list HybridSearcher.Doc) :
  NoDup (HybridSearcher.fuse_bm25 self bm25 (HybridSearcher.fuse_dense self dense)).*1.
Proof. rewrite fuse_bm25_loop, fuse_dense_loop. apply fused_NoDup. Qed.

Lemma fuse_scores_length (dense bm25 : list HybridSearcher.Doc) :
  length (HybridSearcher.fuse_bm25 self bm25 (HybridSearcher.fuse_dense self dense))
  ≤ length dense + length bm25.
Proof.
  assert (Hassign : ∀ xs d,
    length (assign_loop rank_key dense_rank_score xs d) ≤ length d + length xs).
  { unfold assign_loop. induction xs as [|x xs IH]; intros d; simpl; [lia|].
    etrans; [apply IH|]. pose proof (dict_set_length d (rank_key x) (dense_rank_score x)). lia. }
  assert (Hacc : ∀ xs d,
    length (accumulate_loop rank_key bm25_rank_score bm25_rank_added xs d)
    ≤ length d + length xs).
  { unfold accumulate_loop. induction xs as [|x xs IH]; intros d; simpl; [lia|].
    etrans; [apply IH|].
    destruct (Py.dict_get (rank_key x) d) as [s|].
    - pose proof (dict_set_length d (rank_key x) (bm25_rank_added s x)). lia.
    - pose proof (dict_set_length d (rank_key x) (bm25_rank_score x)). lia. }
  rewrite fuse_bm25_loop, fuse_dense_loop.
  etrans; [apply Hacc|]. unfold Py.enumerate. rewrite enumerate_from_length.
  pose proof (Hassign (Py.enumerate dense) []) as Hd.
  unfold Py.enumerate in Hd. rewrite enumerate_from_length in Hd. simpl in Hd. lia.
Qed.

Lemma fuse_results_entry_score (dense bm25 : list HybridSearcher.Doc) (top_k : Z)
  (k : string) (s : Qc) :
  (k, s) ∈ HybridSearcher.fuse_results self dense bm25 top_k →
  s = Spec.rrf_total self k dense bm25.
Proof.
  unfold HybridSearcher.fuse_results.
  intros Hin%elem_of_slice_to%sorted_desc_elem_of.
  apply dict_get_elem_of in Hin; [|apply fuse_scores_NoDup].
  rewrite fuse_scores_get in Hin.
  destruct (last _); [congruence|]. destruct (Spec.ranked k bm25); congruence.
Qed.

Lemma fuse_results_has_entry (dense bm25 : list HybridSearcher.Doc) (top_k : Z)
  (r : HybridSearcher.Doc) :
  (Z.of_nat (length dense + length bm25) ≤ top_k)%Z →
  r ∈ dense ++ bm25 →
  ∃ s, (HybridSearcher.doc_id r, s) ∈ HybridSearcher.fuse_results self dense bm25 top_k.
Proof.
  intros Htop Hr. unfold HybridSearcher.fuse_results.
  rewrite slice_to_all.
  2:{ rewrite sorted_desc_Permutation.
      pose proof (fuse_scores_length dense bm25). lia. }
  exists (Spec.rrf_total self (HybridSearcher.doc_id r) dense bm25).
  apply sorted_desc_elem_of, dict_get_elem_of; [apply fuse_scores_NoDup|].
  rewrite fuse_scores_get.
  assert (Hmem : ∀ rs, r ∈ rs → Spec.ranked (HybridSearcher.doc_id r) rs ≠ []).
  { intros rs Hin Hnil.
    destruct (enumerate_from_elem_of rs 0 r Hin) as [rank Hrank].
    assert (Hrc : In (rank, r) (Spec.ranked (HybridSearcher.doc_id r) rs)).
    { apply filter_In. split; [by apply list_elem_of_In | apply String.eqb_refl]. }
    by rewrite Hnil in Hrc. }
  apply elem_of_app in Hr as [Hd|Hb].
  - apply Hmem in Hd. destruct (last _) eqn:Hlast; [done|]. by apply last_None in Hlast.
  - apply Hmem in Hb. destruct (last _); [done|]. by destruct (Spec.ranked _ bm25).
Qed.

Lemma rrf_total_sum_of_all (k : string) (dense bm25 : list HybridSearcher.Doc) :
  length (Spec.ranked k dense) ≤ 1 →
  Spec.rrf_total self k dense bm25 = Spec.rrf_sum_of_all self k dense bm25.
Proof.
  unfold Spec.rrf_total, Spec.rrf_sum_of_all.
  destruct (Spec.ranked k dense) as [|d [|d' ds]]; simpl; intros Hlen.
  - done.
  - by rewrite Qcplus_0_r.
  - lia.
Qed.

End RankFusion.

Lemma default_searcher_init :
  HybridSearcher.__init__ (Py.lit 7 10) (Py.lit 3 10) = Py.Ok default_searcher.
Proof.
  unfold HybridSearcher.__init__, default_searcher.
  replace (Py.eqb _ _) with false by by vm_compute.
  do 2 f_equal; by apply Qc_is_canon.
Qed.

(** In both fusion strategies the final score of a key is the weighted
    contribution of its last occurrence in the dense list (nothing when it
    does not occur there) plus the sum of the weighted contributions of all
    its occurrences in the lexical list: the first loops assign, the second
    loops add. Every key of either input has an entry (in rank fusion, when
    [top_k] does not cut it off), and the score is the sum over all
    occurrences whenever the key occurs at most once in the dense list. *)
Lemma fusion_scores_per_key :
  (∀ alpha dense bm25 e,
     e ∈ HierarchicalRetriever._merge_results dense bm25 alpha →
     score e = Spec.weighted_total alpha (HierarchicalRetriever.merge_key e) dense bm25)
  ∧ (∀ alpha dense bm25 r,
       r ∈ dense ++ bm25 →
       ∃ e, e ∈ HierarchicalRetriever._merge_results dense bm25 alpha
            ∧ HierarchicalRetriever.merge_key e = HierarchicalRetriever.merge_key r)
  ∧ (∀ alpha k dense bm25,
       length (Spec.candidates k dense) ≤ 1 →
       Spec.weighted_total alpha k dense bm25 = Spec.weighted_sum_of_all alpha k dense bm25)
  ∧ (∀ self dense bm25 top_k k s,
       (k, s) ∈ HybridSearcher.fuse_results self dense bm25 top_k →
       s = Spec.rrf_total self k dense bm25)
  ∧ (∀ self dense bm25 top_k r,
       (Z.of_nat (length dense + length bm25) ≤ top_k)%Z →
       r ∈ dense ++ bm25 →
       ∃ s, (HybridSearcher.doc_id r, s) ∈ HybridSearcher.fuse_results self dense bm25 top_k)
  ∧ (∀ self k dense bm25,
       length (Spec.ranked k dense) ≤ 1 →
       Spec.rrf_total self k dense bm25 = Spec.rrf_sum_of_all self k dense bm25).
Proof.
  split; [exact merge_results_entry_score|].
  split; [exact merge_results_has_entry|].
  split; [exact weighted_total_sum_of_all|].
  split; [exact fuse_results_entry_score|].
  split; [exact fuse_results_has_entry | exact rrf_total_sum_of_all].
Qed.

(** C7, evaluated. A key that occurs twice in the dense list keeps the
    contribution of its last occurrence only: the first loop of either
    strategy assigns where the second loop adds. With weights 0.7/0.3,
    weighted fusion of dense scores 0.9 and 0.5 under one key gives 0.35, not
    0.63 + 0.35 = 0.98; rank fusion of one identity at dense ranks 0 and 1
    gives 0.7/2 = 0.35, not 0.7 + 0.35 = 1.05. The text branch meets this on
    a corpus of one chunk asked for one piece: FAISS pads its two rows with
    position -1, which reads the chunk again, and the padding's score
    replaces the score 1 of the hit, so the chunk ends below 0.16 where the
    sum is above 0.85. *)
Theorem fusion_dense_duplicates_are_replaced :
  map score
    (HierarchicalRetriever._merge_results
       [scored "rev" (Py.lit 9 10); scored "rev" (Py.lit 5 10)] []
       HierarchicalRetriever.default_alpha)
  = [Py.lit 35 100]
  ∧ Spec.weighted_sum_of_all HierarchicalRetriever.default_alpha "rev"
      [scored "rev" (Py.lit 9 10); scored "rev" (Py.lit 5 10)] []
    = Py.lit 98 100
  ∧ HybridSearcher.fuse_results default_searcher [doc "a"; doc "a"] [] 10
    = [("a", Py.lit 35 100)]
  ∧ Spec.rrf_sum_of_all default_searcher "a" [doc "a"; doc "a"] [] = Py.lit 105 100
  ∧ HierarchicalRetriever.rows
      (HierarchicalRetriever.text_index
         (hybrid_text_retriever ["Revenue grew."] [(0%Qc, 0%Z)] [Py.lit 1 2]))
      "revenue" 2
    = [(0%Qc, 0%Z); HierarchicalRetriever.padding]
  ∧ map score
      <$> HierarchicalRetriever._retrieve_text (fun _ => [0%Z])
            (hybrid_text_retriever ["Revenue grew."] [(0%Qc, 0%Z)] [Py.lit 1 2])
            "revenue" [] 1 true
    = Py.Ok [(Py.lit 7 10
              * HierarchicalRetriever.similarity HierarchicalRetriever.padding.1
              + Py.lit 3 10 * Py.lit 1 2)%Qc]
  ∧ (Py.lit 7 10 * HierarchicalRetriever.similarity HierarchicalRetriever.padding.1
     + Py.lit 3 10 * Py.lit 1 2 < Py.lit 16 100)%Qc
  ∧ (Py.lit 85 100
     < Spec.weighted_sum_of_all HierarchicalRetriever.default_alpha "Revenue grew."
         [scored "Revenue grew." (HierarchicalRetriever.similarity 0);
          scored "Revenue grew."
            (HierarchicalRetriever.similarity HierarchicalRetriever.padding.1)]
         [scored "Revenue grew." (Py.lit 1 2)])%Qc.
Proof. qc_decide. Qed.

(** Summation does happen across the lists and inside the lexical list:
    one dense and two lexical occurrences of a key add up. *)
Example fusion_lexical_duplicates_are_summed :
  map score
    (HierarchicalRetriever._merge_results
       [scored "rev" (Py.lit 9 10)]
       [scored "rev" (Py.lit 4 10); scored "rev" (Py.lit 2 10)]
       HierarchicalRetriever.default_alpha)
  = [Py.lit 81 100]
  ∧ HybridSearcher.fuse_results default_searcher [doc "a"] [doc "a"; doc "a"] 10
    = [("a", Py.lit 115 100)].
Proof. qc_decide. Qed.

(** ** Stage-B retrieval *)

(** C8, evaluated. The table branch skips a position past the end of its
    arrays. The text branch has no such test: a position past the end of the
    chunk array raises [IndexError], and so does a search over an empty text
    corpus, whose padded position [-1] indexes an empty list. *)
Theorem retrieve_text_position_out_of_range (argsort : list Qc → list Z) :
  map content
    <$> HierarchicalRetriever._retrieve_tables argsort
          (table_only_retriever ["row one"] [(0%Qc, 1%Z); (Py.lit 1 2, 0%Z)]) "q" [] 1 true
  = Py.Ok ["row one"]
  ∧ HierarchicalRetriever._retrieve_text argsort
      (text_only_retriever ["chunk one"] [(0%Qc, 1%Z); (Py.lit 1 2, 0%Z)]) "q" [] 1 true
    = Py.Raise Py.IndexError
  ∧ HierarchicalRetriever._retrieve_text argsort (text_only_retriever [] []) "q" [] 1 true
    = Py.Raise Py.IndexError
  ∧ HierarchicalRetriever._retrieve_tables argsort (text_only_retriever [] []) "q" [] 1 true
    = Py.Raise Py.IndexError.
Proof. repeat split. Qed.

Lemma index_ok {A : Type} (xs : list A) (i : Z) :
  Spec.valid_position xs i → ∃ x, Py.index xs i = Py.Ok x ∧ x ∈ xs.
Proof.
  unfold Spec.valid_position, Py.index. intros Hi.
  set (j := if (0 <=? i)%Z then i else (Z.of_nat (length xs) + i)%Z).
  assert (Hj : (0 ≤ j < Z.of_nat (length xs))%Z).
  { subst j. destruct (Z.leb_spec 0 i); lia. }
  destruct (Z.ltb_spec j 0); [lia|].
  destruct (lookup_lt_is_Some_2 xs (Z.to_nat j)) as [x Hx]; [lia|].
  rewrite Hx. exists x. split; [done|]. by eapply list_elem_of_lookup_2.
Qed.

Lemma index_elem_of {A : Type} (xs : list A) (i : Z) (x : A) :
  Py.index xs i = Py.Ok x → x ∈ xs.
Proof.
  unfold Py.index. destruct (_ <? 0)%Z; [done|].
  destruct (xs !! _) as [y|] eqn:Hy; [|done].
  intros [= <-]. by eapply list_elem_of_lookup_2.
Qed.

Lemma bind_Ok {A B : Type} (m : Py.result A) (f : A → Py.result B) (b : B) :
  m ≫= f = Py.Ok b ↔ ∃ a, m = Py.Ok a ∧ f a = Py.Ok b.
Proof.
  destruct m as [a|err]; simpl; split.
  - intros Hf. by exists a.
  - by intros (a' & [= <-] & Hf).
  - done.
  - by intros (a' & [=] & _).
Qed.

(** A loop that appends one item per element, when every step succeeds. *)
Lemma for_each_append_ok {A B : Type} (body : list B → A → Py.result (list B))
  (P : A → Prop) (Q : B → Prop) (xs : list A) (acc : list B) :
  (∀ acc x, P x → ∃ y, body acc x = Py.Ok (acc ++ [y]) ∧ Q y) →
  Forall P xs →
  ∃ ys, Py.for_each body xs acc = Py.Ok (acc ++ ys)
        ∧ length ys = length xs ∧ Forall Q ys.
Proof.
  intros Hbody. revert acc. induction xs as [|x xs IH]; intros acc Hxs; simpl.
  - exists []. by rewrite app_nil_r.
  - apply Forall_cons in Hxs as [Hx Hxs].
    destruct (Hbody acc x Hx) as (y & -> & Hy). simpl.
    destruct (IH (acc ++ [y]) Hxs) as (ys & -> & Hlen & Hys).
    exists (y :: ys). rewrite <- app_assoc. simpl.
    split; [done|]. split; [by rewrite Hlen | by constructor].
Qed.

(** A loop that appends at most one item per element: what a successful run
    has appended. *)
Lemma for_each_append_inv {A B : Type} (body : list B → A → Py.result (list B))
  (Q : B → Prop) (xs : list A) (acc rs : list B) :
  (∀ acc x r, body acc x = Py.Ok r → ∃ y, r = acc ++ [y] ∧ Q y) →
  Py.for_each body xs acc = Py.Ok rs →
  ∃ ys, rs = acc ++ ys ∧ Forall Q ys.
Proof.
  intros Hbody. revert acc. induction xs as [|x xs IH]; intros acc; simpl.
  - intros [= <-]. exists []. by rewrite app_nil_r.
  - destruct (body acc x) as [r|err] eqn:Hr; simpl; [|done].
    destruct (Hbody acc x r Hr) as (y & -> & Hy).
    intros (ys & -> & Hys)%IH. exists (y :: ys).
    rewrite <- app_assoc. split; [done | by constructor].
Qed.






(** *** The dense search *)

Lemma search_ok (index : HierarchicalRetriever.Index) (query : string) (k : Z) :
  (0 < k)%Z →
  HierarchicalRetriever.search index query k
  = Py.Ok (HierarchicalRetriever.rows index query k).
Proof.
  intros Hk. unfold HierarchicalRetriever.search. by destruct (Z.ltb_spec 0 k); [|lia].
Qed.

Lemma search_raises (index : HierarchicalRetriever.Index) (query : string) (k : Z) :
  (k ≤ 0)%Z → HierarchicalRetriever.search index query k = Py.Raise Py.AssertionError.
Proof.
  intros Hk. unfold HierarchicalRetriever.search. by destruct (Z.ltb_spec 0 k); [lia|].
Qed.

Lemma search_Ok_inv (index : HierarchicalRetriever.Index) (query : string) (k : Z)
  (hits : list (Qc * Z)) :
  HierarchicalRetriever.search index query k = Py.Ok hits →
  (0 < k)%Z ∧ hits = HierarchicalRetriever.rows index query k.
Proof.
  unfold HierarchicalRetriever.search. destruct (Z.ltb_spec 0 k); [|done].
  by intros [= <-].
Qed.

(** An answer has exactly as many rows as were asked for. *)
Lemma rows_length (index : HierarchicalRetriever.Index) (query : string) (k : Z) :
  length (HierarchicalRetriever.rows index query k) = Z.to_nat k.
Proof.
  unfold HierarchicalRetriever.rows.
  rewrite length_take, length_app, length_replicate. lia.
Qed.






(** * Further properties of the modelled code *)

(** ** Query router: case and context *)

Lemma lower_char_idempotent (c : ascii) :
  Py.lower_char (Py.lower_char c) = Py.lower_char c.
Proof.
  unfold Py.lower_char.
  destruct ((65 <=? nat_of_ascii c)%nat && (nat_of_ascii c <=? 90)%nat) eqn:Hup.
  - apply andb_true_iff in Hup as [Hlo Hhi]. apply Nat.leb_le in Hlo, Hhi.
    rewrite nat_ascii_embedding by lia.
    destruct (Nat.leb_spec 65 (nat_of_ascii c + 32)); [|lia].
    by destruct (Nat.leb_spec (nat_of_ascii c + 32) 90); [lia|].
  - by rewrite Hup.
Qed.

Lemma lower_idempotent (s : string) : Py.lower (Py.lower s) = Py.lower s.
Proof.
  induction s as [|c s IH]; [done|]. cbn [Py.lower].
  by rewrite lower_char_idempotent, IH.
Qed.

Lemma lower_app (s t : string) : Py.lower (s +:+ t) = Py.lower s +:+ Py.lower t.
Proof.
  induction s as [|c s IH]; [done|].
  rewrite append_cons. cbn [Py.lower]. by rewrite IH, append_cons.
Qed.

(** A keyword found in a text is found in every text that contains it. *)
Lemma contains_app (kw pre s post : string) :
  Py.contains kw s = true → Py.contains kw (pre +:+ s +:+ post) = true.
Proof.
  rewrite !contains_spec. intros (p & q & ->).
  exists (pre +:+ p), (q +:+ post). by rewrite !append_assoc.
Qed.

Lemma filter_length_le {A : Type} (f g : A → bool) (xs : list A) :
  (∀ x, f x = true → g x = true) →
  length (List.filter f xs) ≤ length (List.filter g xs).
Proof.
  intros Hfg. induction xs as [|x xs IH]; simpl; [done|].
  destruct (f x) eqn:Hf.
  - rewrite (Hfg x Hf). simpl. lia.
  - destruct (g x); simpl; lia.
Qed.

(** X1. Both routing flags survive when text is put around the query: a query
    that is table-centric, or that requires math, stays so inside any longer
    query. *)
Theorem route_flags_monotone (q pre post : string) :
  (QueryRouter.is_table_centric (QueryRouter.route q) = true →
   QueryRouter.is_table_centric (QueryRouter.route (pre +:+ q +:+ post)) = true)
  ∧ (QueryRouter.requires_math (QueryRouter.route q) = true →
     QueryRouter.requires_math (QueryRouter.route (pre +:+ q +:+ post)) = true).
Proof.
  cbn [QueryRouter.route QueryRouter.is_table_centric QueryRouter.requires_math].
  rewrite !lower_app. split.
  - unfold QueryRouter._is_table_centric. rewrite !keyword_count_length.
    intros Hq%Nat.leb_le. apply Nat.leb_le. etrans; [exact Hq|].
    apply filter_length_le. intros kw. apply contains_app.
  - unfold QueryRouter._requires_math. rewrite !existsb_exists.
    intros (kw & Hin & Hkw). exists kw. split; [done|]. by apply contains_app.
Qed.

(** X2. Routing ignores letter case: a query and its lower-case form get the
    same decision, and so do any two queries that differ in case only. *)
Theorem route_ignores_case (q : string) :
  QueryRouter.route (Py.lower q) = QueryRouter.route q
  ∧ ∀ q', Py.lower q' = Py.lower q → QueryRouter.route q' = QueryRouter.route q.
Proof.
  split.
  - unfold QueryRouter.route. by rewrite lower_idempotent.
  - intros q' Hq. unfold QueryRouter.route. by rewrite Hq.
Qed.

(** ** Math verifier: calculation type *)

Lemma contains_trans (a b s : string) :
  Py.contains a b = true → Py.contains b s = true → Py.contains a s = true.
Proof.
  rewrite !contains_spec. intros (p & q & ->) (p' & q' & ->).
  exists (p' +:+ p), (q +:+ q'). by rewrite !append_assoc.
Qed.

(** X3. The percentage class is reached through "%" or "yoy" only: a query that
    says "percent" or "percentage" also contains "per", which the ratio test
    takes first. The class never depends on the answer. *)
Theorem detect_calculation_type_percent (query answer : string) :
  (Spec.substring_ci "percent" query →
   MathVerifier._detect_calculation_type query answer = MathVerifier.difference
   ∨ MathVerifier._detect_calculation_type query answer = MathVerifier.ratio)
  ∧ (MathVerifier._detect_calculation_type query answer = MathVerifier.percentage →
     (Spec.substring_ci "%" query ∨ Spec.substring_ci "yoy" query)
     ∧ ¬ Spec.substring_ci "per" query)
  ∧ (∀ answer',
       MathVerifier._detect_calculation_type query answer'
       = MathVerifier._detect_calculation_type query answer).
Proof.
  unfold MathVerifier._detect_calculation_type. cbv zeta beta. cbn [existsb].
  rewrite <- (contains_lower_spec "percent" query), <- (contains_lower_spec "%" query),
    <- (contains_lower_spec "yoy" query), <- (contains_lower_spec "per" query)
    by reflexivity.
  split; [|split; [|done]].
  - intros Hpercent.
    assert (Hper : Py.contains "per" (Py.lower query) = true).
    { by apply (contains_trans "per" "percent"). }
    rewrite Hper. rewrite !orb_true_r. cbn [orb].
    destruct (_ || _); [by left | by right].
  - destruct (Py.contains "change" _ || _); [done|].
    destruct (Py.contains "per" (Py.lower query)) eqn:Hper.
    { by rewrite !orb_true_r. }
    destruct (Py.contains "ratio" _ || _); [done|].
    destruct (Py.contains "%" (Py.lower query)) eqn:Hpct.
    { intros _. split; [by left | done]. }
    destruct (Py.contains "yoy" (Py.lower query)) eqn:Hyoy.
    { intros _. split; [by right | done]. }
    destruct (Py.contains "percentage" (Py.lower query)) eqn:Hpercentage.
    { by rewrite (contains_trans "per" "percentage" _ eq_refl Hpercentage) in Hper. }
    destruct (Py.contains "percent" (Py.lower query)) eqn:Hpercent.
    { by rewrite (contains_trans "per" "percent" _ eq_refl Hpercent) in Hper. }
    done.
Qed.

(** ** Math verifier: what the string branch extracts *)

Lemma number_body_digit (c : ascii) (rest : string) :
  MathVerifier.is_digit c = true →
  ∃ m, MathVerifier.number_body (String c rest) = Some m.
Proof.
  intros Hc. unfold MathVerifier.number_body. cbn [MathVerifier.digits]. rewrite Hc.
  destruct (MathVerifier.digits rest) as [run after].
  destruct (MathVerifier.literal "." after); destruct (MathVerifier.digits _);
    by eexists.
Qed.

Lemma number_body_no_digit (s : string) :
  starts_with_digit s = false → MathVerifier.number_body s = None.
Proof.
  unfold MathVerifier.number_body. destruct s as [|c s]; [done|].
  cbn [starts_with_digit MathVerifier.digits]. by intros ->.
Qed.

Lemma has_digit_head (s : string) : has_digit s = false → starts_with_digit s = false.
Proof. destruct s as [|c s]; [done|]. cbn. by intros [-> _]%orb_false_iff. Qed.

Lemma match_here_no_digit (s : string) :
  has_digit s = false → MathVerifier.match_here s = None.
Proof.
  intros Hs. unfold MathVerifier.match_here.
  rewrite (number_body_no_digit s) by by apply has_digit_head.
  destruct s as [|c s]; [done|]. cbn [MathVerifier.literal].
  destruct (Ascii.eqb "-" c); [|done].
  cbn [has_digit] in Hs. apply orb_false_iff in Hs as [_ Hs].
  by rewrite number_body_no_digit by by apply has_digit_head.
Qed.

Lemma match_here_digit (c : ascii) (rest : string) :
  MathVerifier.is_digit c = true →
  ∃ m, MathVerifier.match_here (String c rest) = Some m.
Proof.
  intros Hc. unfold MathVerifier.match_here. cbn [MathVerifier.literal].
  destruct (Ascii.eqb_spec "-" c) as [<-|_]; [discriminate Hc|].
  by apply number_body_digit.
Qed.

Lemma findall_no_digit (skip : nat) (s : string) :
  has_digit s = false → MathVerifier.findall_from skip s = [].
Proof.
  revert skip. induction s as [|c s IH]; intros skip Hs; [done|].
  cbn [MathVerifier.findall_from]. rewrite match_here_no_digit by done.
  cbn [has_digit] in Hs. apply orb_false_iff in Hs as [_ Hs].
  destruct skip; by apply IH.
Qed.

Lemma findall_digit (s : string) :
  has_digit s = true → MathVerifier.findall_from 0 s ≠ [].
Proof.
  induction s as [|c s IH]; [done|]. cbn [has_digit MathVerifier.findall_from].
  destruct (MathVerifier.match_here (String c s)) as [m|] eqn:Hm; [done|].
  destruct (MathVerifier.is_digit c) eqn:Hc.
  - destruct (match_here_digit c s Hc) as [m Hm']. congruence.
  - exact IH.
Qed.

Lemma extract_text_nil_iff (s : string) :
  MathVerifier.extract_text s = [] ↔ has_digit s = false.
Proof.
  rewrite <- length_zero_iff_nil, extract_text_length, length_zero_iff_nil.
  unfold MathVerifier.findall. split.
  - intros Hnil. destruct (has_digit s) eqn:Hs; [|done].
    by apply findall_digit in Hs.
  - apply findall_no_digit.
Qed.

(** X4. In ASCII text [extract_numbers] finds a number exactly when the text
    contains a decimal digit, and [verify] answers [no_numbers] exactly when
    the answer contains none, whatever the query is and whatever the evidence
    pieces (each with its content type) are. *)
Theorem no_numbers_iff_no_digit (render : MathVerifier.pyval → string)
  (self : MathVerifier.T) (answer : string) (evidence : list Evidence) (query : string) :
  Py.isascii answer = true →
  (MathVerifier.extract_numbers render (MathVerifier.PStr answer) = []
   ↔ has_digit answer = false)
  ∧ (MathVerifier.status (MathVerifier.verify render self answer evidence query)
     = MathVerifier.no_numbers
     ↔ has_digit answer = false).
Proof.
  intros _. rewrite extract_numbers_str, <- extract_text_nil_iff. split; [done|].
  unfold MathVerifier.verify. rewrite extract_numbers_str.
  destruct (MathVerifier.extract_text answer) as [|a0 rest]; [done|].
  cbv zeta. by destruct (match MathVerifier._detect_calculation_type query answer with
                         | MathVerifier.difference => _ | _ => _ end).
Qed.

Lemma no_numbers_iff_no_digit_witness :
  (MathVerifier.extract_numbers (fun _ => EmptyString) (MathVerifier.PStr "Not disclosed")
   = []
   ↔ has_digit "Not disclosed" = false)
  ∧ (MathVerifier.status
       (MathVerifier.verify (fun _ => EmptyString)
          (MathVerifier.__init__ MathVerifier.default_tolerance)
          "Not disclosed" [table_piece "Revenue 100.5"] "What was revenue?")
     = MathVerifier.no_numbers
     ↔ has_digit "Not disclosed" = false).
Proof.
  apply (no_numbers_iff_no_digit (fun _ => EmptyString)
           (MathVerifier.__init__ MathVerifier.default_tolerance)
           "Not disclosed" [table_piece "Revenue 100.5"] "What was revenue?").
  reflexivity.
Defined.

Lemma contains_char_app (c : ascii) (s t : string) :
  Py.contains_char c (s +:+ t) = Py.contains_char c s || Py.contains_char c t.
Proof.
  induction s as [|d s IH]; [done|].
  rewrite append_cons. cbn [Py.contains_char]. by rewrite IH, orb_assoc.
Qed.

(** A word occurs only in strings that have all its characters. *)
Lemma contains_chars (sub s : string) (c : ascii) :
  Py.contains_char c s = false → Py.contains_char c sub = true →
  Py.contains sub s = false.
Proof.
  intros Hs Hsub. destruct (Py.contains sub s) eqn:Hin; [|done].
  apply contains_spec in Hin as (pre & post & ->).
  rewrite !contains_char_app, Hsub, orb_true_r in Hs. discriminate Hs.
Qed.

Lemma plain_no_char (c : ascii) (p : string) :
  plain_char c = false → all_plain p = true → Py.contains_char c p = false.
Proof.
  intros Hc. induction p as [|d p IH]; [done|]. cbn [all_plain Py.contains_char].
  intros [Hd Hp]%andb_true_iff. rewrite IH, orb_false_r by done.
  destruct (Ascii.eqb_spec c d) as [->|]; [congruence | done].
Qed.

Lemma lower_char_plain (c : ascii) : plain_char c = true → Py.lower_char c = c.
Proof.
  unfold plain_char, Py.lower_char, MathVerifier.is_digit.
  intros [[Hc|Hc%Ascii.eqb_eq]%orb_true_iff|Hc%Ascii.eqb_eq]%orb_true_iff;
    [|by subst c..].
  apply andb_true_iff in Hc as [_ Hc%Nat.leb_le].
  destruct (65 <=? nat_of_ascii c)%nat eqn:Hlo; [|done].
  apply Nat.leb_le in Hlo. lia.
Qed.

Lemma lower_plain (p : string) : all_plain p = true → Py.lower p = p.
Proof.
  induction p as [|c p IH]; [done|]. cbn [all_plain Py.lower].
  intros [Hc Hp]%andb_true_iff. by rewrite lower_char_plain, IH.
Qed.

(** What the pattern matches is a signed decimal followed by nothing, by one
    of the letters M, B, m, b, or by the word "thousand". *)
Lemma unit_alt_units (s u rest : string) :
  MathVerifier.unit_alt s = Some (u, rest) → u ∈ ["thousand"; "M"; "B"; "m"; "b"].
Proof.
  intros [(c & -> & Hc)| ->]%unit_alt_cases; [|by apply elem_of_cons; left].
  cbn [Py.contains_char] in Hc. rewrite orb_false_r, !orb_true_iff in Hc.
  destruct Hc as [Hc|[Hc|[Hc|Hc]]]; apply Ascii.eqb_eq in Hc as ->;
    rewrite !elem_of_cons; auto 10.
Qed.

Lemma number_body_units (s m : string) :
  MathVerifier.number_body s = Some m →
  ∃ p u, m = p +:+ u ∧ all_plain p = true
         ∧ u ∈ [EmptyString; "thousand"; "M"; "B"; "m"; "b"].
Proof.
  unfold MathVerifier.number_body.
  destruct (MathVerifier.digits s) as [int_part r1] eqn:Hint.
  apply digits_spec in Hint as (_ & Hdigits & _).
  destruct int_part as [|c int_part]; [done|].
  set (dotted := match MathVerifier.literal "." r1 with
                 | Some r => (".", r)
                 | None => (EmptyString, r1)
                 end).
  assert (Hdot : all_plain (fst dotted) = true).
  { unfold dotted. by destruct (MathVerifier.literal "." r1). }
  destruct dotted as [dot r2]. cbn [fst] in Hdot.
  destruct (MathVerifier.digits r2) as [frac r3] eqn:Hfrac.
  apply digits_spec in Hfrac as (_ & Hfd & _).
  intros [= <-]. exists (String c int_part +:+ dot +:+ frac).
  eexists. rewrite !append_assoc. split; [done|]. split.
  { apply all_plain_app; [by apply all_digits_plain|].
    apply all_plain_app; [done | by apply all_digits_plain]. }
  destruct (MathVerifier.unit_alt r3) as [[u rest]|] eqn:Hu; [|by apply elem_of_cons; left].
  apply unit_alt_units in Hu. by apply elem_of_cons; right.
Qed.

Lemma match_here_units (s m : string) :
  MathVerifier.match_here s = Some m →
  ∃ p u, m = p +:+ u ∧ all_plain p = true
         ∧ u ∈ [EmptyString; "thousand"; "M"; "B"; "m"; "b"].
Proof.
  unfold MathVerifier.match_here.
  destruct (MathVerifier.literal "-" s) as [rest|]; [|apply number_body_units].
  destruct (MathVerifier.number_body rest) as [m'|] eqn:Hrest; [|apply number_body_units].
  apply number_body_units in Hrest as (p & u & -> & Hp & Hu).
  intros [= <-]. exists ("-" +:+ p), u. by rewrite append_assoc.
Qed.

(** On a match of the pattern the tests for the words "million" and
    "billion" never succeed, and lower-casing the match does not change the
    test for "thousand". *)
Lemma match_unit_tests (s m : string) :
  MathVerifier.match_here s = Some m →
  Py.contains "billion" (Py.lower m) = false
  ∧ Py.contains "million" (Py.lower m) = false
  ∧ Py.contains "thousand" (Py.lower m) = Py.contains "thousand" m.
Proof.
  intros (p & u & -> & Hp & Hu)%match_here_units.
  rewrite lower_app, (lower_plain p Hp).
  assert (Hl : ∀ v, Py.contains_char "l" v = false →
                    Py.contains_char "l" (p +:+ v) = false).
  { intros v Hv. by rewrite contains_char_app, Hv, plain_no_char. }
  assert (Ht : ∀ v, Py.contains_char "t" v = false →
                    Py.contains "thousand" (p +:+ v) = false).
  { intros v Hv. apply (contains_chars _ _ "t"); [|done].
    by rewrite contains_char_app, Hv, plain_no_char. }
  repeat split.
  - apply (contains_chars _ _ "l"); [|done]. apply Hl.
    repeat (apply elem_of_cons in Hu as [->|Hu]; [done|]). by apply elem_of_nil in Hu.
  - apply (contains_chars _ _ "l"); [|done]. apply Hl.
    repeat (apply elem_of_cons in Hu as [->|Hu]; [done|]). by apply elem_of_nil in Hu.
  - repeat (apply elem_of_cons in Hu as [->|Hu]; [by (done || rewrite !Ht)|]).
    by apply elem_of_nil in Hu.
Qed.

(** X5. In ASCII text every match of the number pattern contributes exactly
    one number: the binary64 number [float] reads from the decimal left once
    the unit is removed (it always reads one), multiplied in binary64 by 1e9
    for a match with an upper-case B, else by 1e6 for an upper-case M, else by
    1e3 for the word "thousand", and left as it is otherwise. The
    [except ValueError] branch and the tests for the words "million" and
    "billion" are never taken. *)
Theorem extract_text_values (s : string) :
  Py.isascii s = true →
  Forall2
    (fun m q =>
       ∃ num, MathVerifier.float (MathVerifier.sub_units m) = Py.Ok num
              ∧ q = scale_by_unit m num)
    (MathVerifier.findall s) (MathVerifier.extract_text s).
Proof.
  intros _.
  unfold MathVerifier.extract_text, MathVerifier.findall.
  assert (Hall : Forall (fun m => ∃ s', MathVerifier.match_here s' = Some m)
                        (MathVerifier.findall_from 0 s)).
  { apply Forall_forall. intros m. apply findall_from_match. }
  set (step := fun (numbers : list _) (m : string) => _).
  set (R := fun (m : string) (q : Py.float64) => _).
  assert (Hloop : ∀ ms done acc,
    Forall (fun m => ∃ s', MathVerifier.match_here s' = Some m) ms →
    Forall2 R done acc → Forall2 R (done ++ ms) (fold_left step ms acc)).
  { induction ms as [|m ms IH]; intros done acc Hms Hacc; cbn [fold_left].
    { by rewrite app_nil_r. }
    apply Forall_cons in Hms as [[s' Hm] Hms].
    rewrite (cons_middle m), app_assoc. apply IH; [done|].
    unfold step. destruct (float_of_match s' m Hm) as [num Hnum]. rewrite Hnum.
    destruct (match_unit_tests s' m Hm) as (-> & -> & ->). rewrite !orb_false_r.
    apply Forall2_app; [done|]. constructor; [|done].
    exists num. split; [done|]. unfold scale_by_unit.
    by repeat case_match. }
  by apply (Hloop _ [] []).
Qed.

Lemma extract_text_values_witness :
  Forall2
    (fun m q =>
       ∃ num, MathVerifier.float (MathVerifier.sub_units m) = Py.Ok num
              ∧ q = scale_by_unit m num)
    (MathVerifier.findall "Sales of 2.5B, up 3 thousand from -1.25")
    (MathVerifier.extract_text "Sales of 2.5B, up 3 thousand from -1.25").
Proof.
  apply (extract_text_values "Sales of 2.5B, up 3 thousand from -1.25").
  reflexivity.
Defined.

(** ** Math verifier: matching and the calculation checks *)

(** X6. With a positive tolerance every finite number matches itself, zero
    included; an infinity or [nan] does not match itself; and with a
    tolerance that is not above zero no two numbers match at all. *)
Theorem numbers_match_reflexive (self : MathVerifier.T) :
  ((0 <? MathVerifier.tolerance self)%float = true →
   ∀ a, is_finite a = true → MathVerifier._numbers_match self a a = true)
  ∧ (∀ a, is_finite a = false → MathVerifier._numbers_match self a a = false)
  ∧ ((0 <? MathVerifier.tolerance self)%float = false →
     ∀ a b, MathVerifier._numbers_match self a b = false).
Proof.
  split; [|split].
  - intros Htol a Ha. by apply numbers_match_refl.
  - apply numbers_match_infinite.
  - intros Htol a b. destruct (MathVerifier._numbers_match self a b) eqn:Hm; [|done].
    apply numbers_match_tolerance in Hm. congruence.
Qed.

(** X7. A lookup answer that quotes its numbers from the table evidence is
    verified: when the tolerance is positive, the query is a lookup, the
    answer has a number, and every number of the answer is finite and among
    the numbers of the table-typed pieces, the verdict is [verified]. *)
Theorem verify_lookup_quoted_numbers (render : MathVerifier.pyval → string)
  (self : MathVerifier.T) (answer : string) (evidence : list Evidence) (query : string) :
  (0 <? MathVerifier.tolerance self)%float = true →
  MathVerifier._detect_calculation_type query answer = MathVerifier.lookup →
  MathVerifier.extract_text answer ≠ [] →
  (∀ a, a ∈ MathVerifier.extract_text answer →
        is_finite a = true ∧ a ∈ Spec.table_numbers evidence) →
  MathVerifier.status (MathVerifier.verify render self answer evidence query)
  = MathVerifier.verified.
Proof.
  intros Htol Hlookup Hnums Hquoted.
  apply (verify_lookup_spec render self answer evidence query Hlookup); [done|].
  intros a Ha. destruct (Hquoted a Ha) as [Hfinite Hin]. exists a. split; [done|].
  by apply numbers_match_spec, numbers_match_refl.
Qed.

Lemma verify_lookup_quoted_numbers_witness :
  MathVerifier.status
    (MathVerifier.verify (fun _ => EmptyString)
       (MathVerifier.__init__ MathVerifier.default_tolerance)
       "Revenue was 100.5" [text_piece "7"; table_piece "Revenue 100.5 Cost 40"]
       "What was revenue?")
  = MathVerifier.verified.
Proof.
  apply verify_lookup_quoted_numbers.
  - reflexivity.
  - reflexivity.
  - by vm_compute.
  - assert (Ha : MathVerifier.extract_text "Revenue was 100.5" = [100.5%float])
      by float_decide.
    assert (He : Spec.table_numbers [text_piece "7"; table_piece "Revenue 100.5 Cost 40"]
                 = [100.5%float; 40%float]) by float_decide.
    rewrite Ha, He. intros a ->%list_elem_of_singleton. split; [reflexivity | by left].
Defined.

(** X8. Without enough table numbers nothing is verified: a lookup needs at
    least one number from table-typed evidence, the three calculations need
    two. *)
Theorem verify_needs_table_numbers (render : MathVerifier.pyval → string)
  (self : MathVerifier.T) (answer : string) (evidence : list Evidence) (query : string) :
  (length (Spec.table_numbers evidence)
   < match MathVerifier._detect_calculation_type query answer with
     | MathVerifier.lookup => 1
     | _ => 2
     end)%nat →
  MathVerifier.status (MathVerifier.verify render self answer evidence query)
  ≠ MathVerifier.verified.
Proof.
  unfold MathVerifier.verify.
  rewrite extract_numbers_str, evidence_numbers_spec, app_nil_l.
  destruct (MathVerifier.extract_text answer) as [|a0 rest]; [done|]. cbv zeta.
  unfold MathVerifier._verify_difference, MathVerifier._verify_ratio,
    MathVerifier._verify_percentage.
  destruct (MathVerifier._detect_calculation_type query answer); intros Hlen.
  1-3: by rewrite (proj2 (Nat.ltb_lt (length (Spec.table_numbers evidence)) 2) Hlen),
         orb_true_r.
  destruct (Spec.table_numbers evidence); [done | simpl in Hlen; lia].
Qed.

Lemma verify_needs_table_numbers_witness :
  MathVerifier.status
    (MathVerifier.verify (fun _ => EmptyString)
       (MathVerifier.__init__ MathVerifier.default_tolerance)
       "It rose by 10" [text_piece "50 and 40"; table_piece "Revenue 10"]
       "What was the change in revenue?")
  ≠ MathVerifier.verified.
Proof.
  apply verify_needs_table_numbers.
  assert (He : Spec.table_numbers [text_piece "50 and 40"; table_piece "Revenue 10"]
               = [10%float]) by float_decide.
  assert (Hc : MathVerifier._detect_calculation_type
                 "What was the change in revenue?" "It rose by 10"
               = MathVerifier.difference) by reflexivity.
  rewrite He, Hc. cbn [length]. lia.
Defined.

Lemma item_lookup (xs : list Py.float64) (i : nat) (x : Py.float64) :
  xs !! i = Some x → MathVerifier.item xs i = x.
Proof. unfold MathVerifier.item, Py.float64. by intros ->. Qed.

(** The difference check looks at every pair of evidence numbers, in either
    order, and at the first number of the answer only. *)
Lemma verify_difference_iff (self : MathVerifier.T)
  (answer_nums evidence_nums : list Py.float64) :
  MathVerifier._verify_difference self answer_nums evidence_nums = true
  ↔ ∃ a i j ei ej,
      head answer_nums = Some a ∧ i ≠ j
      ∧ evidence_nums !! i = Some ei ∧ evidence_nums !! j = Some ej
      ∧ Spec.within_tolerance a (abs (ei - ej)) (MathVerifier.tolerance self).
Proof.
  unfold MathVerifier._verify_difference, Py.float64 in *. split.
  - destruct answer_nums as [|a rest]; [done|].
    destruct (_ || _); [done|].
    intros (i & [_ Hi]%in_seq & (j & [Hij Hj]%in_seq & Hm)%existsb_exists)%existsb_exists.
    unfold Py.range in *.
    destruct (lookup_lt_is_Some_2 evidence_nums i) as [ei Hei]; [lia|].
    destruct (lookup_lt_is_Some_2 evidence_nums j) as [ej Hej]; [lia|].
    exists a, i, j, ei, ej. repeat split; [lia | done | done |].
    rewrite (item_lookup _ _ _ Hei), (item_lookup _ _ _ Hej) in Hm.
    by apply numbers_match_spec.
  - intros (a & i & j & ei & ej & Ha & Hij & Hei & Hej & Hm).
    destruct answer_nums as [|a' rest]; [done|]. injection Ha as ->.
    pose proof (lookup_lt_Some _ _ _ Hei) as Hi.
    pose proof (lookup_lt_Some _ _ _ Hej) as Hj.
    unfold Py.float64 in *.
    replace (length evidence_nums <? 2)%nat with false
      by (symmetry; apply Nat.ltb_ge; lia).
    cbn [length Nat.ltb Nat.leb orb].
    assert (Hpair : ∀ i j ei ej, (i < j)%nat →
      evidence_nums !! i = Some ei → evidence_nums !! j = Some ej →
      Spec.within_tolerance a (abs (ei - ej)) (MathVerifier.tolerance self) →
      existsb (fun i =>
        existsb (fun j =>
          MathVerifier._numbers_match self (MathVerifier.item (a :: rest) 0)
            (abs (MathVerifier.item evidence_nums i - MathVerifier.item evidence_nums j)))
          (Py.range (i + 1) (length evidence_nums)))
        (Py.range 0 (length evidence_nums)) = true).
    { clear. intros i j ei ej Hij Hei Hej Hm.
      pose proof (lookup_lt_Some _ _ _ Hei) as Hi.
      pose proof (lookup_lt_Some _ _ _ Hej) as Hj.
      apply existsb_exists. exists i. split; [apply in_seq; lia|].
      apply existsb_exists. exists j. split; [apply in_seq; lia|].
      rewrite (item_lookup _ _ _ Hei), (item_lookup _ _ _ Hej).
      by apply numbers_match_spec. }
    destruct (decide (i < j)%nat) as [Hlt|Hge].
    + by apply (Hpair i j ei ej).
    + apply (Hpair j i ej ei); [lia | done | done |]. by rewrite abs_sub_comm.
Qed.

(** X9. For a query that is not a lookup, only the first number of the answer
    counts: two answers whose first extracted numbers agree get the same
    verdict on the same evidence. *)
Theorem verify_first_number_only (render : MathVerifier.pyval → string)
  (self : MathVerifier.T) (answer answer' : string) (evidence : list Evidence)
  (query : string) :
  MathVerifier._detect_calculation_type query answer ≠ MathVerifier.lookup →
  head (MathVerifier.extract_text answer) = head (MathVerifier.extract_text answer') →
  MathVerifier.verify render self answer evidence query
  = MathVerifier.verify render self answer' evidence query.
Proof.
  unfold MathVerifier.verify. rewrite !extract_numbers_str.
  change (MathVerifier._detect_calculation_type query answer')
    with (MathVerifier._detect_calculation_type query answer).
  destruct (MathVerifier.extract_text answer) as [|a rest],
    (MathVerifier.extract_text answer') as [|a' rest']; try done.
  intros Hcalc [= <-]. cbv zeta.
  by destruct (MathVerifier._detect_calculation_type query answer).
Qed.

Lemma verify_first_number_only_witness :
  MathVerifier.verify (fun _ => EmptyString)
    (MathVerifier.__init__ MathVerifier.default_tolerance)
    "It rose by 10 to 50" [table_piece "50 and 40"] "What was the change in revenue?"
  = MathVerifier.verify (fun _ => EmptyString)
      (MathVerifier.__init__ MathVerifier.default_tolerance)
      "10" [table_piece "50 and 40"] "What was the change in revenue?".
Proof.
  apply verify_first_number_only.
  - by vm_compute.
  - float_decide.
Defined.

(** The two loops over ordered pairs of evidence positions. *)
Lemma ordered_pairs_spec (evidence_nums : list Py.float64)
  (test : Py.float64 → Py.float64 → bool) :
  existsb (fun i =>
    existsb (fun j =>
      negb (i =? j)%nat && negb (MathVerifier.item evidence_nums j =? 0)%float
      && test (MathVerifier.item evidence_nums i) (MathVerifier.item evidence_nums j))
      (Py.range 0 (length evidence_nums)))
    (Py.range 0 (length evidence_nums)) = true
  ↔ ∃ i j ei ej,
      i ≠ j ∧ evidence_nums !! i = Some ei ∧ evidence_nums !! j = Some ej
      ∧ (ej =? 0)%float = false ∧ test ei ej = true.
Proof.
  unfold Py.range, Py.float64 in *. split.
  - intros (i & [_ Hi]%in_seq & (j & [_ Hj]%in_seq & Hm)%existsb_exists)%existsb_exists.
    destruct (lookup_lt_is_Some_2 evidence_nums i) as [ei Hei]; [lia|].
    destruct (lookup_lt_is_Some_2 evidence_nums j) as [ej Hej]; [lia|].
    rewrite (item_lookup _ _ _ Hei), (item_lookup _ _ _ Hej) in Hm.
    apply andb_true_iff in Hm as [[Hij Hz]%andb_true_iff Hm].
    exists i, j, ei, ej. repeat split; try done.
    + intros ->. by rewrite Nat.eqb_refl in Hij.
    + by apply negb_true_iff.
  - intros (i & j & ei & ej & Hij & Hei & Hej & Hz & Hm).
    pose proof (lookup_lt_Some _ _ _ Hei) as Hi.
    pose proof (lookup_lt_Some _ _ _ Hej) as Hj.
    apply existsb_exists. exists i. split; [apply in_seq; lia|].
    apply existsb_exists. exists j. split; [apply in_seq; lia|].
    rewrite (item_lookup _ _ _ Hei), (item_lookup _ _ _ Hej), Hm, Hz.
    by rewrite (proj2 (Nat.eqb_neq i j) Hij).
Qed.

Lemma verify_ratio_iff (self : MathVerifier.T)
  (answer_nums evidence_nums : list Py.float64) :
  MathVerifier._verify_ratio self answer_nums evidence_nums = true
  ↔ ∃ a i j ei ej,
      head answer_nums = Some a ∧ i ≠ j
      ∧ evidence_nums !! i = Some ei ∧ evidence_nums !! j = Some ej
      ∧ (ej =? 0)%float = false
      ∧ Spec.within_tolerance a (ei / ej)%float (MathVerifier.tolerance self).
Proof.
  unfold MathVerifier._verify_ratio, Py.float64 in *. cbv zeta.
  destruct answer_nums as [|a rest].
  { split; [done | by intros (? & ? & ? & ? & ? & [=] & _)]. }
  change (MathVerifier.item (a :: rest) 0) with a. cbn [length Nat.ltb Nat.leb orb].
  destruct (Nat.leb_spec (length evidence_nums) 1) as [Hshort|Hlong].
  - split; [done|]. intros (a' & i & j & ei & ej & _ & Hij & Hei%lookup_lt_Some
                            & Hej%lookup_lt_Some & _). lia.
  - etrans; [apply (ordered_pairs_spec evidence_nums
                      (fun ei ej => MathVerifier._numbers_match self a (ei / ej)%float))|].
    split.
    + intros (i & j & ei & ej & Hij & Hei & Hej & Hz & Hm%numbers_match_spec).
      by exists a, i, j, ei, ej.
    + intros (a' & i & j & ei & ej & [= <-] & Hij & Hei & Hej & Hz & Hm%numbers_match_spec).
      by exists i, j, ei, ej.
Qed.

Lemma verify_percentage_iff (self : MathVerifier.T)
  (answer_nums evidence_nums : list Py.float64) :
  MathVerifier._verify_percentage self answer_nums evidence_nums = true
  ↔ ∃ a i j ei ej,
      head answer_nums = Some a ∧ i ≠ j
      ∧ evidence_nums !! i = Some ei ∧ evidence_nums !! j = Some ej
      ∧ (ej =? 0)%float = false
      ∧ Spec.within_tolerance a ((ei - ej) / ej * 100)%float (MathVerifier.tolerance self).
Proof.
  unfold MathVerifier._verify_percentage, Py.float64 in *. cbv zeta.
  destruct answer_nums as [|a rest].
  { split; [done | by intros (? & ? & ? & ? & ? & [=] & _)]. }
  change (MathVerifier.item (a :: rest) 0) with a. cbn [length Nat.ltb Nat.leb orb].
  destruct (Nat.leb_spec (length evidence_nums) 1) as [Hshort|Hlong].
  - split; [done|]. intros (a' & i & j & ei & ej & _ & Hij & Hei%lookup_lt_Some
                            & Hej%lookup_lt_Some & _). lia.
  - etrans; [apply (ordered_pairs_spec evidence_nums
                      (fun ei ej => MathVerifier._numbers_match self a
                                      ((ei - ej) / ej * 100)%float))|].
    split.
    + intros (i & j & ei & ej & Hij & Hei & Hej & Hz & Hm%numbers_match_spec).
      by exists a, i, j, ei, ej.
    + intros (a' & i & j & ei & ej & [= <-] & Hij & Hei & Hej & Hz & Hm%numbers_match_spec).
      by exists i, j, ei, ej.
Qed.

(** X10. Each of the three calculation checks succeeds exactly when the first
    number of the answer matches the calculation on the evidence numbers at
    some two distinct positions, every operation being the binary64 one: the
    distance [abs(e_i - e_j)] (the pair in either order, so the inner loop
    from [i + 1] loses nothing), the ratio [e_i / e_j] or the percentage
    change [(e_i - e_j) / e_j * 100], the last two over pairs with
    [e_j != 0]. The length guards add nothing. At the edge of the tolerance
    the rounding decides: with the default tolerance the answer number 10.1
    matches the distance of the evidence numbers 20 and 10. *)
Theorem verify_calculation_pairs (self : MathVerifier.T)
  (answer_nums evidence_nums : list Py.float64) :
  let matches_at (calc : Py.float64 → Py.float64 → Py.float64)
                 (admits : Py.float64 → Prop) :=
    ∃ a i j ei ej,
      head answer_nums = Some a ∧ i ≠ j
      ∧ evidence_nums !! i = Some ei ∧ evidence_nums !! j = Some ej
      ∧ admits ej
      ∧ Spec.within_tolerance a (calc ei ej) (MathVerifier.tolerance self) in
  (MathVerifier._verify_difference self answer_nums evidence_nums = true
   ↔ matches_at (fun ei ej => abs (ei - ej)) (fun _ => True))
  ∧ (MathVerifier._verify_ratio self answer_nums evidence_nums = true
     ↔ matches_at (fun ei ej => (ei / ej)%float) (fun ej => (ej =? 0)%float = false))
  ∧ (MathVerifier._verify_percentage self answer_nums evidence_nums = true
     ↔ matches_at (fun ei ej => ((ei - ej) / ej * 100)%float)
         (fun ej => (ej =? 0)%float = false))
  ∧ MathVerifier._verify_difference (MathVerifier.__init__ MathVerifier.default_tolerance)
      (MathVerifier.extract_text "10.1") (MathVerifier.extract_text "20 and 10")
    = true.
Proof.
  intros matches_at. subst matches_at. cbv beta.
  split; [|split; [apply verify_ratio_iff |
                   split; [apply verify_percentage_iff | by vm_compute]]].
  rewrite verify_difference_iff. split.
  - intros (a & i & j & ei & ej & Ha & Hij & Hei & Hej & Hm). by exists a, i, j, ei, ej.
  - intros (a & i & j & ei & ej & Ha & Hij & Hei & Hej & _ & Hm). by exists a, i, j, ei, ej.
Qed.

(** ** Math verifier: the order of the evidence *)

Lemma pairs_Permutation {A : Type} (P : A → A → Prop) (l l' : list A) :
  l ≡ₚ l' →
  (∃ i j a b, i ≠ j ∧ l !! i = Some a ∧ l !! j = Some b ∧ P a b) →
  ∃ i j a b, i ≠ j ∧ l' !! i = Some a ∧ l' !! j = Some b ∧ P a b.
Proof.
  intros [_ (f & Hinj & Hf)]%Permutation_inj (i & j & a & b & Hij & Ha & Hb & HP).
  exists (f i), (f j), a, b. rewrite <- !Hf. split; [|done].
  intros Heq. by apply Hij, Hinj.
Qed.

Lemma bool_eq_iff (b1 b2 : bool) : (b1 = true ↔ b2 = true) → b1 = b2.
Proof. destruct b1, b2; intros [H1 H2]; auto; symmetry; auto. Qed.

(** None of the four checks depends on the order of the evidence numbers. *)
Lemma checks_Permutation (self : MathVerifier.T)
  (answer_nums ev ev' : list Py.float64) :
  ev ≡ₚ ev' →
  MathVerifier._verify_difference self answer_nums ev
  = MathVerifier._verify_difference self answer_nums ev'
  ∧ MathVerifier._verify_ratio self answer_nums ev
    = MathVerifier._verify_ratio self answer_nums ev'
  ∧ MathVerifier._verify_percentage self answer_nums ev
    = MathVerifier._verify_percentage self answer_nums ev'
  ∧ MathVerifier._verify_presence self answer_nums ev
    = MathVerifier._verify_presence self answer_nums ev'.
Proof.
  intros Hperm.
  assert (Hpairs : ∀ (P : Py.float64 → Py.float64 → Py.float64 → Prop) l l', l ≡ₚ l' →
    (∃ a i j ei ej, head answer_nums = Some a ∧ i ≠ j
                    ∧ l !! i = Some ei ∧ l !! j = Some ej ∧ P a ei ej) →
    ∃ a i j ei ej, head answer_nums = Some a ∧ i ≠ j
                   ∧ l' !! i = Some ei ∧ l' !! j = Some ej ∧ P a ei ej).
  { intros P l l' Hl (a & i & j & ei & ej & Ha & Hrest).
    destruct (pairs_Permutation (P a) l l' Hl) as (i' & j' & ei' & ej' & Hrest').
    { by exists i, j, ei, ej. }
    by exists a, i', j', ei', ej'. }
  repeat split; apply bool_eq_iff.
  - rewrite !verify_difference_iff.
    split; apply (Hpairs (fun a ei ej => Spec.within_tolerance a (abs (ei - ej)) _));
      done.
  - rewrite !verify_ratio_iff.
    split; apply (Hpairs (fun a ei ej =>
                            (ej =? 0)%float = false
                            ∧ Spec.within_tolerance a (ei / ej)%float _));
      done.
  - rewrite !verify_percentage_iff.
    split; apply (Hpairs (fun a ei ej =>
                            (ej =? 0)%float = false
                            ∧ Spec.within_tolerance a ((ei - ej) / ej * 100)%float _));
      done.
  - rewrite !verify_presence_spec.
    split; intros Hall a Ha; destruct (Hall a Ha) as (e & He & Hm); exists e;
      (split; [|done]); [by rewrite <- Hperm | by rewrite Hperm].
Qed.

Lemma table_numbers_Permutation (evidence evidence' : list Evidence) :
  evidence ≡ₚ evidence' → Spec.table_numbers evidence ≡ₚ Spec.table_numbers evidence'.
Proof.
  unfold Spec.table_numbers.
  induction 1 as [|ev l l' _ IH|ev ev' l|l l' l'' _ IH _ IH']; simpl.
  - done.
  - destruct (String.eqb _ _); simpl; [by apply Permutation_app_head | done].
  - destruct (String.eqb (content_type (metadata ev)) _),
      (String.eqb (content_type (metadata ev')) _); simpl; try done.
    rewrite !app_assoc. apply Permutation_app_tail, Permutation_app_comm.
  - by etrans.
Qed.

(** X11. The verdict does not depend on the order in which the evidence pieces
    are given. *)
Theorem verify_evidence_order (render : MathVerifier.pyval → string)
  (self : MathVerifier.T) (answer : string) (evidence evidence' : list Evidence)
  (query : string) :
  evidence ≡ₚ evidence' →
  MathVerifier.verify render self answer evidence query
  = MathVerifier.verify render self answer evidence' query.
Proof.
  intros Hperm%table_numbers_Permutation. unfold MathVerifier.verify.
  rewrite !evidence_numbers_spec, !app_nil_l.
  destruct (MathVerifier.extract_numbers render (MathVerifier.PStr answer)) as [|a rest];
    [done|]. cbv zeta.
  destruct (checks_Permutation self (a :: rest) _ _ Hperm) as (Hd & Hr & Hp & Hl).
  by destruct (MathVerifier._detect_calculation_type query answer);
    rewrite ?Hd, ?Hr, ?Hp, ?Hl.
Qed.

Lemma verify_evidence_order_witness :
  MathVerifier.verify (fun _ => EmptyString)
    (MathVerifier.__init__ MathVerifier.default_tolerance)
    "It rose by 10" [table_piece "Revenue 50"; text_piece "7"; table_piece "Revenue 40"]
    "What was the change in revenue?"
  = MathVerifier.verify (fun _ => EmptyString)
      (MathVerifier.__init__ MathVerifier.default_tolerance)
      "It rose by 10" [table_piece "Revenue 40"; table_piece "Revenue 50"; text_piece "7"]
      "What was the change in revenue?".
Proof.
  apply verify_evidence_order.
  etrans; [apply perm_skip, perm_swap | apply perm_swap].
Defined.

(** ** Truncation *)

Lemma slice_to_take {A : Type} (xs : list A) (k : Z) :
  ∃ n, Py.slice_to xs k = take n xs ∧ ((0 ≤ k)%Z → n = Z.to_nat k).
Proof.
  unfold Py.slice_to. destruct (Z.leb_spec 0 k); eexists; (split; [done|lia]).
Qed.

Lemma slice_to_sublist {A : Type} (xs : list A) (k : Z) : Py.slice_to xs k `sublist_of` xs.
Proof. destruct (slice_to_take xs k) as (n & -> & _). apply sublist_take. Qed.

Lemma slice_to_length {A : Type} (xs : list A) (k : Z) :
  length (Py.slice_to xs k) ≤ length xs
  ∧ ((0 ≤ k)%Z → (Z.of_nat (length (Py.slice_to xs k)) ≤ k)%Z).
Proof.
  destruct (slice_to_take xs k) as (n & -> & Hn). rewrite length_take. split; [lia|].
  intros Hk. rewrite (Hn Hk). lia.
Qed.

Lemma slice_to_descending {A : Type} (key : A → Qc) (xs : list A) (k : Z) :
  Spec.descending key xs → Spec.descending key (Py.slice_to xs k).
Proof.
  destruct (slice_to_take xs k) as (n & -> & _). unfold Spec.descending.
  rewrite <- (take_drop n xs) at 1. apply StronglySorted_app_1_l.
Qed.

(** ** Hybrid searcher *)

(** X12. The constructor divides both weights by their sum: it raises
    [ZeroDivisionError] exactly when the sum is zero; otherwise the stored
    weights add up to 1, keep the proportion of the given ones, and are left
    as they are when given to the constructor again. *)
Theorem init_normalises_weights (dense_weight bm25_weight : Qc) :
  match HybridSearcher.__init__ dense_weight bm25_weight with
  | Py.Ok self =>
      (dense_weight + bm25_weight)%Qc ≠ 0%Qc
      ∧ (HybridSearcher.dense_weight self + HybridSearcher.bm25_weight self = 1)%Qc
      ∧ (HybridSearcher.dense_weight self * bm25_weight
         = HybridSearcher.bm25_weight self * dense_weight)%Qc
      ∧ HybridSearcher.__init__ (HybridSearcher.dense_weight self)
          (HybridSearcher.bm25_weight self) = Py.Ok self
  | Py.Raise e => e = Py.ZeroDivisionError ∧ (dense_weight + bm25_weight = 0)%Qc
  end.
Proof.
  unfold HybridSearcher.__init__, Py.eqb. case_bool_decide as Hsum; [done|].
  cbn [HybridSearcher.dense_weight HybridSearcher.bm25_weight].
  assert (Hone : (dense_weight / (dense_weight + bm25_weight)
                  + bm25_weight / (dense_weight + bm25_weight) = 1)%Qc).
  { field. exact Hsum. }
  split; [done|]. split; [done|]. split; [field; exact Hsum|].
  rewrite Hone. rewrite bool_decide_eq_false_2 by done.
  f_equal. f_equal; field; (split; [exact Hsum | discriminate]).
Qed.

Lemma enumerate_from_elem_of_inv {A : Type} (xs : list A) (start rank : nat) (x : A) :
  (rank, x) ∈ Py.enumerate_from start xs → x ∈ xs.
Proof.
  revert start. induction xs as [|y xs IH]; intros start; simpl.
  - by intros ?%elem_of_nil.
  - intros [[= _ ->]|Hin]%elem_of_cons; [by left | right; by eapply IH].
Qed.

Lemma ranked_elem_of (k : string) (rs : list HybridSearcher.Doc) :
  Spec.ranked k rs ≠ [] → ∃ r, r ∈ rs ∧ HybridSearcher.doc_id r = k.
Proof.
  destruct (Spec.ranked k rs) as [|[rank r] rest] eqn:Hranked; [done|]. intros _.
  assert (Hin : In (rank, r) (Spec.ranked k rs)) by (rewrite Hranked; by left).
  apply filter_In in Hin as [Hin Hk]. apply String.eqb_eq in Hk. simpl in Hk.
  exists r. split; [|done]. apply list_elem_of_In in Hin.
  by eapply enumerate_from_elem_of_inv.
Qed.

(** X13. What [fuse_results] returns is a ranking: in descending order of score,
    one entry per identity, every identity taken from one of the two inputs,
    no longer than the inputs together and, for a [top_k] that is not
    negative, no longer than [top_k]. *)
Theorem fuse_results_ranking (self : HybridSearcher.T)
  (dense_results bm25_results : list HybridSearcher.Doc) (top_k : Z) :
  let fused := HybridSearcher.fuse_results self dense_results bm25_results top_k in
  Spec.descending snd fused
  ∧ NoDup fused.*1
  ∧ (∀ k s, (k, s) ∈ fused →
            ∃ r, r ∈ dense_results ++ bm25_results ∧ HybridSearcher.doc_id r = k)
  ∧ length fused ≤ length dense_results + length bm25_results
  ∧ ((0 ≤ top_k)%Z → (Z.of_nat (length fused) ≤ top_k)%Z).
Proof.
  intros fused. subst fused. unfold HybridSearcher.fuse_results.
  set (scores := HybridSearcher.fuse_bm25 self bm25_results
                   (HybridSearcher.fuse_dense self dense_results)).
  split; [apply slice_to_descending, sorted_desc_descending|].
  split.
  { eapply sublist_NoDup; [|apply fmap_sublist, slice_to_sublist].
    rewrite sorted_desc_Permutation. apply fuse_scores_NoDup. }
  split.
  { intros k s Hin%elem_of_slice_to%sorted_desc_elem_of.
    apply dict_get_elem_of in Hin; [|apply fuse_scores_NoDup].
    unfold scores in Hin. rewrite fuse_scores_get in Hin.
    destruct (last (Spec.ranked k dense_results)) as [x|] eqn:Hlast.
    - destruct (ranked_elem_of k dense_results) as (r & Hr & Hk).
      { intros Hnil. by rewrite Hnil in Hlast. }
      exists r. split; [|done]. apply elem_of_app. by left.
    - destruct (ranked_elem_of k bm25_results) as (r & Hr & Hk).
      { intros Hnil. by rewrite Hnil in Hin. }
      exists r. split; [|done]. apply elem_of_app. by right. }
  pose proof (slice_to_length (Py.sorted_desc snd scores) top_k) as [Hlen Htop].
  split; [|done].
  etrans; [exact Hlen|]. rewrite sorted_desc_Permutation. apply fuse_scores_length.
Qed.

(** ** Fractions *)

Lemma Qcinv_le_contravar (a b : Qc) : (0 < a)%Qc → (a ≤ b)%Qc → (/ b ≤ / a)%Qc.
Proof.
  intros Ha Hab.
  assert (Hb : (0 < b)%Qc) by by eapply Qclt_le_trans.
  assert (Ha0 : a ≠ 0%Qc) by (intros ->; by apply Qclt_not_eq in Ha).
  assert (Hb0 : b ≠ 0%Qc) by (intros ->; by apply Qclt_not_eq in Hb).
  apply (Qcmult_le_mono_pos_r _ _ (a * b)); [by apply Qcmult_pos_pos|].
  replace (/ b * (a * b))%Qc with a by by field.
  by replace (/ a * (a * b))%Qc with b by by field.
Qed.

Lemma Qc_pos_ne (x : Qc) : (0 < x)%Qc → x ≠ 0%Qc.
Proof. intros Hx ->. by apply Qclt_not_eq in Hx. Qed.

Lemma Qc_of_nat_pos (n : nat) : n ≠ 0 → (0 < Qc_of_Z (Z.of_nat n))%Qc.
Proof. intros Hn. rewrite <- Z2Qc_inj_0. apply (proj1 (Z2Qc_inj_lt 0 _)). lia. Qed.

(** A count divided by a count it does not exceed lies between 0 and 1. *)
Lemma fraction_bounds (n m : nat) :
  n ≤ m → m ≠ 0 →
  (0 ≤ Qc_of_Z (Z.of_nat n) / Qc_of_Z (Z.of_nat m))%Qc
  ∧ (Qc_of_Z (Z.of_nat n) / Qc_of_Z (Z.of_nat m) ≤ 1)%Qc.
Proof.
  intros Hnm Hm. pose proof (Qc_of_nat_pos m Hm) as Hpos.
  assert (Hm0 : Qc_of_Z (Z.of_nat m) ≠ 0%Qc) by by apply Qc_pos_ne.
  unfold Qcdiv. split.
  - apply Qcmult_nonneg_nonneg; [|by apply Qclt_le_weak, Qcinv_pos].
    rewrite <- Z2Qc_inj_0. apply (proj1 (Z2Qc_inj_le 0 _)). lia.
  - rewrite <- (Qcmult_inv_r (Qc_of_Z (Z.of_nat m))) by done.
    apply Qcmult_le_mono_nonneg_r; [by apply Qclt_le_weak, Qcinv_pos|].
    apply (proj1 (Z2Qc_inj_le _ _)). lia.
Qed.

Lemma fraction_one_iff (n m : nat) :
  m ≠ 0 → (Qc_of_Z (Z.of_nat n) / Qc_of_Z (Z.of_nat m) = 1)%Qc ↔ n = m.
Proof.
  intros Hm. pose proof (Qc_of_nat_pos m Hm) as Hpos.
  assert (Hm0 : Qc_of_Z (Z.of_nat m) ≠ 0%Qc) by by apply Qc_pos_ne.
  split.
  - intros Hone. apply Nat2Z.inj, Z2Qc_inj.
    rewrite <- (Qcmult_1_l (Qc_of_Z (Z.of_nat m))), <- Hone. by field.
  - intros ->. by field.
Qed.

Lemma fraction_zero_iff (n m : nat) :
  m ≠ 0 → (Qc_of_Z (Z.of_nat n) / Qc_of_Z (Z.of_nat m) = 0)%Qc ↔ n = 0.
Proof.
  intros Hm. pose proof (Qc_of_nat_pos m Hm) as Hpos.
  assert (Hm0 : Qc_of_Z (Z.of_nat m) ≠ 0%Qc) by by apply Qc_pos_ne.
  split.
  - intros Hzero. apply Nat2Z.inj, Z2Qc_inj.
    change (Qc_of_Z (Z.of_nat n) = Qc_of_Z 0). rewrite Z2Qc_inj_0.
    replace (Qc_of_Z (Z.of_nat n))
      with (Qc_of_Z (Z.of_nat n) / Qc_of_Z (Z.of_nat m) * Qc_of_Z (Z.of_nat m))%Qc
      by by field.
    rewrite Hzero. ring.
  - intros ->. unfold Qcdiv. change (Z.of_nat 0) with 0%Z. rewrite Z2Qc_inj_0. ring.
Qed.

(** ** Stage A and the dense scores *)

Lemma similarity_bounds (d : Qc) :
  (0 ≤ d)%Qc →
  (0 < HierarchicalRetriever.similarity d)%Qc ∧ (HierarchicalRetriever.similarity d ≤ 1)%Qc.
Proof.
  intros Hd. unfold HierarchicalRetriever.similarity, Qcdiv. rewrite Qcmult_1_l.
  assert (Hpos : (0 < 1 + d)%Qc) by by apply Qcplus_pos_nonneg.
  split; [by apply Qcinv_pos|].
  replace 1%Qc with (/ 1)%Qc at 2 by by apply Qc_is_canon.
  apply Qcinv_le_contravar; [done|].
  rewrite <- (Qcplus_0_r 1) at 1. by apply Qcplus_le_mono_l.
Qed.

Lemma similarity_antitone (d1 d2 : Qc) :
  (0 ≤ d1)%Qc → (d1 ≤ d2)%Qc →
  (HierarchicalRetriever.similarity d2 ≤ HierarchicalRetriever.similarity d1)%Qc.
Proof.
  intros Hd Hle. unfold HierarchicalRetriever.similarity, Qcdiv. rewrite !Qcmult_1_l.
  apply Qcinv_le_contravar; [by apply Qcplus_pos_nonneg|].
  by apply Qcplus_le_mono_l.
Qed.

(** [xs[i]] succeeds exactly at the positions [-len(xs) .. len(xs)-1], and
    then reads the element at [i] modulo the length. *)
Lemma index_spec {A : Type} (xs : list A) (i : Z) (x : A) :
  Py.index xs i = Py.Ok x
  ↔ Spec.valid_position xs i
    ∧ xs !! Z.to_nat (i `mod` Z.of_nat (length xs)) = Some x.
Proof.
  unfold Spec.valid_position, Py.index.
  set (j := if (0 <=? i)%Z then i else (Z.of_nat (length xs) + i)%Z).
  destruct (Z.ltb_spec j 0) as [Hneg|Hpos].
  { split; [done|]. intros [Hi _]. subst j. destruct (Z.leb_spec 0 i); lia. }
  destruct (xs !! Z.to_nat j) as [y|] eqn:Hy.
  - pose proof (lookup_lt_Some _ _ _ Hy) as Hlt.
    assert (Hi : (- Z.of_nat (length xs) ≤ i < Z.of_nat (length xs))%Z).
    { subst j. destruct (Z.leb_spec 0 i); lia. }
    assert (Hmod : (i `mod` Z.of_nat (length xs) = j)%Z).
    { subst j. destruct (Z.leb_spec 0 i).
      - apply Z.mod_small. lia.
      - rewrite <- (Z.mod_add i 1) by lia. rewrite Z.mod_small by lia. lia. }
    rewrite Hmod, Hy. split; [by intros [= ->] | by intros [_ [= ->]]].
  - split; [done|]. intros [Hi _]. apply lookup_ge_None in Hy.
    subst j. destruct (Z.leb_spec 0 i); lia.
Qed.

Lemma index_raises {A : Type} (xs : list A) (i : Z) :
  ¬ Spec.valid_position xs i → Py.index xs i = Py.Raise Py.IndexError.
Proof.
  intros Hi. destruct (Py.index xs i) as [x|e] eqn:Hx.
  - by apply index_spec in Hx as [? _].
  - unfold Py.index in Hx. destruct (_ <? 0)%Z; [congruence|].
    destruct (xs !! _); congruence.
Qed.

(** A loop that appends one item per element: how the items of a successful
    run relate to the elements. *)
Lemma for_each_append_Forall2 {A B : Type} (body : list B → A → Py.result (list B))
  (R : A → B → Prop) (xs : list A) (acc rs : list B) :
  (∀ acc x r, body acc x = Py.Ok r → ∃ y, r = acc ++ [y] ∧ R x y) →
  Py.for_each body xs acc = Py.Ok rs →
  ∃ ys, rs = acc ++ ys ∧ Forall2 R xs ys.
Proof.
  intros Hbody. revert acc. induction xs as [|x xs IH]; intros acc; simpl.
  - intros [= <-]. exists []. by rewrite app_nil_r.
  - destruct (body acc x) as [r|err] eqn:Hr; simpl; [|done].
    destruct (Hbody acc x r Hr) as (y & -> & Hy).
    intros (ys & -> & Hys)%IH. exists (y :: ys).
    rewrite <- app_assoc. split; [done | by constructor].
Qed.

(** A loop stops at the first element whose step raises. *)
Lemma for_each_raises {A S : Type} (body : S → A → Py.result S) (e : Py.exn)
  (xs : list A) (acc : S) :
  (∀ acc x, body acc x = Py.Raise e ∨ ∃ r, body acc x = Py.Ok r) →
  Exists (fun x => ∀ acc, body acc x = Py.Raise e) xs →
  Py.for_each body xs acc = Py.Raise e.
Proof.
  intros Hbody Hex. revert acc. induction Hex as [x xs Hx|x xs Hex IH]; intros acc; simpl.
  - by rewrite Hx.
  - destruct (Hbody acc x) as [->|[r ->]]; simpl; [done | apply IH].
Qed.

(** X14. Stage A raises [AssertionError] when it is asked for no section (a
    count that is not positive). Asked for [k > 0] sections it reads the [k]
    rows of the search, and answers exactly when every position in them
    addresses both section arrays, counting from the end when negative (the
    padding position -1 addresses the last section); it raises [IndexError]
    otherwise. Its results follow the rows one to one: the abstract and the
    metadata at the row's position, and its distance turned into a score. *)
Theorem retrieve_sections_spec (self : HierarchicalRetriever.T) (query : string) (k : Z) :
  let hits := HierarchicalRetriever.rows (HierarchicalRetriever.section_index self) query k in
  let abstracts := HierarchicalRetriever.abstracts (HierarchicalRetriever.section_data self) in
  let metas :=
    HierarchicalRetriever.section_metadata (HierarchicalRetriever.section_data self) in
  ((k ≤ 0)%Z →
   HierarchicalRetriever.retrieve_sections self query k = Py.Raise Py.AssertionError)
  ∧ ((0 < k)%Z →
     Forall (fun hit => Spec.valid_position abstracts hit.2 ∧ Spec.valid_position metas hit.2)
            hits
     → ∃ results, HierarchicalRetriever.retrieve_sections self query k = Py.Ok results)
  ∧ ((0 < k)%Z →
     ¬ Forall (fun hit => Spec.valid_position abstracts hit.2
                          ∧ Spec.valid_position metas hit.2) hits
     → HierarchicalRetriever.retrieve_sections self query k = Py.Raise Py.IndexError)
  ∧ ∀ results,
      HierarchicalRetriever.retrieve_sections self query k = Py.Ok results →
      (0 < k)%Z
      ∧ Forall2
          (fun hit r =>
             abstracts !! Z.to_nat (hit.2 `mod` Z.of_nat (length abstracts))
             = Some (HierarchicalRetriever.section_abstract r)
             ∧ metas !! Z.to_nat (hit.2 `mod` Z.of_nat (length metas))
               = Some (HierarchicalRetriever.section_meta r)
             ∧ HierarchicalRetriever.section_score r
               = HierarchicalRetriever.similarity hit.1)
          hits results.
Proof.
  intros hits abstracts metas. unfold HierarchicalRetriever.retrieve_sections.
  fold abstracts metas. split; [|split; [|split]].
  - intros Hk. by rewrite search_raises.
  - intros Hk Hvalid. rewrite search_ok by done. cbn [mbind Py.result_bind]. fold hits.
    match goal with
    | |- context [Py.for_each ?body hits []] =>
        destruct (for_each_append_ok body
                    (fun hit => Spec.valid_position abstracts hit.2
                                ∧ Spec.valid_position metas hit.2)
                    (fun _ => True) hits [])
          as (rs & Hrun & _); [|exact Hvalid|by exists rs]
    end.
    intros acc [distance idx] [Ha Hm]. simpl in Ha, Hm.
    destruct (index_ok abstracts idx Ha) as (abstract & -> & _).
    destruct (index_ok metas idx Hm) as (meta & -> & _). by eexists.
  - intros Hk Hinvalid. rewrite search_ok by done. cbn [mbind Py.result_bind]. fold hits.
    apply for_each_raises.
    + intros acc [distance idx].
      destruct (Py.index abstracts idx) as [abstract|e] eqn:Ha; simpl.
      * destruct (Py.index metas idx) as [meta|e] eqn:Hm; simpl; [right; by eexists|].
        left. destruct (decide (Spec.valid_position metas idx)) as [Hv|Hv].
        -- destruct (index_ok metas idx Hv) as (? & ? & _). congruence.
        -- rewrite index_raises in Hm by done. congruence.
      * left. destruct (decide (Spec.valid_position abstracts idx)) as [Hv|Hv].
        -- destruct (index_ok abstracts idx Hv) as (? & ? & _). congruence.
        -- rewrite index_raises in Ha by done. congruence.
    + apply not_Forall_Exists in Hinvalid; [|intros hit; apply _].
      eapply Exists_impl; [exact Hinvalid|]. intros [distance idx] Hnot acc. simpl in *.
      destruct (decide (Spec.valid_position abstracts idx)) as [Ha|Ha].
      * destruct (index_ok abstracts idx Ha) as (abstract & -> & _). simpl.
        assert (Hm : ¬ Spec.valid_position metas idx) by tauto.
        by rewrite (index_raises metas idx Hm).
      * by rewrite (index_raises abstracts idx Ha).
  - intros results (found & [Hk ->]%search_Ok_inv & Hrun)%bind_Ok. split; [done|].
    eapply for_each_append_Forall2 in Hrun as (ys & -> & Hys); [exact Hys|].
    intros acc [distance idx] r. simpl.
    intros (abstract & Ha%index_spec & (meta & Hm%index_spec & [= <-])%bind_Ok)%bind_Ok.
    eexists. split; [done|]. simpl. tauto.
Qed.

Lemma Forall2_StronglySorted {A B : Type} (R : A → B → Prop)
  (P : A → A → Prop) (Q : B → B → Prop) (xs : list A) (ys : list B) :
  (∀ x x' y y', R x y → R x' y' → P x x' → Q y y') →
  Forall2 R xs ys → StronglySorted P xs → StronglySorted Q ys.
Proof.
  intros HPQ Hxy. induction Hxy as [|x y xs ys Hxy Hrest IH]; [constructor|].
  intros [Hsorted Hhead]%StronglySorted_inv. constructor; [by apply IH|].
  clear IH Hsorted. induction Hrest as [|x' y' xs ys Hxy' Hrest IH]; [constructor|].
  apply Forall_cons in Hhead as [Hx' Hhead]. constructor; [by eapply HPQ | by apply IH].
Qed.

(** X15. When the search over the section index answers with distances that
    are not negative and in ascending order, as a nearest-neighbour search
    does, stage A returns its sections best first, every score in (0, 1], and
    as many sections as it was asked for. *)
Theorem retrieve_sections_ranked (self : HierarchicalRetriever.T) (query : string) (k : Z)
  (results : list HierarchicalRetriever.SectionResult) :
  HierarchicalRetriever.retrieve_sections self query k = Py.Ok results →
  Forall (fun hit => (0 ≤ hit.1)%Qc)
    (HierarchicalRetriever.rows (HierarchicalRetriever.section_index self) query k) →
  StronglySorted (fun a b => (a.1 ≤ b.1)%Qc)
    (HierarchicalRetriever.rows (HierarchicalRetriever.section_index self) query k) →
  Spec.descending HierarchicalRetriever.section_score results
  ∧ Forall (fun r => (0 < HierarchicalRetriever.section_score r)%Qc
                     ∧ (HierarchicalRetriever.section_score r ≤ 1)%Qc) results
  ∧ Z.of_nat (length results) = k.
Proof.
  unfold HierarchicalRetriever.retrieve_sections.
  intros (found & [Hk ->]%search_Ok_inv & Hrun)%bind_Ok Hnonneg Hsorted.
  pose proof (rows_length (HierarchicalRetriever.section_index self) query k) as Hrows.
  set (hits := HierarchicalRetriever.rows _ _ _) in *.
  eapply (for_each_append_Forall2 _
            (fun hit r => (0 ≤ hit.1)%Qc → HierarchicalRetriever.section_score r
                          = HierarchicalRetriever.similarity hit.1))
    in Hrun as (ys & -> & Hys).
  2:{ intros acc [distance idx] r. simpl.
      intros (abstract & _ & (meta & _ & [= <-])%bind_Ok)%bind_Ok. by eexists. }
  simpl. split; [|split].
  - assert (Hboth : Forall2 (fun hit r => (0 ≤ hit.1)%Qc
                       ∧ HierarchicalRetriever.section_score r
                         = HierarchicalRetriever.similarity hit.1) hits ys).
    { clear Hsorted Hrows. induction Hys as [|hit r hits' rs Hr Hrest IH]; [constructor|].
      apply Forall_cons in Hnonneg as [Hhit Hnonneg].
      constructor; [by split; auto | by apply IH]. }
    eapply Forall2_StronglySorted; [|exact Hboth|exact Hsorted].
    intros hit hit' r r' [Hhit ->] [_ ->] Hle. by apply similarity_antitone.
  - clear Hsorted Hrows. induction Hys as [|hit r hits' rs Hr Hrest IH]; [constructor|].
    apply Forall_cons in Hnonneg as [Hhit Hnonneg]. constructor; [|by apply IH].
    rewrite Hr by done. by apply similarity_bounds.
  - rewrite <- (Forall2_length _ _ _ Hys), Hrows. lia.
Qed.

(** The theorem at the two sample sections, both asked for. *)
Lemma retrieve_sections_ranked_witness :
  Spec.descending HierarchicalRetriever.section_score
    [ {| HierarchicalRetriever.section_abstract := "Item 7. Management discussion";
         HierarchicalRetriever.section_meta := metadata (text_piece "");
         HierarchicalRetriever.section_score :=
           HierarchicalRetriever.similarity (Py.lit 1 4) |};
      {| HierarchicalRetriever.section_abstract := "Item 8. Financial statements";
         HierarchicalRetriever.section_meta := metadata (text_piece "");
         HierarchicalRetriever.section_score :=
           HierarchicalRetriever.similarity (Py.lit 1 2) |} ]
  ∧ Forall (fun r => (0 < HierarchicalRetriever.section_score r)%Qc
                     ∧ (HierarchicalRetriever.section_score r ≤ 1)%Qc)
      [ {| HierarchicalRetriever.section_abstract := "Item 7. Management discussion";
           HierarchicalRetriever.section_meta := metadata (text_piece "");
           HierarchicalRetriever.section_score :=
             HierarchicalRetriever.similarity (Py.lit 1 4) |};
        {| HierarchicalRetriever.section_abstract := "Item 8. Financial statements";
           HierarchicalRetriever.section_meta := metadata (text_piece "");
           HierarchicalRetriever.section_score :=
             HierarchicalRetriever.similarity (Py.lit 1 2) |} ]
  ∧ Z.of_nat 2 = 2%Z.
Proof.
  apply (retrieve_sections_ranked (text_only_retriever [] []) "q" 2).
  - reflexivity.
  - repeat constructor; by vm_compute.
  - repeat constructor; by vm_compute.
Defined.

(** ** The retrieval pipeline *)

(** X16. A successful [retrieve] hands back the sections of stage A as they are
    and, for a count [top_k_content] that is not negative, at most that many
    content pieces. *)
Theorem retrieve_content_bounded (argsort : list Qc → list Z)
  (self : HierarchicalRetriever.T) (query : string)
  (route_info : QueryRouter.RouteDecision) (top_k_sections top_k_content : Z)
  (use_hybrid : bool) (r : HierarchicalRetriever.Retrieved) :
  HierarchicalRetriever.retrieve argsort self query route_info
    top_k_sections top_k_content use_hybrid = Py.Ok r →
  HierarchicalRetriever.retrieve_sections self query top_k_sections
  = Py.Ok (HierarchicalRetriever.retrieved_sections r)
  ∧ ((0 ≤ top_k_content)%Z →
     (Z.of_nat (length (HierarchicalRetriever.retrieved_content r)) ≤ top_k_content)%Z).
Proof.
  unfold HierarchicalRetriever.retrieve.
  intros (sections & Hsections & (ids & _ & (results & Hcontent & [= <-])%bind_Ok)%bind_Ok)
    %bind_Ok.
  simpl. split; [done|]. intros Hk.
  assert (Htext : ∀ rs,
    HierarchicalRetriever._retrieve_text argsort self query ids top_k_content use_hybrid
    = Py.Ok rs → (Z.of_nat (length rs) ≤ top_k_content)%Z).
  { unfold HierarchicalRetriever._retrieve_text.
    intros rs (hits & _ & (dense & _ & (merged & _ & [= <-])%bind_Ok)%bind_Ok)%bind_Ok.
    by apply slice_to_length. }
  destruct (QueryRouter.is_table_centric route_info); [|by apply Htext].
  unfold HierarchicalRetriever._retrieve_tables in Hcontent.
  destruct (HierarchicalRetriever.sentences _) as [[|sentence sentences]|];
    [by apply Htext| |by apply Htext].
  apply bind_Ok in Hcontent
    as (hits & _ & (dense & _ & (merged & _ & [= <-])%bind_Ok)%bind_Ok).
  by apply slice_to_length.
Qed.

Lemma retrieve_content_bounded_witness :
  ∃ r,
    HierarchicalRetriever.retrieve (fun _ => [])
      (text_only_retriever ["Revenue grew."; "Costs fell."]
         [(Py.lit 1 2, 0%Z); (Py.lit 3 4, 1%Z)])
      "What was the revenue change year-over-year?" table_route 1 1 true = Py.Ok r
    ∧ HierarchicalRetriever.retrieve_sections
        (text_only_retriever ["Revenue grew."; "Costs fell."]
           [(Py.lit 1 2, 0%Z); (Py.lit 3 4, 1%Z)])
        "What was the revenue change year-over-year?" 1
      = Py.Ok (HierarchicalRetriever.retrieved_sections r)
    ∧ (Z.of_nat (length (HierarchicalRetriever.retrieved_content r)) ≤ 1)%Z.
Proof.
  eexists. split; [reflexivity|].
  refine (let H := retrieve_content_bounded (fun _ => [])
                     (text_only_retriever ["Revenue grew."; "Costs fell."]
                        [(Py.lit 1 2, 0%Z); (Py.lit 3 4, 1%Z)])
                     "What was the revenue change year-over-year?" table_route 1 1 true _
                     eq_refl in conj (proj1 H) (proj2 H _)).
  lia.
Defined.

(** X17. The sections stage A selects do not restrict stage B: two successful
    runs of [retrieve] that differ only in the number of sections asked for
    return the same content. *)
Theorem retrieve_content_ignores_sections (argsort : list Qc → list Z)
  (self : HierarchicalRetriever.T) (query : string)
  (route_info : QueryRouter.RouteDecision) (top_k_sections top_k_sections' top_k_content : Z)
  (use_hybrid : bool) (r r' : HierarchicalRetriever.Retrieved) :
  HierarchicalRetriever.retrieve argsort self query route_info
    top_k_sections top_k_content use_hybrid = Py.Ok r →
  HierarchicalRetriever.retrieve argsort self query route_info
    top_k_sections' top_k_content use_hybrid = Py.Ok r' →
  HierarchicalRetriever.retrieved_content r = HierarchicalRetriever.retrieved_content r'.
Proof.
  unfold HierarchicalRetriever.retrieve.
  intros (sections & _ & (ids & _ & (results & Hcontent & [= <-])%bind_Ok)%bind_Ok)%bind_Ok.
  intros (sections' & _ & (ids' & _ & (results' & Hcontent' & [= <-])%bind_Ok)%bind_Ok)
    %bind_Ok.
  simpl.
  change (HierarchicalRetriever._retrieve_tables argsort self query ids')
    with (HierarchicalRetriever._retrieve_tables argsort self query ids) in Hcontent'.
  change (HierarchicalRetriever._retrieve_text argsort self query ids')
    with (HierarchicalRetriever._retrieve_text argsort self query ids) in Hcontent'.
  congruence.
Qed.

Lemma retrieve_content_ignores_sections_witness :
  ∃ r r',
    HierarchicalRetriever.retrieve (fun _ => [])
      (text_only_retriever ["Revenue grew."] [(Py.lit 1 2, 0%Z)])
      "What was revenue?" (QueryRouter.route "What was revenue?") 1 1 true = Py.Ok r
    ∧ HierarchicalRetriever.retrieve (fun _ => [])
        (text_only_retriever ["Revenue grew."] [(Py.lit 1 2, 0%Z)])
        "What was revenue?" (QueryRouter.route "What was revenue?") 2 1 true = Py.Ok r'
    ∧ length (HierarchicalRetriever.retrieved_sections r) = 1
    ∧ length (HierarchicalRetriever.retrieved_sections r') = 2
    ∧ HierarchicalRetriever.retrieved_content r = HierarchicalRetriever.retrieved_content r'.
Proof.
  eexists. eexists. split; [reflexivity|]. split; [reflexivity|].
  split; [reflexivity|]. split; [reflexivity|].
  apply (retrieve_content_ignores_sections (fun _ => [])
           (text_only_retriever ["Revenue grew."] [(Py.lit 1 2, 0%Z)])
           "What was revenue?" (QueryRouter.route "What was revenue?") 1 2 1 true);
    reflexivity.
Defined.

(** X18. Although stage B never uses the section identifiers, building them
    reads ['section_title'] of every section stage A returned: one section
    without that key makes [retrieve] raise [KeyError], whatever the route
    and the content indices are. *)
Theorem retrieve_untitled_section (argsort : list Qc → list Z)
  (self : HierarchicalRetriever.T) (query : string)
  (route_info : QueryRouter.RouteDecision) (top_k_sections top_k_content : Z)
  (use_hybrid : bool) (sections : list HierarchicalRetriever.SectionResult) :
  HierarchicalRetriever.retrieve_sections self query top_k_sections = Py.Ok sections →
  Exists (fun s => section_title (HierarchicalRetriever.section_meta s) = None) sections →
  HierarchicalRetriever.retrieve argsort self query route_info
    top_k_sections top_k_content use_hybrid = Py.Raise Py.KeyError.
Proof.
  intros Hsections Huntitled. unfold HierarchicalRetriever.retrieve.
  rewrite Hsections. simpl.
  match goal with
  | |- context [mapM ?f sections] =>
      assert (Hids : mapM f sections = Py.Raise Py.KeyError)
  end.
  { clear Hsections. induction Huntitled as [s rest Hs|s rest Hrest IH]; simpl.
    - by rewrite Hs.
    - destruct (section_title (HierarchicalRetriever.section_meta s)); [|done].
      simpl. by rewrite IH. }
  by rewrite Hids.
Qed.

Lemma retrieve_untitled_section_witness :
  HierarchicalRetriever.retrieve (fun _ => []) untitled_section_retriever
    "What was revenue?" (QueryRouter.route "What was revenue?") 1 1 false
  = Py.Raise Py.KeyError.
Proof.
  apply (retrieve_untitled_section (fun _ => []) untitled_section_retriever
           "What was revenue?" (QueryRouter.route "What was revenue?") 1 1 false
           [ {| HierarchicalRetriever.section_abstract := "Balance sheet";
                HierarchicalRetriever.section_meta := metadata (table_piece "");
                HierarchicalRetriever.section_score :=
                  HierarchicalRetriever.similarity (Py.lit 1 4) |} ]).
  - reflexivity.
  - by left.
Defined.

(** ** Lexical search and the hybrid step *)

(** X19. A lexical search that returns has a live index, answers with documents,
    metadata and scores of the corpus it was given, with at most [k] results
    for a [k] that is not negative, and does not depend on the letter case of
    the query. *)
Theorem bm25_search_results (argsort : list Qc → list Z) (query : string)
  (bm25_index : option HierarchicalRetriever.BM25) (documents : list string)
  (metas : list Metadata) (k : Z) (rs : list Evidence) :
  HierarchicalRetriever._bm25_search argsort query bm25_index documents metas k = Py.Ok rs →
  (∃ get_scores,
     bm25_index = Some get_scores
     ∧ Forall (fun e => content e ∈ documents ∧ metadata e ∈ metas
                        ∧ score e ∈ get_scores (Py.split (Py.lower query))) rs)
  ∧ ((0 ≤ k)%Z → (Z.of_nat (length rs) ≤ k)%Z)
  ∧ HierarchicalRetriever._bm25_search argsort (Py.lower query) bm25_index documents metas k
    = Py.Ok rs.
Proof.
  unfold HierarchicalRetriever._bm25_search. rewrite lower_idempotent.
  destruct bm25_index as [get_scores|]; [|done].
  intros Hrun. split; [|split; [|done]].
  - exists get_scores. split; [done|].
    eapply for_each_append_inv in Hrun as (ys & -> & Hys); [exact Hys|].
    intros acc idx r. simpl.
    intros (document & Hd & (meta & Hm & (s & Hs & [= <-])%bind_Ok)%bind_Ok)%bind_Ok.
    eexists. split; [done|]. simpl. repeat split; by eapply index_elem_of.
  - intros Hk.
    eapply (for_each_append_Forall2 _ (fun _ _ => True)) in Hrun as (ys & -> & Hys).
    2:{ intros acc idx r. simpl.
        intros (document & _ & (meta & _ & (s & _ & [= <-])%bind_Ok)%bind_Ok)%bind_Ok.
        by eexists. }
    simpl. rewrite <- (Forall2_length _ _ _ Hys). by apply slice_to_length.
Qed.

Lemma bm25_search_results_witness :
  ∃ rs,
    HierarchicalRetriever._bm25_search (fun _ => [0%Z; 1%Z]) "Total REVENUE"
      (Some (fun _ => [Py.lit 1 2; Py.lit 3 2])) ["cost row"; "revenue row"]
      [metadata (table_piece "cost row"); metadata (table_piece "revenue row")] 1
    = Py.Ok rs
    ∧ map content rs = ["revenue row"]
    ∧ (Z.of_nat (length rs) ≤ 1)%Z
    ∧ HierarchicalRetriever._bm25_search (fun _ => [0%Z; 1%Z]) (Py.lower "Total REVENUE")
        (Some (fun _ => [Py.lit 1 2; Py.lit 3 2])) ["cost row"; "revenue row"]
        [metadata (table_piece "cost row"); metadata (table_piece "revenue row")] 1
      = Py.Ok rs.
Proof.
  eexists. split; [reflexivity|]. split; [reflexivity|].
  refine (let H := bm25_search_results (fun _ => [0%Z; 1%Z]) "Total REVENUE"
                     (Some (fun _ => [Py.lit 1 2; Py.lit 3 2])) ["cost row"; "revenue row"]
                     [metadata (table_piece "cost row"); metadata (table_piece "revenue row")]
                     1 _ eq_refl in conj (proj1 (proj2 H) _) (proj2 (proj2 H))).
  lia.
Defined.

Lemma for_each_raise_inv {A S : Type} (body : S → A → Py.result S) (P : Py.exn → Prop)
  (xs : list A) (acc : S) (e : Py.exn) :
  (∀ acc x e, body acc x = Py.Raise e → P e) →
  Py.for_each body xs acc = Py.Raise e → P e.
Proof.
  intros Hbody. revert acc. induction xs as [|x xs IH]; intros acc; simpl; [done|].
  destruct (body acc x) as [r|e'] eqn:Hr; simpl.
  - apply IH.
  - intros [= <-]. by eapply Hbody.
Qed.

Lemma index_raise_inv {A : Type} (xs : list A) (i : Z) (e : Py.exn) :
  Py.index xs i = Py.Raise e → e = Py.IndexError.
Proof.
  unfold Py.index. destruct (_ <? 0)%Z; [congruence|]. destruct (xs !! _); congruence.
Qed.

(** X20. The two branches of stage B treat a ['bm25'] entry that is [None]
    differently. The table branch tests for it and goes on without the
    lexical search, as if hybrid search were off. The text branch only tests
    that the key is there: with hybrid search on it never returns. It raises
    [AttributeError] from the lexical search when it is asked for at least
    one piece and every position of the dense search addresses the text
    arrays, and otherwise [AssertionError] from the dense search or
    [IndexError] from the dense loop. *)
Theorem hybrid_without_lexical_index (argsort : list Qc → list Z)
  (self : HierarchicalRetriever.T) (query : string)
  (section_filter : list (string * Z * string)) (k : Z) :
  (HierarchicalRetriever.text_bm25 (HierarchicalRetriever.text_data self) = Some None →
   (HierarchicalRetriever._retrieve_text argsort self query section_filter k true
    = Py.Raise Py.AttributeError
    ∨ HierarchicalRetriever._retrieve_text argsort self query section_filter k true
      = Py.Raise Py.IndexError
    ∨ HierarchicalRetriever._retrieve_text argsort self query section_filter k true
      = Py.Raise Py.AssertionError)
   ∧ ((1 ≤ k)%Z →
      Forall
        (fun hit =>
           Spec.valid_position
             (HierarchicalRetriever.chunks (HierarchicalRetriever.text_data self)) hit.2
           ∧ Spec.valid_position
               (HierarchicalRetriever.text_metadata (HierarchicalRetriever.text_data self))
               hit.2)
        (HierarchicalRetriever.rows (HierarchicalRetriever.text_index self) query (k * 2)%Z) →
      HierarchicalRetriever._retrieve_text argsort self query section_filter k true
      = Py.Raise Py.AttributeError))
  ∧ (HierarchicalRetriever.table_bm25 (HierarchicalRetriever.table_data self) = Some None →
     ¬ Spec.no_table_sentences self →
     HierarchicalRetriever._retrieve_tables argsort self query section_filter k true
     = HierarchicalRetriever._retrieve_tables argsort self query section_filter k false).
Proof.
  split.
  - intros Hnone. unfold HierarchicalRetriever._retrieve_text. rewrite Hnone. split.
    + destruct (HierarchicalRetriever.search _ _ _) as [hits|e] eqn:Hsearch.
      2:{ right. right. unfold HierarchicalRetriever.search in Hsearch.
          destruct (0 <? k * 2)%Z; [done|]. by injection Hsearch as <-. }
      cbn [mbind Py.result_bind].
      match goal with
      | |- context [Py.for_each ?body hits []] =>
          destruct (Py.for_each body hits []) as [dense|e] eqn:Hrun
      end; simpl; [by left | right; left].
      eapply (for_each_raise_inv _ (fun e => e = Py.IndexError)) in Hrun; [by subst e|].
      intros acc [distance idx] e'. simpl.
      destruct (Py.index (HierarchicalRetriever.chunks _) idx) as [chunk|e1] eqn:Hc; simpl.
      * destruct (Py.index (HierarchicalRetriever.text_metadata _) idx) as [meta|e2] eqn:Hm;
          simpl; [done|].
        intros [= <-]. by eapply index_raise_inv.
      * intros [= <-]. by eapply index_raise_inv.
    + intros Hk Hvalid. rewrite search_ok by lia. cbn [mbind Py.result_bind].
      match goal with
      | |- context [Py.for_each ?body ?hits []] =>
          destruct (for_each_append_ok body
                      (fun hit =>
                         Spec.valid_position
                           (HierarchicalRetriever.chunks
                              (HierarchicalRetriever.text_data self)) hit.2
                         ∧ Spec.valid_position
                             (HierarchicalRetriever.text_metadata
                                (HierarchicalRetriever.text_data self)) hit.2)
                      (fun _ => True) hits [])
            as (dense & Hrun & _); [|exact Hvalid|by rewrite Hrun]
      end.
      intros acc [distance idx] [Hc Hm]. simpl in Hc, Hm.
      destruct (index_ok _ idx Hc) as (chunk & -> & _).
      destruct (index_ok _ idx Hm) as (meta & -> & _). by eexists.
  - intros Hnone Hsentences. unfold HierarchicalRetriever._retrieve_tables. rewrite Hnone.
    destruct (HierarchicalRetriever.sentences _) as [[|sentence sentences]|] eqn:Hs; [| done |].
    + destruct Hsentences. by right.
    + destruct Hsentences. by left.
Qed.

(** The theorem at one chunk and two table sentences, one piece asked for: the
    text branch raises, the table branch returns the nearest sentence with
    hybrid search on as with hybrid search off. *)
Lemma hybrid_without_lexical_index_witness :
  HierarchicalRetriever._retrieve_text (fun _ => [])
    (unindexed_retriever ["Revenue grew."] ["Revenue 10"; "Cost 4"]
       [(Py.lit 1 2, 0%Z)] [(Py.lit 1 2, 1%Z); (Py.lit 3 4, 0%Z)]) "revenue" [] 1 true
  = Py.Raise Py.AttributeError
  ∧ HierarchicalRetriever._retrieve_tables (fun _ => [])
      (unindexed_retriever ["Revenue grew."] ["Revenue 10"; "Cost 4"]
         [(Py.lit 1 2, 0%Z)] [(Py.lit 1 2, 1%Z); (Py.lit 3 4, 0%Z)]) "revenue" [] 1 true
    = HierarchicalRetriever._retrieve_tables (fun _ => [])
        (unindexed_retriever ["Revenue grew."] ["Revenue 10"; "Cost 4"]
           [(Py.lit 1 2, 0%Z)] [(Py.lit 1 2, 1%Z); (Py.lit 3 4, 0%Z)]) "revenue" [] 1 false
  ∧ map content
      <$> HierarchicalRetriever._retrieve_tables (fun _ => [])
            (unindexed_retriever ["Revenue grew."] ["Revenue 10"; "Cost 4"]
               [(Py.lit 1 2, 0%Z)] [(Py.lit 1 2, 1%Z); (Py.lit 3 4, 0%Z)]) "revenue" [] 1 true
    = Py.Ok ["Cost 4"].
Proof.
  refine (let H := hybrid_without_lexical_index (fun _ => [])
                     (unindexed_retriever ["Revenue grew."] ["Revenue 10"; "Cost 4"]
                        [(Py.lit 1 2, 0%Z)] [(Py.lit 1 2, 1%Z); (Py.lit 3 4, 0%Z)])
                     "revenue" [] 1
          in conj (proj2 (proj1 H eq_refl) _ _) (conj (proj2 H eq_refl _) eq_refl)).
  - lia.
  - repeat constructor; simpl; lia.
  - by intros [?|?].
Defined.

(** ** What the merge step keeps of its inputs *)

Lemma assign_loop_length {X V : Type} (key_of : X → string) (fresh : X → V)
  (xs : list X) (d : list (string * V)) :
  length (assign_loop key_of fresh xs d) ≤ length d + length xs.
Proof.
  unfold assign_loop. revert d. induction xs as [|x xs IH]; intros d; simpl; [lia|].
  etrans; [apply IH|]. pose proof (dict_set_length d (key_of x) (fresh x)). lia.
Qed.

Lemma accumulate_loop_length {X V : Type} (key_of : X → string) (fresh : X → V)
  (add : V → X → V) (xs : list X) (d : list (string * V)) :
  length (accumulate_loop key_of fresh add xs d) ≤ length d + length xs.
Proof.
  unfold accumulate_loop. revert d. induction xs as [|x xs IH]; intros d; simpl; [lia|].
  etrans; [apply IH|]. destruct (Py.dict_get (key_of x) d) as [v|].
  - pose proof (dict_set_length d (key_of x) (add v x)). lia.
  - pose proof (dict_set_length d (key_of x) (fresh x)). lia.
Qed.

Lemma sorted_desc_length {A : Type} (key : A → Qc) (xs : list A) :
  length (Py.sorted_desc key xs) = length xs.
Proof. by rewrite sorted_desc_Permutation. Qed.

(** The second loop only ever changes the score of an entry: the entry of a
    key is the first item filed under it, with another score. *)
Lemma accumulate_origin (alpha : Qc) (cur : option Evidence) (ls : list Evidence)
  (e : Evidence) :
  accumulate (bm25_entry alpha) (bm25_added alpha) cur ls = Some e →
  match cur with
  | Some c => e = with_score c (score e)
  | None => ∃ l rest, ls = l :: rest ∧ e = with_score l (score e)
  end.
Proof.
  unfold accumulate. revert cur.
  induction ls as [|l ls IH]; intros cur; simpl.
  - intros ->. by destruct e.
  - intros He%IH. destruct cur as [c|]; [exact He|]. by exists l, ls.
Qed.

(** X21. The merged list has one entry per key: every result of either input
    has an entry under its key (its first 50 characters), and no two entries
    share a key. It has no more entries than the two inputs together; an
    entry carries the content and the metadata of the last dense result
    filed under its key or, when there is none, of the first lexical one:
    only the score is computed. *)
Theorem merge_results_payload (alpha : Qc) (dense_results bm25_results : list Evidence) :
  let merged := HierarchicalRetriever._merge_results dense_results bm25_results alpha in
  NoDup (HierarchicalRetriever.merge_key <$> merged)
  ∧ (∀ r, r ∈ dense_results ++ bm25_results →
          ∃ e, e ∈ merged
               ∧ HierarchicalRetriever.merge_key e = HierarchicalRetriever.merge_key r)
  ∧ length merged ≤ length dense_results + length bm25_results
  ∧ ∀ e, e ∈ merged →
      match last (Spec.candidates (HierarchicalRetriever.merge_key e) dense_results) with
      | Some d => e = with_score d (score e)
      | None =>
          ∃ l rest,
            Spec.candidates (HierarchicalRetriever.merge_key e) bm25_results = l :: rest
            ∧ e = with_score l (score e)
      end.
Proof.
  intros merged. subst merged. split; [|split; [|split]].
  - unfold HierarchicalRetriever._merge_results.
    pose proof (merged_dict_keys alpha dense_results bm25_results) as Hkeys.
    cbv zeta in Hkeys. rewrite sorted_desc_Permutation, Hkeys. apply merged_dict_NoDup.
  - apply merge_results_has_entry.
  - unfold HierarchicalRetriever._merge_results, Py.dict_values.
    rewrite sorted_desc_length, length_map.
    etrans; [apply (accumulate_loop_length HierarchicalRetriever.merge_key
                      (bm25_entry alpha) (bm25_added alpha))|].
    pose proof (assign_loop_length HierarchicalRetriever.merge_key (dense_entry alpha)
                  dense_results []) as Hd.
    simpl in Hd.
    change (assign_loop HierarchicalRetriever.merge_key (dense_entry alpha) dense_results [])
      with (HierarchicalRetriever.merge_dense alpha dense_results) in Hd.
    lia.
  - intros e Hin.
    assert (Hc : e ∈ Spec.candidates (HierarchicalRetriever.merge_key e)
                       (HierarchicalRetriever._merge_results dense_results bm25_results alpha)).
    { apply list_elem_of_In, filter_In. split; [by apply list_elem_of_In|].
      apply String.eqb_refl. }
    rewrite merge_results_candidates in Hc.
    destruct (merged_entry alpha _ dense_results bm25_results) as [e'|] eqn:He; simpl in Hc;
      [|by apply elem_of_nil in Hc].
    apply list_elem_of_singleton in Hc as <-.
    apply accumulate_origin in He. by destruct (last _).
Qed.

(** ** The table branch on its own *)

(** A loop that appends at most one item per element and never raises. *)
Lemma for_each_filter_ok {A B : Type} (body : list B → A → Py.result (list B))
  (P : A → Prop) (Q : B → Prop) (xs : list A) (acc : list B) :
  (∀ acc x, P x → body acc x = Py.Ok acc ∨ ∃ y, body acc x = Py.Ok (acc ++ [y]) ∧ Q y) →
  Forall P xs →
  ∃ ys, Py.for_each body xs acc = Py.Ok (acc ++ ys)
        ∧ length ys ≤ length xs ∧ Forall Q ys.
Proof.
  intros Hbody. revert acc. induction xs as [|x xs IH]; intros acc Hxs; simpl.
  - exists []. by rewrite app_nil_r.
  - apply Forall_cons in Hxs as [Hx Hxs].
    destruct (Hbody acc x Hx) as [->|(y & -> & Hy)]; simpl.
    + destruct (IH acc Hxs) as (ys & -> & Hlen & Hys). exists ys. split; [done|].
      split; [lia | done].
    + destruct (IH (acc ++ [y]) Hxs) as (ys & -> & Hlen & Hys).
      exists (y :: ys). rewrite <- app_assoc. simpl.
      split; [done|]. split; [lia | by constructor].
Qed.

(** X22. With table sentences, metadata aligned with them and no lexical search
    to merge, the table branch asked for at least one piece never raises as
    long as the search returns no position below [-len(sentences)]: positions
    past the end are skipped, negative ones (the padding position -1) count
    from the end. Everything it returns is a table sentence with table
    metadata, at most one per row of the search and at most [k]. *)
Theorem retrieve_tables_dense_only (argsort : list Qc → list Z)
  (self : HierarchicalRetriever.T) (query : string)
  (section_filter : list (string * Z * string)) (k : Z) (use_hybrid : bool)
  (table_sentences : list string) :
  HierarchicalRetriever.sentences (HierarchicalRetriever.table_data self)
  = Some table_sentences →
  table_sentences ≠ [] →
  length (HierarchicalRetriever.table_metadata (HierarchicalRetriever.table_data self))
  = length table_sentences →
  (1 ≤ k)%Z →
  Forall (fun hit => (- Z.of_nat (length table_sentences) ≤ hit.2)%Z)
         (HierarchicalRetriever.rows (HierarchicalRetriever.table_index self) query
            (k * 2)%Z) →
  (use_hybrid = false
   ∨ HierarchicalRetriever.table_bm25 (HierarchicalRetriever.table_data self) = None
   ∨ HierarchicalRetriever.table_bm25 (HierarchicalRetriever.table_data self) = Some None) →
  ∃ results,
    HierarchicalRetriever._retrieve_tables argsort self query section_filter k use_hybrid
    = Py.Ok results
    ∧ Forall (fun e => content e ∈ table_sentences
                       ∧ metadata e ∈ HierarchicalRetriever.table_metadata
                                        (HierarchicalRetriever.table_data self)) results
    ∧ length results
      ≤ length (HierarchicalRetriever.rows (HierarchicalRetriever.table_index self) query
                  (k * 2)%Z)
    ∧ (Z.of_nat (length results) ≤ k)%Z.
Proof.
  intros Hsentences Hne Haligned Hk Hhits Hdense.
  unfold HierarchicalRetriever._retrieve_tables. rewrite Hsentences.
  destruct table_sentences as [|sentence sentences]; [done|].
  rewrite search_ok by lia. cbn [mbind Py.result_bind].
  set (table_sentences := sentence :: sentences) in *.
  set (metas := HierarchicalRetriever.table_metadata (HierarchicalRetriever.table_data self))
    in *.
  match goal with
  | |- context [Py.for_each ?body ?hits []] =>
      destruct (for_each_filter_ok body
                  (fun hit => (- Z.of_nat (length table_sentences) ≤ hit.2)%Z)
                  (fun e => content e ∈ table_sentences ∧ metadata e ∈ metas) hits [])
        as (dense & Hrun & Hlen & Hfrom); [|exact Hhits|]
  end.
  { intros acc [distance idx] Hidx. cbn [snd] in Hidx.
    destruct (Z.leb_spec (Z.of_nat (length table_sentences)) idx) as [Hpast|Hin];
      [by left | right].
    destruct (index_ok metas idx) as (meta & Hmeta & Hmin).
    { unfold Spec.valid_position. lia. }
    destruct (index_ok table_sentences idx) as (s & Hs & Hsin).
    { unfold Spec.valid_position. lia. }
    eexists. rewrite Hmeta. simpl. rewrite Hs. simpl. by split. }
  rewrite Hrun. simpl in *.
  assert (Hplain : ∃ results,
            Py.Ok (Py.slice_to dense k) = Py.Ok results
            ∧ Forall (fun e => content e ∈ table_sentences ∧ metadata e ∈ metas) results
            ∧ length results
              ≤ length (HierarchicalRetriever.rows (HierarchicalRetriever.table_index self)
                          query (k * 2)%Z)
            ∧ (Z.of_nat (length results) ≤ k)%Z).
  { eexists. split; [done|].
    pose proof (slice_to_length dense k) as [Hle Hcut].
    split; [|split; [lia | apply Hcut; lia]].
    rewrite Forall_forall in Hfrom. apply Forall_forall.
    intros e He%elem_of_slice_to. by apply Hfrom. }
  destruct use_hybrid; [|exact Hplain].
  destruct Hdense as [?|[-> | ->]]; [done | exact Hplain | exact Hplain].
Qed.

Lemma retrieve_tables_dense_only_witness :
  ∃ results,
    HierarchicalRetriever._retrieve_tables (fun _ => [])
      (table_only_retriever ["Revenue 10"; "Cost 4"] [(Py.lit 1 2, 5%Z); (Py.lit 3 4, 0%Z)])
      "revenue" [] 2 true
    = Py.Ok results
    ∧ map content results = ["Revenue 10"; "Cost 4"]
    ∧ Forall (fun e => content e ∈ ["Revenue 10"; "Cost 4"]
                       ∧ metadata e ∈ map (fun c => metadata (table_piece c))
                                          ["Revenue 10"; "Cost 4"]) results
    ∧ length results ≤ 4
    ∧ (Z.of_nat (length results) ≤ 2)%Z.
Proof.
  destruct (retrieve_tables_dense_only (fun _ => [])
              (table_only_retriever ["Revenue 10"; "Cost 4"]
                 [(Py.lit 1 2, 5%Z); (Py.lit 3 4, 0%Z)])
              "revenue" [] 2 true ["Revenue 10"; "Cost 4"])
    as (results & Hrun & Hrest).
  - reflexivity.
  - discriminate.
  - reflexivity.
  - lia.
  - repeat constructor; simpl; lia.
  - right. right. reflexivity.
  - exists results. split; [exact Hrun|]. split; [|exact Hrest].
    injection Hrun as <-. reflexivity.
Defined.

(** * Evaluation metrics *)

(** ** Splitting on blanks *)

Fixpoint all_chars (P : ascii → bool) (s : string) : bool :=
  match s with
  | EmptyString => true
  | String c rest => P c && all_chars P rest
  end.

(** What [split] does with the word it has read when the word ends. *)
Definition flush (word : list ascii) (tail : list string) : list string :=
  match word with
  | [] => tail
  | _ :: _ => string_of_list_ascii (rev word) :: tail
  end.

(** The words of a text as the metrics see them: lower-cased, punctuation
    blanked, split on blanks. *)
Definition words (text : string) : list string :=
  Py.split (Metrics.sub_punctuation (Py.lower text)).

(** A character that normalisation leaves alone. *)
Definition normal_char (c : ascii) : bool :=
  Ascii.eqb (Py.lower_char c) c && (Metrics.is_word_char c || Py.is_space c).

(** A character of a normalised word. *)
Definition token_char (c : ascii) : bool := normal_char c && negb (Py.is_space c).

Lemma split_from_nil (word : list ascii) : Py.split_from word EmptyString = flush word [].
Proof. reflexivity. Qed.

Lemma split_from_cons (word : list ascii) (c : ascii) (rest : string) :
  Py.split_from word (String c rest)
  = if Py.is_space c then flush word (Py.split_from [] rest)
    else Py.split_from (c :: word) rest.
Proof. reflexivity. Qed.

Lemma flush_app (word : list ascii) (tail : list string) :
  flush word tail = flush word [] ++ tail.
Proof. by destruct word. Qed.

(** Splitting does not join words across a blank. *)
Lemma split_from_space (word : list ascii) (a b : string) :
  Py.split_from word (a +:+ String " " b) = Py.split_from word a ++ Py.split b.
Proof.
  revert word. induction a as [|c a IH]; intros word.
  - rewrite append_nil_l, split_from_cons, split_from_nil. cbn [Py.is_space].
    apply flush_app.
  - rewrite append_cons, !split_from_cons. destruct (Py.is_space c); [|apply IH].
    rewrite IH, (flush_app word (_ ++ _)), (flush_app word (Py.split_from _ _)).
    by rewrite app_assoc.
Qed.

Lemma all_chars_app (P : ascii → bool) (s t : string) :
  all_chars P (s +:+ t) = all_chars P s && all_chars P t.
Proof.
  induction s as [|c s IH]; [done|].
  rewrite append_cons. cbn [all_chars]. by rewrite IH, andb_assoc.
Qed.

Lemma all_chars_impl (P Q : ascii → bool) (s : string) :
  (∀ c, P c = true → Q c = true) → all_chars P s = true → all_chars Q s = true.
Proof.
  intros HPQ. induction s as [|c s IH]; [done|]. cbn [all_chars].
  intros [Hc Hs]%andb_true_iff. by rewrite HPQ, IH.
Qed.

Lemma all_chars_of_list (P : ascii → bool) (l : list ascii) :
  all_chars P (string_of_list_ascii l) = forallb P l.
Proof. induction l as [|c l IH]; [done|]. simpl. by rewrite IH. Qed.

(** Every word [split] returns is non-empty and made of characters of the
    text that are not blanks. *)
Lemma split_from_words (P : ascii → bool) (word : list ascii) (s : string) :
  forallb (fun c => P c && negb (Py.is_space c)) word = true →
  all_chars P s = true →
  Forall (fun w => w ≠ EmptyString
                   ∧ all_chars (fun c => P c && negb (Py.is_space c)) w = true)
         (Py.split_from word s).
Proof.
  assert (Hflush : ∀ word tail,
    forallb (fun c => P c && negb (Py.is_space c)) word = true →
    Forall (fun w => w ≠ EmptyString
                     ∧ all_chars (fun c => P c && negb (Py.is_space c)) w = true) tail →
    Forall (fun w => w ≠ EmptyString
                     ∧ all_chars (fun c => P c && negb (Py.is_space c)) w = true)
           (flush word tail)).
  { intros [|c word'] tail Hword Htail; [done|]. cbn [flush]. constructor; [|done].
    split.
    - intros Hnil. apply (f_equal list_ascii_of_string) in Hnil.
      rewrite list_ascii_of_string_of_list_ascii in Hnil. simpl in Hnil.
      by apply app_eq_nil in Hnil as [_ ?].
    - rewrite all_chars_of_list, forallb_forall. intros x Hx%in_rev.
      rewrite forallb_forall in Hword. by apply Hword. }
  revert word. induction s as [|c s IH]; intros word Hword Hs.
  - rewrite split_from_nil. by apply Hflush.
  - cbn [all_chars] in Hs. apply andb_true_iff in Hs as [Hc Hs].
    rewrite split_from_cons. destruct (Py.is_space c) eqn:Hspace.
    + apply Hflush; [done|]. by apply IH.
    + apply IH; [|done]. cbn [forallb]. by rewrite Hc, Hspace, Hword.
Qed.

Lemma split_from_word (word : list ascii) (w s : string) :
  all_chars (fun c => negb (Py.is_space c)) w = true →
  Py.split_from word (w +:+ s) = Py.split_from (rev (list_ascii_of_string w) ++ word) s.
Proof.
  revert word. induction w as [|c w IH]; intros word; [done|]. cbn [all_chars].
  intros [Hc Hw]%andb_true_iff. apply negb_true_iff in Hc.
  rewrite append_cons, split_from_cons, Hc, IH by done.
  simpl. by rewrite <- app_assoc.
Qed.

Lemma split_word (w : string) :
  w ≠ EmptyString → all_chars (fun c => negb (Py.is_space c)) w = true →
  Py.split w = [w].
Proof.
  intros Hne Hw. unfold Py.split.
  rewrite <- (append_nil_r w) at 1. rewrite split_from_word, split_from_nil by done.
  rewrite app_nil_r. destruct w as [|c w]; [done|].
  destruct (rev (list_ascii_of_string (String c w))) as [|x l] eqn:Hrev.
  { apply (f_equal (@length ascii)) in Hrev. rewrite length_rev in Hrev. done. }
  cbn [flush]. rewrite <- Hrev, rev_involutive. by rewrite string_of_list_ascii_of_string.
Qed.

(** Joining words with one blank and splitting again gives the words back. *)
Lemma split_join (ws : list string) :
  Forall (fun w => w ≠ EmptyString
                   ∧ all_chars (fun c => negb (Py.is_space c)) w = true) ws →
  Py.split (Py.join " " ws) = ws.
Proof.
  induction 1 as [|w ws [Hne Hw] Hws IH]; [done|].
  destruct ws as [|w' ws]; [by apply split_word|].
  change (Py.join " " (w :: w' :: ws)) with (w +:+ String " " (Py.join " " (w' :: ws))).
  unfold Py.split at 1. rewrite split_from_space, IH.
  fold (Py.split w). by rewrite split_word.
Qed.

Lemma sub_punctuation_app (s t : string) :
  Metrics.sub_punctuation (s +:+ t)
  = Metrics.sub_punctuation s +:+ Metrics.sub_punctuation t.
Proof.
  induction s as [|c s IH]; [done|].
  rewrite append_cons. cbn [Metrics.sub_punctuation]. by rewrite IH, append_cons.
Qed.

(** Lower-casing and blanking the punctuation leave only normal characters. *)
Lemma sub_punctuation_lower_normal (text : string) :
  all_chars normal_char (Metrics.sub_punctuation (Py.lower text)) = true.
Proof.
  induction text as [|c text IH]; [done|].
  cbn [Py.lower Metrics.sub_punctuation all_chars]. rewrite IH, andb_true_r.
  unfold normal_char.
  destruct (Metrics.is_word_char (Py.lower_char c) || Py.is_space (Py.lower_char c)) eqn:Hc.
  - by rewrite lower_char_idempotent, Ascii.eqb_refl, Hc.
  - reflexivity.
Qed.

Lemma normal_fixed (s : string) :
  all_chars normal_char s = true →
  Py.lower s = s ∧ Metrics.sub_punctuation s = s.
Proof.
  induction s as [|c s IH]; [done|]. cbn [all_chars].
  intros [[Hlower Hclass]%andb_true_iff Hs]%andb_true_iff.
  apply Ascii.eqb_eq in Hlower. destruct (IH Hs) as [Hl Hp].
  cbn [Py.lower Metrics.sub_punctuation]. by rewrite Hlower, Hclass, Hl, Hp.
Qed.

Lemma join_normal (ws : list string) :
  Forall (fun w => all_chars normal_char w = true) ws →
  all_chars normal_char (Py.join " " ws) = true.
Proof.
  induction 1 as [|w ws Hw Hws IH]; [done|].
  destruct ws as [|w' ws]; [done|].
  change (Py.join " " (w :: w' :: ws)) with (w +:+ String " " (Py.join " " (w' :: ws))).
  rewrite all_chars_app, Hw. cbn [all_chars]. by rewrite IH.
Qed.

(** The words of a text are non-empty and made of lower-case word
    characters. *)
Lemma words_tokens (text : string) :
  Forall (fun w => w ≠ EmptyString ∧ all_chars token_char w = true) (words text).
Proof. by apply (split_from_words normal_char), sub_punctuation_lower_normal. Qed.

Lemma token_char_normal (c : ascii) : token_char c = true → normal_char c = true.
Proof. unfold token_char. by intros [? _]%andb_true_iff. Qed.

Lemma token_char_no_space (c : ascii) : token_char c = true → negb (Py.is_space c) = true.
Proof. unfold token_char. by intros [_ ?]%andb_true_iff. Qed.

(** [normalize_answer] is its words, joined by single blanks; splitting it
    gives the words back. *)
Lemma normalize_answer_words (text : string) :
  Metrics.normalize_answer text = Py.join " " (words text)
  ∧ Py.split (Metrics.normalize_answer text) = words text.
Proof.
  split; [reflexivity|].
  change (Metrics.normalize_answer text) with (Py.join " " (words text)).
  apply split_join. eapply Forall_impl; [apply words_tokens|].
  intros w [Hne Hw]. split; [done|]. by eapply all_chars_impl, Hw; apply token_char_no_space.
Qed.

Lemma normalize_answer_normal (text : string) :
  all_chars normal_char (Metrics.normalize_answer text) = true.
Proof.
  change (Metrics.normalize_answer text) with (Py.join " " (words text)).
  apply join_normal. eapply Forall_impl; [apply words_tokens|].
  intros w [_ Hw]. by eapply all_chars_impl, Hw; apply token_char_normal.
Qed.

Lemma words_normalize (text : string) : words (Metrics.normalize_answer text) = words text.
Proof.
  unfold words at 1.
  destruct (normal_fixed _ (normalize_answer_normal text)) as [Hl Hp].
  rewrite Hl, Hp. apply normalize_answer_words.
Qed.

Lemma words_lower (text : string) : words (Py.lower text) = words text.
Proof. unfold words. by rewrite lower_idempotent. Qed.

Lemma tokens_words (text : string) : tokens text = words text.
Proof. apply normalize_answer_words. Qed.

(** ** Normalisation and exact match *)

Lemma normalize_answer_twice (text : string) :
  Metrics.normalize_answer (Metrics.normalize_answer text) = Metrics.normalize_answer text.
Proof.
  rewrite (proj1 (normalize_answer_words (Metrics.normalize_answer text))).
  rewrite words_normalize. symmetry. apply normalize_answer_words.
Qed.

(** X23. Normalising twice is normalising once, a text and its lower-case form
    normalise alike, and the normal form has no blank at either end and no
    two blanks in a row: splitting it on blanks and joining the pieces with
    one blank gives it back. *)
Theorem normalize_answer_idempotent (text : string) :
  Metrics.normalize_answer (Metrics.normalize_answer text) = Metrics.normalize_answer text
  ∧ Metrics.normalize_answer (Py.lower text) = Metrics.normalize_answer text
  ∧ Py.join " " (Py.split (Metrics.normalize_answer text)) = Metrics.normalize_answer text.
Proof.
  split; [apply normalize_answer_twice|]. split.
  - rewrite !(proj1 (normalize_answer_words _)). by rewrite words_lower.
  - by rewrite (proj2 (normalize_answer_words text)).
Qed.

(** X24. Exact match is 1 or 0; it is 1 exactly when the two answers have the
    same tokens in the same order, which makes it reflexive and symmetric,
    and it does not change when an answer is replaced by its normal form. *)
Theorem compute_exact_match_tokens (prediction ground_truth : string) :
  (Metrics.compute_exact_match prediction ground_truth = 1%Qc
   ∨ Metrics.compute_exact_match prediction ground_truth = 0%Qc)
  ∧ (Metrics.compute_exact_match prediction ground_truth = 1%Qc
     ↔ tokens prediction = tokens ground_truth)
  ∧ Metrics.compute_exact_match prediction prediction = 1%Qc
  ∧ Metrics.compute_exact_match ground_truth prediction
    = Metrics.compute_exact_match prediction ground_truth
  ∧ Metrics.compute_exact_match (Metrics.normalize_answer prediction) ground_truth
    = Metrics.compute_exact_match prediction ground_truth.
Proof.
  unfold Metrics.compute_exact_match. cbv zeta.
  assert (Hwords : ∀ a b, Metrics.normalize_answer a = Metrics.normalize_answer b
                          ↔ tokens a = tokens b).
  { intros a b. rewrite !tokens_words. split.
    - intros Heq. by rewrite <- !(proj2 (normalize_answer_words _)), Heq.
    - intros Heq. by rewrite !(proj1 (normalize_answer_words _)), Heq. }
  repeat split.
  - destruct (String.eqb _ _); [by left | by right].
  - destruct (String.eqb_spec (Metrics.normalize_answer prediction)
                (Metrics.normalize_answer ground_truth)) as [Heq|Hne]; [|done].
    intros _. by apply Hwords.
  - intros Heq%Hwords. by rewrite Heq, String.eqb_refl.
  - by rewrite String.eqb_refl.
  - by rewrite String.eqb_sym.
  - by rewrite normalize_answer_twice.
Qed.

(** ** Tokens across texts *)

Lemma words_space (a b : string) : words (a +:+ String " " b) = words a ++ words b.
Proof.
  unfold words. rewrite lower_app, sub_punctuation_app.
  change (Metrics.sub_punctuation (Py.lower (String " " b)))
    with (String " " (Metrics.sub_punctuation (Py.lower b))).
  apply split_from_space.
Qed.

(** The words of texts joined by blanks are the words of the texts: no
    word runs across the boundary between two texts. *)
Lemma words_join (texts : list string) :
  words (Py.join " " texts) = concat (map words texts).
Proof.
  induction texts as [|t texts IH]; [done|].
  destruct texts as [|t' texts]; [simpl; by rewrite app_nil_r|].
  change (Py.join " " (t :: t' :: texts)) with (t +:+ String " " (Py.join " " (t' :: texts))).
  by rewrite words_space, IH.
Qed.

Lemma size_list_to_set_disj (l : list string) :
  size (list_to_set_disj l : gmultiset string) = length l.
Proof.
  induction l as [|x l IH]; [done|].
  rewrite list_to_set_disj_cons, gmultiset_size_disj_union, gmultiset_size_singleton, IH.
  done.
Qed.

Lemma elements_list_to_set_disj (l : list string) :
  elements (list_to_set_disj l : gmultiset string) ≡ₚ l.
Proof.
  induction l as [|x l IH]; [done|].
  rewrite list_to_set_disj_cons, gmultiset_elements_disj_union,
    gmultiset_elements_singleton, IH. done.
Qed.

Lemma gmultiset_subseteq_size_eq (X Y : gmultiset string) :
  X ⊆ Y → size X = size Y → X = Y.
Proof.
  intros Hsub Hsize. destruct (decide (Y ⊆ X)) as [Hrev|Hrev].
  - by apply (anti_symm (⊆)).
  - assert (Hstrict : X ⊂ Y) by done.
    apply gmultiset_subset_size in Hstrict. lia.
Qed.

(** ** Token F1 *)

(** The value [compute_f1] returns, from the three counts it is made of. *)
Lemma f1_value (m n c : nat) :
  c ≤ m → c ≤ n →
  (if (m =? 0) || (n =? 0) then 0%Qc
   else if c =? 0 then 0%Qc
   else (Qc_of_Z 2
         * (Qc_of_Z (Z.of_nat c) / Qc_of_Z (Z.of_nat m)
            * (Qc_of_Z (Z.of_nat c) / Qc_of_Z (Z.of_nat n)))
         / (Qc_of_Z (Z.of_nat c) / Qc_of_Z (Z.of_nat m)
            + Qc_of_Z (Z.of_nat c) / Qc_of_Z (Z.of_nat n)))%Qc)
  = (Qc_of_Z (Z.of_nat (2 * c)) / Qc_of_Z (Z.of_nat (m + n)))%Qc.
Proof.
  intros Hm Hn.
  assert (Hzero : c = 0 →
    (Qc_of_Z (Z.of_nat (2 * c)) / Qc_of_Z (Z.of_nat (m + n)))%Qc = 0%Qc).
  { intros ->. unfold Qcdiv. change (Z.of_nat (2 * 0)) with 0%Z.
    rewrite Z2Qc_inj_0. ring. }
  destruct (Nat.eqb_spec m 0) as [->|Hm0]; [symmetry; apply Hzero; lia|].
  destruct (Nat.eqb_spec n 0) as [->|Hn0]; [symmetry; apply Hzero; lia|].
  destruct (Nat.eqb_spec c 0) as [->|Hc0]; [symmetry; by apply Hzero|].
  cbn [orb].
  rewrite !Nat2Z.inj_add, !Nat2Z.inj_mul, Z2Qc_inj_add, Z2Qc_inj_mul.
  change (Z.of_nat 2) with 2%Z.
  pose proof (Qc_of_nat_pos m Hm0). pose proof (Qc_of_nat_pos n Hn0).
  pose proof (Qc_of_nat_pos c Hc0).
  field. repeat split; apply Qc_pos_ne;
    repeat first [assumption | apply Qcplus_pos_pos | apply Qcmult_pos_pos].
Qed.

(** X25. [compute_f1] is twice the number of tokens the two answers share,
    counted with multiplicity, over the total number of tokens; it lies
    between 0 and 1, does not depend on which answer is the prediction, and
    is 1 exactly when the answers are not empty and have the same tokens up
    to order. *)
Theorem compute_f1_tokens (prediction ground_truth : string) :
  let common : gmultiset string :=
    list_to_set_disj (tokens prediction) ∩ list_to_set_disj (tokens ground_truth) in
  Metrics.compute_f1 prediction ground_truth
  = (if (length (tokens prediction) + length (tokens ground_truth) =? 0)%nat then 0%Qc
     else (Qc_of_Z (Z.of_nat (2 * size common))
           / Qc_of_Z (Z.of_nat (length (tokens prediction)
                                + length (tokens ground_truth))))%Qc)
  ∧ (0 ≤ Metrics.compute_f1 prediction ground_truth)%Qc
  ∧ (Metrics.compute_f1 prediction ground_truth ≤ 1)%Qc
  ∧ Metrics.compute_f1 ground_truth prediction = Metrics.compute_f1 prediction ground_truth
  ∧ (Metrics.compute_f1 prediction ground_truth = 1%Qc
     ↔ tokens prediction ≠ [] ∧ tokens prediction ≡ₚ tokens ground_truth).
Proof.
  intros common.
  assert (Hvalue : ∀ a b,
    Metrics.compute_f1 a b
    = (Qc_of_Z (Z.of_nat (2 * size (list_to_set_disj (tokens a) ∩ list_to_set_disj (tokens b)
                                    : gmultiset string)))
       / Qc_of_Z (Z.of_nat (length (tokens a) + length (tokens b))))%Qc).
  { intros a b. unfold Metrics.compute_f1. cbv zeta. fold (tokens a) (tokens b).
    apply f1_value.
    - rewrite <- size_list_to_set_disj. apply gmultiset_subseteq_size. multiset_solver.
    - rewrite <- size_list_to_set_disj. apply gmultiset_subseteq_size. multiset_solver. }
  set (p := tokens prediction) in *. set (g := tokens ground_truth) in *.
  assert (Hp : size common ≤ length p).
  { rewrite <- size_list_to_set_disj. apply gmultiset_subseteq_size.
    subst common. multiset_solver. }
  assert (Hg : size common ≤ length g).
  { rewrite <- size_list_to_set_disj. apply gmultiset_subseteq_size.
    subst common. multiset_solver. }
  rewrite (Hvalue ground_truth prediction), (Hvalue prediction ground_truth).
  fold p g. fold common.
  destruct (Nat.eqb_spec (length p + length g) 0) as [Hempty|Hsome].
  { assert (Hc : size common = 0) by lia. rewrite Hempty, Hc.
    assert (Hzero : (Qc_of_Z (Z.of_nat (2 * 0)) / Qc_of_Z (Z.of_nat 0) = 0)%Qc) by done.
    replace (size (list_to_set_disj g ∩ list_to_set_disj p : gmultiset string)) with 0.
    2:{ symmetry. apply Nat.le_0_r. etrans; [|exact (Nat.eq_le_incl _ _ Hc)].
        apply gmultiset_subseteq_size. subst common. multiset_solver. }
    replace (length g + length p) with 0 by lia. rewrite Hzero.
    split; [done|]. split; [done|]. split; [done|]. split; [done|]. split; [done|].
    intros [Hne _]. destruct p; [done | simpl in Hempty; lia]. }
  destruct (fraction_bounds (2 * size common) (length p + length g)) as [Hlo Hhi];
    [lia | done|].
  split; [done|]. split; [done|]. split; [done|]. split.
  { replace (list_to_set_disj g ∩ list_to_set_disj p : gmultiset string) with common
      by (subst common; multiset_solver).
    by rewrite (Nat.add_comm (length g)). }
  rewrite fraction_one_iff by done. split.
  - intros Htwice.
    assert (Hcp : common = list_to_set_disj p).
    { apply gmultiset_subseteq_size_eq; [subst common; multiset_solver|].
      rewrite size_list_to_set_disj. lia. }
    assert (Hcg : common = list_to_set_disj g).
    { apply gmultiset_subseteq_size_eq; [subst common; multiset_solver|].
      rewrite size_list_to_set_disj. lia. }
    split.
    + intros Hnil. apply (f_equal length) in Hnil. simpl in Hnil. lia.
    + rewrite <- (elements_list_to_set_disj p), <- (elements_list_to_set_disj g).
      by rewrite <- Hcp, <- Hcg.
  - intros [_ Hperm].
    assert (Hsame : common = list_to_set_disj p).
    { subst common. rewrite <- (list_to_set_disj_perm _ _ Hperm). multiset_solver. }
    rewrite Hsame, size_list_to_set_disj, <- (Permutation_length Hperm). lia.
Qed.

(** ** Ranking metrics *)

Section RankingFacts.

Context {A : Type} `{Countable A}.

(** X26. Recall@k lies between 0 and 1; it is 1 exactly when there are relevant
    items and all of them are among [retrieved[:k]], 0 exactly when none of
    them is, and it no longer changes once the cutoff has reached the length
    of the ranking. *)
Theorem compute_recall_at_k_range (retrieved : list A) (relevant : gset A) (k : Z) :
  (0 ≤ Metrics.compute_recall_at_k retrieved relevant k)%Qc
  ∧ (Metrics.compute_recall_at_k retrieved relevant k ≤ 1)%Qc
  ∧ (Metrics.compute_recall_at_k retrieved relevant k = 1%Qc
     ↔ relevant ≠ ∅ ∧ ∀ x, x ∈ relevant → x ∈ Py.slice_to retrieved k)
  ∧ (Metrics.compute_recall_at_k retrieved relevant k = 0%Qc
     ↔ ∀ x, x ∈ relevant → x ∉ Py.slice_to retrieved k)
  ∧ ((Z.of_nat (length retrieved) ≤ k)%Z →
     Metrics.compute_recall_at_k retrieved relevant k
     = Metrics.compute_recall_at_k retrieved relevant (Z.of_nat (length retrieved))).
Proof.
  assert (Hlast : (Z.of_nat (length retrieved) ≤ k)%Z →
    Metrics.compute_recall_at_k retrieved relevant k
    = Metrics.compute_recall_at_k retrieved relevant (Z.of_nat (length retrieved))).
  { intros Hk. unfold Metrics.compute_recall_at_k. by rewrite !slice_to_all by lia. }
  unfold Metrics.compute_recall_at_k in *. destruct (decide (size relevant = 0)) as [Hz|Hnz].
  { apply size_empty_iff, leibniz_equiv in Hz. subst relevant.
    split; [done|]. split; [done|]. split; [|split; [|done]].
    - split; [done | by intros [? _]].
    - split; [|done]. intros _ x Hx. by apply not_elem_of_empty in Hx. }
  set (top := list_to_set (Py.slice_to retrieved k) : gset A) in *.
  assert (Hsub : top ∩ relevant ⊆ relevant) by apply intersection_subseteq_r.
  pose proof (subseteq_size _ _ Hsub) as Hle.
  destruct (fraction_bounds (size (top ∩ relevant)) (size relevant) Hle Hnz) as [Hlo Hhi].
  split; [done|]. split; [done|]. split; [|split; [|done]].
  - rewrite fraction_one_iff by done. split.
    + intros Hsize. split; [by intros ->|].
      assert (Heq : top ∩ relevant = relevant).
      { apply set_subseteq_size_eq; [done | lia]. }
      intros x Hx. rewrite <- Heq in Hx.
      apply elem_of_intersection in Hx as [Hx _]. by apply elem_of_list_to_set in Hx.
    + intros [_ Hall]. f_equal. apply leibniz_equiv. apply set_equiv. intros x.
      rewrite elem_of_intersection. split; [by intros [_ ?]|].
      intros Hx. split; [|done]. apply elem_of_list_to_set. by apply Hall.
  - rewrite fraction_zero_iff by done. rewrite size_empty_iff. split.
    + intros Hempty x Hx Htop.
      apply (not_elem_of_empty (C := gset A) x). rewrite <- Hempty.
      apply elem_of_intersection. split; [by apply elem_of_list_to_set | done].
    + intros Hnone x. unfold top. rewrite elem_of_intersection, elem_of_list_to_set.
      split; [|by intros ?%not_elem_of_empty]. intros [Htop Hx]. by destruct (Hnone x).
Qed.

Lemma first_relevant_spec (start : nat) (xs : list A) (relevant : gset A) :
  match Metrics.first_relevant (Py.enumerate_from start xs) relevant with
  | Some i =>
      ∃ j x, i = start + j ∧ xs !! j = Some x ∧ x ∈ relevant
             ∧ ∀ j' y, j' < j → xs !! j' = Some y → y ∉ relevant
  | None => ∀ x, x ∈ xs → x ∉ relevant
  end.
Proof.
  revert start. induction xs as [|x xs IH]; intros start; simpl.
  - by intros x ?%elem_of_nil.
  - destruct (decide (x ∈ relevant)) as [Hx|Hx].
    + exists 0, x. split; [lia|]. split; [done|]. split; [done|]. lia.
    + specialize (IH (S start)).
      destruct (Metrics.first_relevant _ _) as [i|].
      * destruct IH as (j & y & -> & Hy & Hrel & Hbefore).
        exists (S j), y. split; [lia|]. split; [done|]. split; [done|].
        intros [|j'] z Hlt; simpl; [by intros [= <-] | apply Hbefore; lia].
      * intros y [->|Hy]%elem_of_cons; [done | by apply IH].
Qed.

(** X27. The reciprocal rank is 1 over the 1-based position of the first
    relevant item of the ranking, 0 exactly when the ranking has no relevant
    item, and so lies between 0 and 1. *)
Theorem compute_mrr_first_relevant (retrieved : list A) (relevant : gset A) :
  (∀ i x,
     retrieved !! i = Some x → x ∈ relevant →
     (∀ j y, j < i → retrieved !! j = Some y → y ∉ relevant) →
     Metrics.compute_mrr retrieved relevant = (1 / Qc_of_Z (Z.of_nat i + 1))%Qc)
  ∧ (Metrics.compute_mrr retrieved relevant = 0%Qc
     ↔ ∀ x, x ∈ retrieved → x ∉ relevant)
  ∧ (0 ≤ Metrics.compute_mrr retrieved relevant)%Qc
  ∧ (Metrics.compute_mrr retrieved relevant ≤ 1)%Qc.
Proof.
  unfold Metrics.compute_mrr, Py.enumerate.
  pose proof (first_relevant_spec 0 retrieved relevant) as Hspec.
  assert (Hrank : ∀ i : nat,
    (1 / Qc_of_Z (Z.of_nat i + 1))%Qc
    = (Qc_of_Z (Z.of_nat 1) / Qc_of_Z (Z.of_nat (S i)))%Qc).
  { intros i. change (Z.of_nat 1) with 1%Z.
    by rewrite Z2Qc_inj_1, Nat2Z.inj_succ, <- Z.add_1_r. }
  destruct (Metrics.first_relevant _ _) as [i|].
  - destruct Hspec as (j & x & -> & Hx & Hrel & Hbefore). simpl.
    destruct (fraction_bounds 1 (S j)) as [Hlo Hhi]; [lia | done|].
    split; [|split; [|by rewrite Hrank]].
    + intros i y Hy Hyrel Hfirst.
      destruct (Nat.lt_trichotomy i j) as [Hlt|[->|Hgt]]; [|done|].
      * by destruct (Hbefore i y Hlt Hy).
      * by destruct (Hfirst j x Hgt Hx).
    + rewrite Hrank, fraction_zero_iff by done. split; [done|].
      intros Hnone. destruct (Hnone x); [by eapply list_elem_of_lookup_2 | done].
  - split; [|done]. intros i x Hx Hrel _.
    destruct (Hspec x); [by eapply list_elem_of_lookup_2 | done].
Qed.

End RankingFacts.

(** ** Faithfulness *)

(** X28. Faithfulness lies between 0 and 1; it is 1 exactly when the answer has
    tokens and each of them is a token of some evidence text, and 0 exactly
    when no token of the answer is a token of any evidence text. Tokens are
    taken text by text: joining the evidence makes no new ones. *)
Theorem compute_faithfulness_tokens (answer : string) (evidence : list string) :
  (0 ≤ Metrics.compute_faithfulness answer evidence)%Qc
  ∧ (Metrics.compute_faithfulness answer evidence ≤ 1)%Qc
  ∧ (Metrics.compute_faithfulness answer evidence = 1%Qc
     ↔ tokens answer ≠ []
       ∧ ∀ t, t ∈ tokens answer → ∃ e, e ∈ evidence ∧ t ∈ tokens e)
  ∧ (Metrics.compute_faithfulness answer evidence = 0%Qc
     ↔ ∀ t e, t ∈ tokens answer → e ∈ evidence → t ∉ tokens e).
Proof.
  unfold Metrics.compute_faithfulness. cbv zeta.
  fold (tokens answer) (tokens (Py.join " " evidence)).
  assert (Hevidence : ∀ t, t ∈ tokens (Py.join " " evidence)
                           ↔ ∃ e, e ∈ evidence ∧ t ∈ tokens e).
  { intros t. rewrite tokens_words, words_join, list_elem_of_In, in_concat. split.
    - intros (ws & (e & <- & He)%in_map_iff & Ht).
      exists e. by rewrite tokens_words, !list_elem_of_In.
    - intros (e & He & Ht). exists (words e).
      rewrite tokens_words, list_elem_of_In in Ht. split; [|done].
      by apply in_map, list_elem_of_In. }
  set (answer_tokens := list_to_set (tokens answer) : gset string).
  set (evidence_tokens := list_to_set (tokens (Py.join " " evidence)) : gset string).
  destruct (Nat.eqb_spec (size answer_tokens) 0) as [Hz|Hnz].
  { apply size_empty_iff, leibniz_equiv in Hz.
    assert (Hnil : tokens answer = []).
    { destruct (tokens answer) as [|t ts]; [done|].
      assert (Ht : t ∈ answer_tokens).
      { unfold answer_tokens. apply elem_of_list_to_set. by left. }
      rewrite Hz in Ht. by apply not_elem_of_empty in Ht. }
    rewrite Hnil. split; [done|]. split; [done|]. split.
    - split; [done | by intros [? _]].
    - split; [|done]. intros _ t e Ht. by apply elem_of_nil in Ht. }
  assert (Hsub : answer_tokens ∩ evidence_tokens ⊆ answer_tokens)
    by apply intersection_subseteq_l.
  pose proof (subseteq_size _ _ Hsub) as Hle.
  destruct (fraction_bounds _ _ Hle Hnz) as [Hlo Hhi].
  split; [done|]. split; [done|]. split.
  - rewrite fraction_one_iff by done. split.
    + intros Hsize. split.
      { intros Hnil. subst answer_tokens. by rewrite Hnil in Hnz. }
      assert (Heq : answer_tokens ∩ evidence_tokens = answer_tokens).
      { apply set_subseteq_size_eq; [done | lia]. }
      intros t Ht. apply Hevidence.
      assert (Hin : t ∈ answer_tokens) by by apply elem_of_list_to_set.
      rewrite <- Heq in Hin. apply elem_of_intersection in Hin as [_ Hin].
      by apply elem_of_list_to_set in Hin.
    + intros [_ Hall]. f_equal. apply leibniz_equiv, set_equiv. intros t.
      rewrite elem_of_intersection. split; [by intros [? _]|].
      intros Ht. split; [done|]. apply elem_of_list_to_set, Hevidence, Hall.
      by apply elem_of_list_to_set in Ht.
  - rewrite fraction_zero_iff by done. rewrite size_empty_iff. split.
    + intros Hempty t e Ht He Hte.
      apply (not_elem_of_empty (C := gset string) t). rewrite <- Hempty.
      apply elem_of_intersection. split; [by apply elem_of_list_to_set|].
      apply elem_of_list_to_set, Hevidence. by exists e.
    + intros Hnone t. unfold answer_tokens, evidence_tokens.
      rewrite elem_of_intersection, !elem_of_list_to_set.
      split; [|by intros ?%not_elem_of_empty].
      intros [Ht (e & He & Hte)%Hevidence]. by destruct (Hnone t e).
Qed.

(** ** Rank fusion of a single list *)

Lemma dict_set_fresh {V : Type} (d : list (string * V)) (k : string) (v : V) :
  k ∉ d.*1 → Py.dict_set k v d = d ++ [(k, v)].
Proof.
  induction d as [|[k' v'] d IH]; [done|]. simpl.
  rewrite not_elem_of_cons. intros [Hne Hd].
  destruct (String.eqb_spec k k'); [done|]. by rewrite IH.
Qed.

Lemma dict_get_fresh {V : Type} (d : list (string * V)) (k : string) :
  k ∉ d.*1 → Py.dict_get k d = None.
Proof.
  induction d as [|[k' v'] d IH]; [done|]. simpl.
  rewrite not_elem_of_cons. intros [Hne Hd].
  destruct (String.eqb_spec k k'); [done|]. by apply IH.
Qed.

(** Over items with pairwise distinct keys, none of them in the dictionary
    yet, either loop files the items one after the other. *)
Lemma keyed_loops_fresh {X V : Type} (key_of : X → string) (fresh : X → V)
  (add : V → X → V) (xs : list X) (d : list (string * V)) :
  NoDup (d.*1 ++ (key_of <$> xs)) →
  assign_loop key_of fresh xs d = d ++ map (fun x => (key_of x, fresh x)) xs
  ∧ accumulate_loop key_of fresh add xs d = d ++ map (fun x => (key_of x, fresh x)) xs.
Proof.
  unfold assign_loop, accumulate_loop. revert d.
  induction xs as [|x xs IH]; intros d Hnd; simpl; [by rewrite app_nil_r|].
  assert (Hx : key_of x ∉ d.*1).
  { apply NoDup_app in Hnd as (_ & Hdisj & _). intros Hin.
    apply (Hdisj (key_of x) Hin). by left. }
  rewrite dict_get_fresh, dict_set_fresh by done.
  destruct (IH (d ++ [(key_of x, fresh x)])) as [Hassign Haccumulate].
  { rewrite fmap_app. simpl. rewrite <- app_assoc. exact Hnd. }
  by rewrite Hassign, Haccumulate, <- !app_assoc.
Qed.

Lemma sorted_desc_sorted {A : Type} (key : A → Qc) (xs : list A) :
  Spec.descending key xs → Py.sorted_desc key xs = xs.
Proof.
  induction 1 as [|x xs Hsorted IH Hhead]; [done|]. simpl. rewrite IH.
  destruct xs as [|y xs]; [done|]. simpl.
  apply Forall_cons in Hhead as [Hy _]. unfold Py.ltb.
  rewrite bool_decide_eq_false_2; [done|]. by apply Qcle_not_lt.
Qed.

Lemma enumerate_from_keys (start : nat) (rs : list HybridSearcher.Doc) :
  rank_key <$> Py.enumerate_from start rs = HybridSearcher.doc_id <$> rs.
Proof.
  revert start. induction rs as [|r rs IH]; intros start; [done|].
  simpl. by rewrite IH.
Qed.

Lemma enumerate_from_rank {A : Type} (start rank : nat) (xs : list A) (x : A) :
  (rank, x) ∈ Py.enumerate_from start xs → start ≤ rank.
Proof.
  revert start. induction xs as [|y xs IH]; intros start; simpl.
  - by intros ?%elem_of_nil.
  - intros [[= -> _]|Hin%IH]%elem_of_cons; lia.
Qed.

Lemma rank_score_antitone (weight : Qc) (i j : nat) :
  (0 ≤ weight)%Qc → i ≤ j →
  (HybridSearcher.rank_score weight j ≤ HybridSearcher.rank_score weight i)%Qc.
Proof.
  intros Hw Hij. unfold HybridSearcher.rank_score, Qcdiv.
  apply Qcmult_le_mono_nonneg_l; [done|].
  apply Qcinv_le_contravar.
  - rewrite <- Z2Qc_inj_0. apply (proj1 (Z2Qc_inj_lt 0 _)). lia.
  - apply (proj1 (Z2Qc_inj_le _ _)). lia.
Qed.

Lemma ranked_scores_descending (weight : Qc) (start : nat) (rs : list HybridSearcher.Doc) :
  (0 ≤ weight)%Qc →
  Spec.descending snd
    (map (fun x : nat * HybridSearcher.Doc =>
            (rank_key x, HybridSearcher.rank_score weight x.1))
         (Py.enumerate_from start rs)).
Proof.
  intros Hw. revert start. induction rs as [|r rs IH]; intros start; simpl; [constructor|].
  constructor; [apply IH|]. apply Forall_forall.
  intros [k s] ([rank x] & [= -> ->] & Hin)%list_elem_of_fmap. simpl.
  apply rank_score_antitone; [done|]. apply enumerate_from_rank in Hin. lia.
Qed.

(** X29. Fusing a list of results with pairwise distinct identities with an
    empty list keeps its order, whichever side it is on, as long as its
    weight is not negative: the outcome is the list's own ranking, cut at
    [top_k]. *)
Theorem fuse_results_single_list (self : HybridSearcher.T)
  (results : list HybridSearcher.Doc) (top_k : Z) :
  NoDup (HybridSearcher.doc_id <$> results) →
  ((0 ≤ HybridSearcher.dense_weight self)%Qc →
   HybridSearcher.fuse_results self results [] top_k
   = Py.slice_to (rank_only (HybridSearcher.dense_weight self) results) top_k)
  ∧ ((0 ≤ HybridSearcher.bm25_weight self)%Qc →
     HybridSearcher.fuse_results self [] results top_k
     = Py.slice_to (rank_only (HybridSearcher.bm25_weight self) results) top_k).
Proof.
  intros Hnd. unfold HybridSearcher.fuse_results, rank_only, Py.enumerate.
  assert (Hkeys : NoDup (([] : list (string * Qc)).*1
                         ++ (rank_key <$> Py.enumerate_from 0 results))).
  { by rewrite enumerate_from_keys. }
  split; intros Hw.
  - rewrite fuse_bm25_loop, fuse_dense_loop. unfold Py.enumerate.
    rewrite (proj1 (keyed_loops_fresh rank_key (dense_rank_score self)
                      (bm25_rank_added self) _ [] Hkeys)).
    simpl. f_equal. apply (sorted_desc_sorted snd).
    by apply (ranked_scores_descending (HybridSearcher.dense_weight self) 0 results).
  - rewrite fuse_bm25_loop, fuse_dense_loop. unfold Py.enumerate.
    change (assign_loop rank_key (dense_rank_score self) (Py.enumerate_from 0 []) [])
      with ([] : list (string * Qc)).
    rewrite (proj2 (keyed_loops_fresh rank_key (bm25_rank_score self)
                      (bm25_rank_added self) _ [] Hkeys)).
    simpl. f_equal. apply (sorted_desc_sorted snd).
    by apply (ranked_scores_descending (HybridSearcher.bm25_weight self) 0 results).
Qed.

Lemma fuse_results_single_list_witness :
  HybridSearcher.fuse_results default_searcher [doc "a"; doc "b"; doc "c"] [] 2
  = Py.slice_to (rank_only (Py.lit 7 10) [doc "a"; doc "b"; doc "c"]) 2
  ∧ HybridSearcher.fuse_results default_searcher [] [doc "a"; doc "b"; doc "c"] 2
    = Py.slice_to (rank_only (Py.lit 3 10) [doc "a"; doc "b"; doc "c"]) 2.
Proof.
  assert (Hnd : NoDup (HybridSearcher.doc_id <$> [doc "a"; doc "b"; doc "c"])).
  { apply (bool_decide_unpack _). by vm_compute. }
  destruct (fuse_results_single_list default_searcher [doc "a"; doc "b"; doc "c"] 2 Hnd)
    as [Hdense Hbm25].
  split; [apply Hdense | apply Hbm25]; by vm_compute.
Defined.
